(** * ctai_excel_reporter: the layout engine of [BaseExcelReporter]

    A shallow embedding of [src/ctai_excel_reporter/base_excel_reporter.py]
    and the properties of its cursor model, size estimators, column width
    registry, table renderer and content blocks.

    Conventions of the embedding:
    - Python [int] is [Z]; Python [float] is an IEEE-754 binary64 value,
      represented by [spec_float] with the operations of the Standard
      Library's [SpecFloat] at precision 53 and maximal exponent 1024
      (round to nearest, ties to even), so rounding, infinities and NaN
      are those of the interpreter;
    - a Python [str] is a [string], one [ascii] per character;
    - the reporter is a record, the Python lists that hold cursors live
      in a store of their own, and every method is a computation in a
      state-and-exception monad;
    - the spreadsheet writer (xlsxwriter) and pandas are collaborators:
      the worksheet records what the reporter asks it to write. *)

From Stdlib Require Import ZArith Lia String Ascii List.
From Stdlib Require Import Floats.SpecFloat.
From stdpp Require Import gmap strings list.

Local Open Scope Z_scope.

(** ** Python floats: binary64 *)

Module PyFloat.

Definition prec : Z := 53.
Definition emax : Z := 1024.

Definition pyfloat : Type := spec_float.

(** [float(z)] for an [int]: the nearest binary64 value. *)
Definition of_int (z : Z) : pyfloat := binary_normalize prec emax z 0 false.

Definition mul : pyfloat -> pyfloat -> pyfloat := SFmul prec emax.
Definition div : pyfloat -> pyfloat -> pyfloat := SFdiv prec emax.
Definition ltb : pyfloat -> pyfloat -> bool := SFltb.
Definition leb : pyfloat -> pyfloat -> bool := SFleb.

Definition is_nan (x : pyfloat) : bool :=
  match x with S754_nan => true | _ => false end.

Definition is_zero (x : pyfloat) : bool :=
  match x with S754_zero _ => true | _ => false end.

(** [math.ceil]: defined on finite values only ([None] stands for the
    [OverflowError] on an infinity and the [ValueError] on NaN). *)
Definition ceil (x : pyfloat) : option Z :=
  match x with
  | S754_zero _ => Some 0
  | S754_finite s m e =>
      let v := if s then Z.neg m else Z.pos m in
      Some (if 0 <=? e then v * 2 ^ e else - ((- v) / 2 ^ (- e)))
  | S754_infinity _ | S754_nan => None
  end.

(** A value is [small b] when it is a zero or a finite [m * 2^e] whose
    magnitude, the number of binary digits of [m] plus [e], is at most
    [b]: then its absolute value is below [2^b]. *)
Definition small (b : Z) (x : pyfloat) : Prop :=
  match x with
  | S754_zero _ => True
  | S754_finite _ m e => Z.pos (digits2_pos m) + e <= b
  | _ => False
  end.

End PyFloat.

Import PyFloat.

(** ** Python values *)

(** Exceptions the modelled code can raise. *)
Inductive exn : Type :=
  | KeyError | IndexError | TypeError | AttributeError
  | ZeroDivisionError | OverflowError | DuplicateWorksheetName.

(** [numbers.Number] instances that occur: [int] and [float]. *)
Inductive number : Type :=
  | Int (z : Z)
  | Float (f : pyfloat).

(** An object as the reporter sees it: a number, a [str], or anything
    else.  Numbers and other objects carry their [str()] rendering, which
    the reporter only measures or writes. *)
Inductive pyobj : Type :=
  | PyNum (n : number) (repr : string)
  | PyStr (s : string)
  | PyObj (repr : string).

(** [str(o)] *)
Definition py_str (o : pyobj) : string :=
  match o with
  | PyNum _ r => r
  | PyStr s => s
  | PyObj r => r
  end.

(** [len(s)] *)
Definition len (s : string) : Z := Z.of_nat (String.length s).

Definition to_float (n : number) : pyfloat :=
  match n with
  | Int z => of_int z
  | Float f => f
  end.

(** [a < b] on numbers.  A comparison between an [int] and a [float] is
    made on the float of the [int], which is what Python's exact
    comparison gives for integers below 2^53 in magnitude. *)
Definition py_lt (a b : number) : bool :=
  match a, b with
  | Int x, Int y => x <? y
  | _, _ => ltb (to_float a) (to_float b)
  end.

Definition py_le (a b : number) : bool :=
  match a, b with
  | Int x, Int y => x <=? y
  | _, _ => leb (to_float a) (to_float b)
  end.

(** [a * b] *)
Definition py_mul (a b : number) : number :=
  match a, b with
  | Int x, Int y => Int (x * y)
  | _, _ => Float (mul (to_float a) (to_float b))
  end.

(** [a / b]: true division, always a float; division by a zero raises. *)
Definition py_truediv (a b : number) : exn + number :=
  if is_zero (to_float b) then inl ZeroDivisionError
  else inr (Float (div (to_float a) (to_float b))).

(** [a // b] on [int]: floor division. *)
Definition py_floordiv (a b : Z) : exn + Z :=
  if b =? 0 then inl ZeroDivisionError else inr (a / b).

(** [math.ceil(x)] *)
Definition math_ceil (x : number) : exn + Z :=
  match x with
  | Int z => inr z
  | Float f => match ceil f with Some k => inr k | None => inl OverflowError end
  end.

(** [l[i]] on a sequence, with Python's negative indices. *)
Definition py_index {A : Type} (l : list A) (i : Z) : exn + A :=
  let n := Z.of_nat (length l) in
  let k := if i <? 0 then n + i else i in
  if (k <? 0) || (n <=? k) then inl IndexError
  else match l !! Z.to_nat k with Some x => inr x | None => inl IndexError end.

(** [text.split(sep)] for a one-character separator. *)
Fixpoint split (sep : ascii) (text : string) : list string :=
  match text with
  | EmptyString => [EmptyString]
  | String c rest =>
      if Ascii.eqb c sep then EmptyString :: split sep rest
      else match split sep rest with
           | line :: lines => String c line :: lines
           | [] => [String c EmptyString]
           end
  end.

Definition newline : ascii := Ascii.ascii_of_nat 10.

(** [c in s] for a one-character [c]. *)
Fixpoint contains (c : ascii) (s : string) : bool :=
  match s with
  | EmptyString => false
  | String d rest => Ascii.eqb d c || contains c rest
  end.

(** ** The spreadsheet writer

    What the reporter needs of an xlsxwriter worksheet: the cells, text
    boxes and images it was asked to write, and [col_info], the width and
    format registered for each column by [set_column]. *)

(** A property value of a format or of an options dict. *)
Inductive pval : Type :=
  | PNum (n : number)
  | PText (s : string).

(** A dict of properties; a [Format] object is the dict of what was set on it. *)
Abbreviation style := (gmap string pval).
Abbreviation Format := (gmap string pval).

(** [workbook.add_format(properties)] *)
Definition add_format (properties : option style) : Format :=
  default ∅ properties.

Definition set_bottom (f : Format) : Format := <["bottom" := PNum (Int 1)]> f.
Definition set_right (f : Format) : Format := <["right" := PNum (Int 1)]> f.

Record Textbox : Type := mkTextbox {
  tb_row : Z; tb_col : Z; tb_text : string; tb_options : gmap string pval }.

(** [PIL.Image]: only its pixel size [(width, height)] matters. *)
Record Image : Type := mkImage { size : Z * Z }.

Record Picture : Type := mkPicture {
  pic_row : Z; pic_col : Z; pic_name : string; pic_data : Image;
  pic_options : gmap string pval }.

Record Worksheet : Type := mkWorksheet {
  cells : gmap (Z * Z) (pyobj * Format);
  col_info : gmap Z (pyfloat * Format);
  textboxes : list Textbox;
  pictures : list Picture }.

Definition empty_worksheet : Worksheet := mkWorksheet ∅ ∅ [] [].

(** [worksheet.write(row, col, value, format)] *)
Definition ws_write (row col : Z) (value : pyobj) (fmt : Format) (ws : Worksheet) : Worksheet :=
  mkWorksheet (<[(row, col) := (value, fmt)]> (cells ws)) (col_info ws)
              (textboxes ws) (pictures ws).

(** [worksheet.set_column(first, last, width, format)]: every column of
    the range is registered with the width and the format. *)
Definition ws_set_column (first last : Z) (width : pyfloat) (fmt : Format)
    (ws : Worksheet) : Worksheet :=
  mkWorksheet (cells ws)
              (foldr (λ col m, <[col := (width, fmt)]> m) (col_info ws)
                     (seqZ first (last - first + 1)))
              (textboxes ws) (pictures ws).

Definition ws_insert_textbox (tb : Textbox) (ws : Worksheet) : Worksheet :=
  mkWorksheet (cells ws) (col_info ws) (tb :: textboxes ws) (pictures ws).

Definition ws_insert_image (p : Picture) (ws : Worksheet) : Worksheet :=
  mkWorksheet (cells ws) (col_info ws) (textboxes ws) (p :: pictures ws).

(** ** pandas *)

Inductive dtype : Type := IntegerDtype | FloatDtype | OtherDtype.

(** A [DataFrame]: the column labels, the rows as [iterrows()] yields
    them (index label and the values of the row), and for a label the
    kind of dtype of [df[label]]. *)
Record DataFrame : Type := mkDataFrame {
  columns : list pyobj;
  iterrows : list (pyobj * list pyobj);
  dtype_of : pyobj -> dtype }.

Definition is_integer_dtype (d : dtype) : bool :=
  match d with IntegerDtype => true | _ => false end.
Definition is_float_dtype (d : dtype) : bool :=
  match d with FloatDtype => true | _ => false end.

(** [len(df)] and [len(df.columns)] *)
Definition df_len (df : DataFrame) : Z := Z.of_nat (length (iterrows df)).
Definition columns_len (df : DataFrame) : Z := Z.of_nat (length (columns df)).

(** Every row has one value per column. *)
Definition well_formed (df : DataFrame) : Prop :=
  Forall (λ r, length r.2 = length (columns df)) (iterrows df).

(** ** The reporter and the store of lists *)

(** A reference to a Python list of two integers (a cursor). *)
Abbreviation loc := positive.

Record State : Type := mkState {
  PIXEL_SHEET_WIDTH : Z;
  MAX_CELL_WIDTH : pyfloat;
  MIN_CELL_WIDTH : pyfloat;
  sheetnames : gmap string Worksheet;     (* self._wb.sheetnames *)
  _sheet : option string;                 (* the active worksheet, by name *)
  _cursor : option loc;
  _cursor_anchor : option loc;
  default_cell_format : option Format;
  lists : gmap loc (Z * Z) }.             (* the list objects *)

(** A method returns a value in a new state or raises. *)
Inductive outcome (A : Type) : Type :=
  | Ok (a : A) (w : State)
  | Raise (e : exn).
Arguments Ok {A} a w.
Arguments Raise {A} e.

Definition M (A : Type) : Type := State -> outcome A.

#[global] Instance M_ret : MRet M := λ A a w, Ok a w.
#[global] Instance M_bind : MBind M := λ A B f m w,
  match m w with
  | Ok a w' => f a w'
  | Raise e => Raise e
  end.

(** A pure computation that may raise. *)
Definition lift {A : Type} (r : exn + A) : M A := λ w,
  match r with inl e => Raise e | inr a => Ok a w end.

(** Read and assign attributes of the reporter. *)
Definition gets {A : Type} (field : State -> A) : M A := λ w, Ok (field w) w.

Definition modify (f : State -> State) : M unit := λ w, Ok tt (f w).

(** Read an attribute that may still be [None]. *)
Definition attr {A : Type} (field : State -> option A) (e : exn) : M A := λ w,
  match field w with Some a => Ok a w | None => Raise e end.

Definition set_sheetnames (m : gmap string Worksheet) (w : State) : State :=
  mkState (PIXEL_SHEET_WIDTH w) (MAX_CELL_WIDTH w) (MIN_CELL_WIDTH w) m
          (_sheet w) (_cursor w) (_cursor_anchor w) (default_cell_format w) (lists w).

Definition set_sheet (s : option string) (w : State) : State :=
  mkState (PIXEL_SHEET_WIDTH w) (MAX_CELL_WIDTH w) (MIN_CELL_WIDTH w) (sheetnames w)
          s (_cursor w) (_cursor_anchor w) (default_cell_format w) (lists w).

Definition set_cursor (c : option loc) (w : State) : State :=
  mkState (PIXEL_SHEET_WIDTH w) (MAX_CELL_WIDTH w) (MIN_CELL_WIDTH w) (sheetnames w)
          (_sheet w) c (_cursor_anchor w) (default_cell_format w) (lists w).

Definition set_cursor_anchor (c : option loc) (w : State) : State :=
  mkState (PIXEL_SHEET_WIDTH w) (MAX_CELL_WIDTH w) (MIN_CELL_WIDTH w) (sheetnames w)
          (_sheet w) (_cursor w) c (default_cell_format w) (lists w).

Definition set_default_cell_format (f : option Format) (w : State) : State :=
  mkState (PIXEL_SHEET_WIDTH w) (MAX_CELL_WIDTH w) (MIN_CELL_WIDTH w) (sheetnames w)
          (_sheet w) (_cursor w) (_cursor_anchor w) f (lists w).

Definition set_lists (h : gmap loc (Z * Z)) (w : State) : State :=
  mkState (PIXEL_SHEET_WIDTH w) (MAX_CELL_WIDTH w) (MIN_CELL_WIDTH w) (sheetnames w)
          (_sheet w) (_cursor w) (_cursor_anchor w) (default_cell_format w) h.

(** The active worksheet object. *)
Definition active_ws (w : State) : option Worksheet :=
  name ← _sheet w; sheetnames w !! name.

(** The position the cursor list holds. *)
Definition cursor_pos (w : State) : option (Z * Z) :=
  l ← _cursor w; lists w !! l.

(** Call a method of [self._sheet] that updates the worksheet. *)
Definition on_sheet (f : Worksheet -> Worksheet) : M unit := λ w,
  match _sheet w with
  | None => Raise AttributeError
  | Some name =>
      match sheetnames w !! name with
      | None => Raise KeyError
      | Some ws => Ok tt (set_sheetnames (<[name := f ws]> (sheetnames w)) w)
      end
  end.

(** Read [self._sheet]. *)
Definition the_sheet : M Worksheet := λ w,
  match _sheet w with
  | None => Raise AttributeError
  | Some name =>
      match sheetnames w !! name with
      | None => Raise KeyError
      | Some ws => Ok ws w
      end
  end.

(** Read [(self._cursor[0], self._cursor[1])]. *)
Definition the_cursor : M (Z * Z) := λ w,
  match cursor_pos w with
  | Some p => Ok p w
  | None => Raise TypeError
  end.

(** A caller building a list [[row, col]]. *)
Definition new_list (p : Z * Z) : M loc := λ w,
  let l := fresh (dom (lists w)) in
  Ok l (set_lists (<[l := p]> (lists w)) w).

Fixpoint for_enumerate {A : Type} (i : Z) (l : list A) (body : Z -> A -> M unit) : M unit :=
  match l with
  | [] => mret tt
  | x :: l' => body i x;; for_enumerate (i + 1) l' body
  end.

(** A [for] loop that updates a local variable. *)
Fixpoint for_fold {A B : Type} (body : B -> A -> M B) (acc : B) (l : list A) : M B :=
  match l with
  | [] => mret acc
  | x :: l' => acc' ← body acc x; for_fold body acc' l'
  end.

Fixpoint for_range (n : nat) (body : M unit) : M unit :=
  match n with
  | O => mret tt
  | S n' => body;; for_range n' body
  end.

(** ** [BaseExcelReporter] *)

(** Class constants.  [8.43] is the binary64 value nearest to 843/100
    ([0x1.0dc28f5c28f5cp+3]); [int(8 * 1.125)] is [9]. *)
Definition CELL_WIDTH : pyfloat := S754_finite false 4745668107341660 (-49).
Definition PIXEL_CELL_WIDTH : Z := 64.
Definition PIXEL_ROW_HEIGHT : Z := 20.
Definition PIXEL_TO_WIDTH_RATIO : pyfloat := div CELL_WIDTH (of_int PIXEL_CELL_WIDTH).
Definition PIXEL_CHAR_WIDTH : Z := 9.

(** The list [[0, 0]] that is the default value of the [cursor]
    parameter of [set_active_sheet]: one object, built when the method is
    defined. *)
Definition default_cursor : loc := 1%positive.

(** [__init__]: a reporter with no sheet and no cursor.  The store holds
    the list of [default_cursor]. *)
Definition __init__ (pixel_sheet_width : Z) (max_cell_width min_cell_width : pyfloat) : State :=
  mkState pixel_sheet_width max_cell_width min_cell_width ∅ None None None None
          {[ default_cursor := (0, 0) ]}.

(** Default arguments of [__init__]: [1200], [24] and [3.5]. *)
Definition default_pixel_sheet_width : Z := 1200.
Definition default_max_cell_width : pyfloat := of_int 24.
Definition default_min_cell_width : pyfloat := S754_finite false 7881299347898368 (-51).

(** [set_active_sheet(name, cursor=[0, 0])]; [None] for an omitted [cursor]. *)
Definition set_active_sheet (name : string) (cursor : option loc) : M unit := λ w,
  match sheetnames w !! name with
  | None => Raise KeyError
  | Some _ => Ok tt (set_cursor (Some (default default_cursor cursor)) (set_sheet (Some name) w))
  end.

(** [self._sheet = self._wb.add_worksheet(name)]: a name in use is refused. *)
Definition add_worksheet (name : string) : M unit := λ w,
  match sheetnames w !! name with
  | Some _ => Raise DuplicateWorksheetName
  | None => Ok tt (set_sheet (Some name)
                     (set_sheetnames (<[name := empty_worksheet]> (sheetnames w)) w))
  end.

(** [create_empty_sheet(name, default_cell_format={})]; ['A:ZZ'] is the
    range of columns 0 to 701. *)
Definition create_empty_sheet (name : string) (default_cell_format : style) : M unit :=
  add_worksheet name;;
  let cell_format := add_format (Some default_cell_format) in
  on_sheet (ws_set_column 0 701 CELL_WIDTH cell_format);;
  modify (set_default_cell_format (Some (add_format (Some default_cell_format))));;
  set_active_sheet name None.

(** [apply_shift(shift)]: the list the cursor refers to is updated in place. *)
Definition apply_shift (shift : Z * Z) : M unit := λ w,
  match _cursor w with
  | None => Raise TypeError
  | Some l =>
      match lists w !! l with
      | None => Raise TypeError
      | Some (r, c) => Ok tt (set_lists (<[l := (r + shift.1, c + shift.2)]> (lists w)) w)
      end
  end.

(** [_text(string, format=None, shift=(2, 0))] *)
Definition _text (string : pyobj) (format : option style) (shift : Z * Z) : M unit :=
  text_pos ← the_cursor;
  let cur_format := add_format format in
  on_sheet (ws_write text_pos.1 text_pos.2 string cur_format);;
  apply_shift shift.

(** [__printed_text_height(text)] *)
Definition __printed_text_height (text : string) : M Z :=
  S ← gets PIXEL_SHEET_WIDTH;
  for_fold (λ height line,
              q ← lift (py_floordiv (len line * PIXEL_CHAR_WIDTH) S);
              let height := height + q in
              mret (height + 1))
           0 (split newline text).

(** [__printed_value_width(value)] *)
Definition __printed_value_width (value : pyobj) : pyfloat :=
  mul (of_int (len (py_str value) * PIXEL_CHAR_WIDTH)) PIXEL_TO_WIDTH_RATIO.

(** [__clip(value, lower, upper)] *)
Definition __clip (value lower upper : pyfloat) : pyfloat :=
  if ltb value lower then lower else if ltb upper value then upper else value.

(** [_textbox(text, title=None, header_format={}, textbox_format={}, shift=None)] *)
Definition _textbox (text : string) (title : option pyobj)
    (header_format textbox_format : style) (shift : option (Z * Z)) : M unit :=
  text_height ← __printed_text_height text;
  cur ← the_cursor;
  let box_pos := (cur.1 + 1, cur.2) in
  S ← gets PIXEL_SHEET_WIDTH;
  on_sheet (ws_insert_textbox
              (mkTextbox box_pos.1 box_pos.2 text
                 (textbox_format ∪
                  {[ "width" := PNum (Int S);
                     "height" := PNum (Int (text_height * PIXEL_ROW_HEIGHT));
                     "object_position" := PNum (Int 1) ]})));;
  match title with
  | Some title =>
      (* self._cursor_anchor = self._cursor.copy() *)
      p ← the_cursor;
      anchor ← new_list p;
      modify (set_cursor_anchor (Some anchor));;
      _text title (Some header_format) (0, 1);;
      cell_header ← lift (py_floordiv (len (py_str title) * PIXEL_CHAR_WIDTH) PIXEL_CELL_WIDTH);
      for_range (Z.to_nat (Z.max 3 cell_header)) (_text (PyStr "") (Some header_format) (0, 1));;
      (* self._cursor = self._cursor_anchor *)
      modify (λ w, set_cursor (_cursor_anchor w) w)
  | None => mret tt
  end;;
  let shift := default (text_height + 2, 0) shift in
  apply_shift shift.

(** [min(1, *scales)]: the first of the smallest. *)
Definition py_min (first : number) (others : list number) : number :=
  foldl (λ m s, if py_lt s m then s else m) first others.

(** [_image(image, image_name, max_pixel_size=(450, 800), image_options={}, shift=None)] *)
Definition _image (image : Image) (image_name : string) (max_pixel_size : Z * Z)
    (image_options : gmap string pval) (shift : option (Z * Z)) : M unit :=
  scale_w ← lift (py_truediv (Int max_pixel_size.1) (Int (size image).1));
  scale_h ← lift (py_truediv (Int max_pixel_size.2) (Int (size image).2));
  let scale := py_min (Int 1) [scale_w; scale_h] in
  im_pos ← the_cursor;
  on_sheet (ws_insert_image
              (mkPicture im_pos.1 im_pos.2 image_name image
                 (image_options ∪
                  {[ "x_scale" := PNum scale; "y_scale" := PNum scale;
                     "object_position" := PNum (Int 3) ]})));;
  shift ← match shift with
          | Some s => mret s
          | None =>
              rows ← lift (py_truediv (py_mul (Int (size image).2) scale) (Int PIXEL_ROW_HEIGHT));
              k ← lift (math_ceil rows);
              mret (k + 1, 0)
          end;
  apply_shift shift.

(** *** Tables *)

(** [__get_col_width(col)] *)
Definition __get_col_width (col : Z) : M pyfloat :=
  ws ← the_sheet;
  match col_info ws !! col with
  | Some info => mret info.1
  | None => mret CELL_WIDTH
  end.

(** [__adjust_col_width(col_ind, text, col_format)] *)
Definition __adjust_col_width (col_ind : Z) (text : pyobj) (col_format : Format) : M unit :=
  let text_len := __printed_value_width text in
  MIN ← gets MIN_CELL_WIDTH;
  MAX ← gets MAX_CELL_WIDTH;
  let width := __clip text_len MIN MAX in
  on_sheet (ws_set_column col_ind col_ind width col_format).

Definition percent : ascii := Ascii.ascii_of_nat 37.

(** [__get_number_format(col_name, df)] *)
Definition __get_number_format (col_name : pyobj) (df : DataFrame) : option style :=
  if match col_name with PyStr s => contains percent s | _ => false end
  then Some {[ "num_format" := PText "0.00%" ]}
  else if is_integer_dtype (dtype_of df col_name)
  then Some {[ "num_format" := PText "0" ]}
  else if is_float_dtype (dtype_of df col_name)
  then Some {[ "num_format" := PText "0.000" ]}
  else None.

(** [__cast_to_str_except_numbers(value)] *)
Definition __cast_to_str_except_numbers (value : pyobj) : pyobj :=
  match value with
  | PyNum _ _ => value
  | _ => PyStr (py_str value)
  end.

(** [__get_table_item_format(cur_row, cur_col, df)] *)
Definition __get_table_item_format (cur_row cur_col : Z) (df : DataFrame) : exn + Format :=
  match py_index (columns df) cur_col with
  | inl e => inl e
  | inr col_name =>
      let num_format := __get_number_format col_name df in
      let cur_format := add_format num_format in
      inr (if (cur_row =? df_len df - 1) && (cur_col =? columns_len df - 1)
           then set_right (set_bottom cur_format)
           else if cur_row =? df_len df - 1
           then set_bottom cur_format
           else if cur_col =? columns_len df - 1
           then set_right cur_format
           else cur_format)
  end.

(** Lines 171-175 of [_table]: the column is widened when its current
    width is below the printed width of the text. *)
Definition ensure_width (col : Z) (text : pyobj) : M unit :=
  cur_width ← __get_col_width col;
  let need_width := __printed_value_width text in
  if ltb cur_width need_width
  then fmt ← attr default_cell_format AttributeError;
       __adjust_col_width col text fmt
  else mret tt.

(** [_table(df, table_column_format, table_index_format, shift=None)] *)
Definition _table (df : DataFrame) (table_column_format table_index_format : style)
    (shift : option (Z * Z)) : M unit :=
  let col_format := add_format (Some table_column_format) in
  for_enumerate 0 (columns df) (λ j col_name,
    cur ← the_cursor;
    ensure_width (j + cur.2 + 1) col_name;;
    cur ← the_cursor;
    on_sheet (ws_write cur.1 (j + cur.2 + 1) col_name col_format));;
  let ind_format := add_format (Some table_index_format) in
  for_enumerate 0 (iterrows df) (λ i row,
    cur ← the_cursor;
    on_sheet (ws_write (cur.1 + i + 1) cur.2 row.1 ind_format);;
    for_enumerate 0 row.2 (λ j val,
      cur_format ← lift (__get_table_item_format i j df);
      cur ← the_cursor;
      on_sheet (ws_write (cur.1 + i + 1) (cur.2 + j + 1)
                  (__cast_to_str_except_numbers val) cur_format)));;
  let shift := default (df_len df + 2, 0) shift in
  apply_shift shift.

(** * [ExcelReporter]: the themed reporter

    A shallow embedding of [src/ctai_excel_reporter/excel_reporter.py].
    The theme is the object [json.load] gives for the theme file, a dict
    of styles by name; the logo is the image [PIL.Image.open] gives. *)

Definition NECESSARY_FORMAT_KEYS : list string :=
  ["default_cell"; "sheet_title"; "text_title"; "textbox"; "table_columns"; "table_index"].

(** The [ValueError] of [_read_theme]; its message names [key]. *)
Inductive theme_error : Type :=
  | ValueError (key : string).

(** The loop of [_read_theme] over the keys: the first key that is not
    in [formats] raises. *)
Fixpoint check_keys (keys : list string) (formats : gmap string style) : theme_error + unit :=
  match keys with
  | [] => inr tt
  | key :: keys' =>
      match formats !! key with
      | None => inl (ValueError key)
      | Some _ => check_keys keys' formats
      end
  end.

(** [_read_theme(theme_path)], [theme] being the content of the file. *)
Definition _read_theme (theme : gmap string style) : theme_error + gmap string style :=
  let formats := theme in
  match check_keys NECESSARY_FORMAT_KEYS formats with
  | inl e => inl e
  | inr _ => inr formats
  end.

(** The reporter: the attributes of [BaseExcelReporter], the formats of
    the theme and the logo.  [row_info] holds the formats that [set_row]
    registered, by worksheet name and row. *)
Record ExcelReporter : Type := mkExcelReporter {
  base : State;
  _formats : gmap string style;
  logo_image : Image;
  row_info : gmap (string * Z) Format }.

Definition set_base (w : State) (x : ExcelReporter) : ExcelReporter :=
  mkExcelReporter w (_formats x) (logo_image x) (row_info x).


(** [ExcelReporter.__init__(excel_path, theme_path, logo_path,
    pixel_sheet_width, max_cell_width, min_cell_width)] *)
Definition ExcelReporter__init__ (theme : gmap string style) (logo : Image)
    (pixel_sheet_width : Z) (max_cell_width min_cell_width : pyfloat)
    : theme_error + ExcelReporter :=
  let self := __init__ pixel_sheet_width max_cell_width min_cell_width in
  match _read_theme theme with
  | inl e => inl e
  | inr formats => inr (mkExcelReporter self formats logo ∅)
  end.

(** A method of [ExcelReporter] returns a value in a new state or raises. *)
Inductive result (A : Type) : Type :=
  | Done (a : A) (x : ExcelReporter)
  | Failed (e : exn).
Arguments Done {A} a x.
Arguments Failed {A} e.

Definition MX (A : Type) : Type := ExcelReporter -> result A.

#[global] Instance MX_ret : MRet MX := λ A a x, Done a x.
#[global] Instance MX_bind : MBind MX := λ A B f m x,
  match m x with
  | Done a x' => f a x'
  | Failed e => Failed e
  end.

(** A method inherited from [BaseExcelReporter]. *)
Definition super {A : Type} (m : M A) : MX A := λ x,
  match m (base x) with
  | Ok a w => Done a (set_base w x)
  | Raise e => Failed e
  end.

(** [self._formats[key]] *)
Definition format_of (key : string) : MX style := λ x,
  match _formats x !! key with
  | Some f => Done f x
  | None => Failed KeyError
  end.











(** [insert_image(image, image_name, max_pixel_size=(450, 800),
    image_options={}, shift=None)] *)
Definition insert_image (image : Image) (image_name : string) (max_pixel_size : Z * Z)
    (image_options : gmap string pval) (shift : option (Z * Z)) : MX unit :=
  super (_image image image_name max_pixel_size image_options shift).


(** [insert_textbox(text, title=None, shift=None)] *)
Definition insert_textbox (text : string) (title : option pyobj) (shift : option (Z * Z))
    : MX unit :=
  text_title ← format_of "text_title";
  textbox ← format_of "textbox";
  super (_textbox text title text_title textbox shift).

(** [insert_text(string, shift=(2, 0))] *)
Definition insert_text (value : pyobj) (shift : Z * Z) : MX unit :=
  super (_text value None shift).

(** ** Definitions used to state the properties *)

(** Sum of a list of integers. *)
Definition sum_Z (l : list Z) : Z := foldr Z.add 0 l.

(** The rows one line takes on a sheet [S] pixels wide. *)
Definition line_rows (S : Z) (line : string) : Z :=
  len line * PIXEL_CHAR_WIDTH / S + 1.

(** [sep.join(lines)] *)
Fixpoint join (sep : ascii) (lines : list string) : string :=
  match lines with
  | [] => EmptyString
  | [line] => line
  | line :: rest => (line +:+ String sep (join sep rest))%string
  end.

(** The state [w] with the worksheet called [n] replaced by [ws]. *)
Definition put_ws (n : string) (ws : Worksheet) (w : State) : State :=
  set_sheetnames (<[n := ws]> (sheetnames w)) w.

(** The states that differ from [w0] by the worksheet called [n] only,
    that worksheet being in [J]. *)
Definition on_ws (w0 : State) (n : string) (J : Worksheet -> Prop) (w : State) : Prop :=
  exists ws, w = put_ws n ws w0 /\ J ws.

(** The width the registry gives a column: [__get_col_width] on a worksheet. *)
Definition width_of (ws : Worksheet) (col : Z) : pyfloat :=
  match col_info ws !! col with
  | Some info => info.1
  | None => CELL_WIDTH
  end.

(** The cursor position after a computation, when it returns. *)
Definition cursor_after (m : M unit) (w : State) : option (Z * Z) :=
  match m w with
  | Ok _ w' => cursor_pos w'
  | Raise _ => None
  end.

(** Total correctness: from a state in [P] the computation returns, in a
    state and with a result in [Q]. *)
Definition hoare {A : Type} (P : State -> Prop) (m : M A) (Q : A -> State -> Prop) : Prop :=
  forall w, P w -> exists a w', m w = Ok a w' /\ Q a w'.

(** Lines 171-175 of [_table] on the worksheet: the column is registered
    with the clipped width when its width is below the printed width. *)
Definition widen (MIN MAX : pyfloat) (fmt : Format) (col : Z) (text : pyobj)
    (ws : Worksheet) : Worksheet :=
  if ltb (width_of ws col) (__printed_value_width text)
  then ws_set_column col col (__clip (__printed_value_width text) MIN MAX) fmt ws
  else ws.

(** What [_table] leaves on the worksheet for a table anchored at [(r, c)]:
    the header row, the index column, and the data cells with the format
    of [__get_table_item_format]. *)
Definition header_written (df : DataFrame) (fmt : Format) (r c : Z) (k : nat)
    (ws : Worksheet) : Prop :=
  forall (j : nat) name, (j < k)%nat -> columns df !! j = Some name ->
    cells ws !! (r, Z.of_nat j + c + 1) = Some (name, fmt).

Definition index_written (df : DataFrame) (fmt : Format) (r c : Z) (k : nat)
    (ws : Worksheet) : Prop :=
  forall (i : nat) row, (i < k)%nat -> iterrows df !! i = Some row ->
    cells ws !! (r + Z.of_nat i + 1, c) = Some (row.1, fmt).

Definition row_written (df : DataFrame) (r c : Z) (i : nat) (values : list pyobj)
    (k : nat) (ws : Worksheet) : Prop :=
  forall (j : nat) val, (j < k)%nat -> values !! j = Some val ->
    exists fmt, __get_table_item_format (Z.of_nat i) (Z.of_nat j) df = inr fmt /\
      cells ws !! (r + Z.of_nat i + 1, c + Z.of_nat j + 1)
        = Some (__cast_to_str_except_numbers val, fmt).

Definition rows_written (df : DataFrame) (r c : Z) (k : nat) (ws : Worksheet) : Prop :=
  forall (i : nat) row, (i < k)%nat -> iterrows df !! i = Some row ->
    row_written df r c i row.2 (length row.2) ws.

Definition table_written (df : DataFrame) (col_format ind_format : Format) (r c : Z)
    (ws : Worksheet) : Prop :=
  header_written df col_format r c (length (columns df)) ws /\
  index_written df ind_format r c (length (iterrows df)) ws /\
  rows_written df r c (length (iterrows df)) ws.

(** A state in which content can be placed: a worksheet is active, the
    cursor is at [p], and the default cell format of the sheet is set. *)
Definition ready (w : State) (p : Z * Z) : Prop :=
  is_Some (active_ws w) /\ cursor_pos w = Some p /\ is_Some (default_cell_format w).

(** The border put on a cell, if any. *)
Definition border : option pval := Some (PNum (Int 1)).

(** The reporter built with the given settings, after
    [create_empty_sheet("A")]. *)
Definition new_sheet_A (pixel_sheet_width : Z) (max_cell_width min_cell_width : pyfloat) : State :=
  let w0 := __init__ pixel_sheet_width max_cell_width min_cell_width in
  match create_empty_sheet "A" ∅ w0 with
  | Ok _ w => w
  | Raise _ => w0
  end.

(** The worksheet of a new sheet: columns A to ZZ at the default width. *)
Definition new_ws : Worksheet := ws_set_column 0 701 CELL_WIDTH ∅ empty_worksheet.

(** A reporter with default settings after [create_empty_sheet("A")]. *)
Definition sheet_A : State :=
  new_sheet_A default_pixel_sheet_width default_max_cell_width default_min_cell_width.

(** A table of 3 rows and 2 columns: integer counts and float shares,
    the latter under a name with a percent sign. *)
Definition example_df : DataFrame :=
  mkDataFrame
    [PyStr "count"; PyStr "share, %"]
    [ (PyStr "a", [PyNum (Int 1) "1"; PyNum (Float (div (of_int 1) (of_int 4))) "0.25"]);
      (PyStr "b", [PyNum (Int 2) "2"; PyNum (Float (div (of_int 1) (of_int 2))) "0.5"]);
      (PyStr "c", [PyNum (Int 1) "1"; PyNum (Float (div (of_int 1) (of_int 4))) "0.25"]) ]
    (λ name, match name with
             | PyStr "count" => IntegerDtype
             | PyStr "share, %" => FloatDtype
             | _ => OtherDtype
             end).

(** A table with one column and no row. *)
Definition empty_df : DataFrame :=
  mkDataFrame [PyStr "count"] [] (λ _, OtherDtype).

(** Every width of the registry, and the default width, is at most [MAX]. *)
Definition widths_bounded (MAX : pyfloat) (ws : Worksheet) : Prop :=
  leb CELL_WIDTH MAX = true /\
  map_Forall (λ _ info, leb (fst info) MAX = true) (col_info ws).

(** A sequence of calls. *)
Fixpoint run_all (ms : list (M unit)) : M unit :=
  match ms with
  | [] => mret tt
  | m :: ms' => m;; run_all ms'
  end.

(** A reporter with the widths of columns limited to 5, after
    [create_empty_sheet("A")]. *)
Definition narrow_A : State :=
  new_sheet_A default_pixel_sheet_width (of_int 5) default_min_cell_width.

(** A reporter built with [min_cell_width=10] and [max_cell_width=5],
    after [create_empty_sheet("A")]. *)
Definition crossed_A : State :=
  new_sheet_A default_pixel_sheet_width (of_int 5) (of_int 10).

(** The width of a column of the active worksheet. *)
Definition active_width (w : State) (col : Z) : option pyfloat :=
  ws ← active_ws w; Some (width_of ws col).

(** The width of a column of the active worksheet after a computation. *)
Definition width_after (m : M unit) (w : State) (col : Z) : option pyfloat :=
  match m w with
  | Ok _ w' => active_width w' col
  | Raise _ => None
  end.

(** The states [_textbox] goes through while it writes the title: the
    cursor is the list [l], the anchor is another list [l'], a copy that
    holds the position [p] saved. *)
Definition title_inv (n : string) (l l' : loc) (p : Z * Z) (w : State) : Prop :=
  _sheet w = Some n /\ is_Some (sheetnames w !! n) /\
  _cursor w = Some l /\ _cursor_anchor w = Some l' /\ l <> l' /\
  lists w !! l' = Some p /\ is_Some (lists w !! l).

(** ** Further definitions used to state properties *)


(** [w'] differs from [w] at most by the active worksheet, the cursor and
    the lists: the settings, the active sheet's name, the default cell
    format and every other worksheet are the same. *)
Definition same_elsewhere (w w' : State) : Prop :=
  PIXEL_SHEET_WIDTH w' = PIXEL_SHEET_WIDTH w /\
  MAX_CELL_WIDTH w' = MAX_CELL_WIDTH w /\
  MIN_CELL_WIDTH w' = MIN_CELL_WIDTH w /\
  _sheet w' = _sheet w /\
  default_cell_format w' = default_cell_format w /\
  (forall n, _sheet w <> Some n -> sheetnames w' !! n = sheetnames w !! n).

(** Whenever the computation returns, the state it returns in is related
    by [R] to the state it started from. *)
Definition preserves {A : Type} (R : State -> State -> Prop) (m : M A) : Prop :=
  forall w a w', m w = Ok a w' -> R w w'.

(** A workbook with the sheets "A" and "B", both new, "B" active. *)
Definition two_sheets : State :=
  mkState default_pixel_sheet_width default_max_cell_width default_min_cell_width
          (<["B" := new_ws]> {[ "A" := new_ws ]}) (Some "B") (Some default_cursor)
          None (Some ∅) {[ default_cursor := (0, 0) ]}.

(** The cells of a table of [R] rows and [C] columns anchored at [(r, c)]:
    the header row right of the anchor, and the index column and the data
    below.  The anchor cell itself is not one of them. *)
Definition in_table (r c R C : Z) (pos : Z * Z) : Prop :=
  (pos.1 = r /\ c + 1 <= pos.2 <= c + C) \/
  (r + 1 <= pos.1 <= r + R /\ c <= pos.2 <= c + C).

(** What the header loop of [_table] has done after [k] columns, from the
    worksheet [ws0]: cells are written in the header row only, the first
    [k] columns of the table have the registry entry that the adjustment
    gives them from [ws0], and the other entries are those of [ws0]. *)
Definition header_layout (df : DataFrame) (MIN MAX : pyfloat) (dcf : Format) (r c : Z)
    (ws0 : Worksheet) (k : nat) (ws : Worksheet) : Prop :=
  (forall pos, ~ (pos.1 = r /\ c + 1 <= pos.2 <= c + Z.of_nat k) ->
     cells ws !! pos = cells ws0 !! pos) /\
  textboxes ws = textboxes ws0 /\ pictures ws = pictures ws0 /\
  (forall (j : nat) name, (j < k)%nat -> columns df !! j = Some name ->
     col_info ws !! (Z.of_nat j + c + 1)
     = col_info (widen MIN MAX dcf (Z.of_nat j + c + 1) name ws0) !! (Z.of_nat j + c + 1)) /\
  (forall col, ~ (c + 1 <= col <= c + Z.of_nat k) -> col_info ws !! col = col_info ws0 !! col).

(** What the row loop of [_table] has done after [k] rows, from the
    worksheet [ws1]: cells are written in the index column and the data
    columns of these rows only. *)
Definition rows_layout (df : DataFrame) (r c : Z) (ws1 : Worksheet) (k : nat)
    (ws : Worksheet) : Prop :=
  (forall pos, ~ (r + 1 <= pos.1 <= r + Z.of_nat k /\ c <= pos.2 <= c + columns_len df) ->
     cells ws !! pos = cells ws1 !! pos) /\
  textboxes ws = textboxes ws1 /\ pictures ws = pictures ws1 /\
  col_info ws = col_info ws1.

(** The state of [_textbox] after the title and [j] blank header cells
    are written: on the worksheet of [ws0] with the text box [tb] added,
    the title is in the cell [(r, c)] and blanks are in the [j] cells
    right of it; the list [l] that is the cursor has moved [1 + j] cells
    to the right, and the anchor [l'] holds [(r, c)]. *)
Definition title_written (n : string) (l l' : loc) (r c : Z) (title : pyobj)
    (fmt : Format) (tb : Textbox) (ws0 : Worksheet) (j : nat) (w : State) : Prop :=
  _sheet w = Some n /\ _cursor w = Some l /\ _cursor_anchor w = Some l' /\
  lists w !! l = Some (r, c + 1 + Z.of_nat j) /\ lists w !! l' = Some (r, c) /\
  exists ws,
    sheetnames w !! n = Some ws /\
    cells ws !! (r, c) = Some (title, fmt) /\
    (forall i, 1 <= i <= Z.of_nat j -> cells ws !! (r, c + i) = Some (PyStr "", fmt)) /\
    (forall pos, ~ (pos.1 = r /\ c <= pos.2 <= c + Z.of_nat j) ->
       cells ws !! pos = cells ws0 !! pos) /\
    textboxes ws = tb :: textboxes ws0 /\
    pictures ws = pictures ws0 /\ col_info ws = col_info ws0.


(** The scale [_image] gives an image of the size [size] to fit into
    [max_pixel_size]. *)
Definition image_scale (max_pixel_size size : Z * Z) : number :=
  py_min (Int 1) [Float (div (of_int max_pixel_size.1) (of_int size.1));
                  Float (div (of_int max_pixel_size.2) (of_int size.2))].

(** A theme with the six styles, and a logo of 224 by 48 pixels. *)
Definition example_theme : gmap string style :=
  {[ "default_cell" := {[ "font_size" := PNum (Int 10) ]};
     "sheet_title" := {[ "bold" := PNum (Int 1) ]};
     "text_title" := {[ "italic" := PNum (Int 1) ]};
     "textbox" := {[ "font_color" := PText "black" ]};
     "table_columns" := {[ "bg_color" := PText "gray" ]};
     "table_index" := {[ "align" := PText "left" ]} ]}.

Definition example_logo : Image := mkImage (224, 48).

(** The reporter [ExcelReporter.__init__] builds from them, with the
    default settings. *)
Definition example_reporter : ExcelReporter :=
  mkExcelReporter
    (__init__ default_pixel_sheet_width default_max_cell_width default_min_cell_width)
    example_theme example_logo ∅.

(** * Properties *)

(** ** The order of binary64 values *)

Ltac cmp_cases :=
  repeat match goal with
  | H : context [Pos.compare_cont Eq ?a ?b] |- _ =>
      change (Pos.compare_cont Eq a b) with (Pos.compare a b) in H
  | |- context [Pos.compare_cont Eq ?a ?b] =>
      change (Pos.compare_cont Eq a b) with (Pos.compare a b)
  end;
  repeat match goal with
  | H : context [Z.compare ?a ?b] |- _ => destruct (Z.compare_spec a b); simpl in H
  | H : context [Pos.compare ?a ?b] |- _ => destruct (Pos.compare_spec a b); simpl in H
  | |- context [Z.compare ?a ?b] => destruct (Z.compare_spec a b); simpl
  | |- context [Pos.compare ?a ?b] => destruct (Pos.compare_spec a b); simpl
  end; try congruence; try lia.

Ltac float_cases x := destruct x as [[]|[]| |[] ? ?]; simpl.

Lemma SFcompare_antisym (x y : pyfloat) :
  SFcompare y x = option_map CompOpp (SFcompare x y).
Proof. float_cases x; float_cases y; try reflexivity; cmp_cases. Qed.

Lemma SFcompare_lt_trans (x y z : pyfloat) :
  SFcompare x y = Some Lt -> SFcompare y z = Some Lt -> SFcompare x z = Some Lt.
Proof.
  float_cases x; float_cases y; float_cases z; intros H1 H2;
    try congruence; try reflexivity; cmp_cases.
Qed.

Lemma SFcompare_eq_lt_trans (x y z : pyfloat) :
  SFcompare x y = Some Eq -> SFcompare y z = Some Lt -> SFcompare x z = Some Lt.
Proof.
  float_cases x; float_cases y; float_cases z; intros H1 H2;
    try congruence; try reflexivity; cmp_cases.
Qed.

Lemma SFcompare_lt_eq_trans (x y z : pyfloat) :
  SFcompare x y = Some Lt -> SFcompare y z = Some Eq -> SFcompare x z = Some Lt.
Proof.
  float_cases x; float_cases y; float_cases z; intros H1 H2;
    try congruence; try reflexivity; cmp_cases.
Qed.

Lemma SFcompare_eq_trans (x y z : pyfloat) :
  SFcompare x y = Some Eq -> SFcompare y z = Some Eq -> SFcompare x z = Some Eq.
Proof.
  float_cases x; float_cases y; float_cases z; intros H1 H2;
    try congruence; try reflexivity; cmp_cases.
Qed.

Lemma SFcompare_refl (x : pyfloat) : is_nan x = false -> SFcompare x x = Some Eq.
Proof. float_cases x; intros H; try congruence; try reflexivity; cmp_cases. Qed.

Lemma SFcompare_is_Some (x y : pyfloat) :
  is_nan x = false -> is_nan y = false -> exists c, SFcompare x y = Some c.
Proof. float_cases x; float_cases y; intros; try congruence; eauto. Qed.

Lemma SFcompare_not_nan (x y : pyfloat) c :
  SFcompare x y = Some c -> is_nan x = false /\ is_nan y = false.
Proof. float_cases x; float_cases y; intros; try congruence; auto. Qed.

Lemma ltb_compare (x y : pyfloat) : ltb x y = true <-> SFcompare x y = Some Lt.
Proof.
  unfold ltb, SFltb. destruct (SFcompare x y) as [[]|]; split; congruence.
Qed.

Lemma leb_compare (x y : pyfloat) :
  leb x y = true <-> SFcompare x y = Some Lt \/ SFcompare x y = Some Eq.
Proof.
  unfold leb, SFleb. destruct (SFcompare x y) as [[]|]; split; intros; auto;
    try congruence; destruct H; congruence.
Qed.

Lemma leb_not_nan (x y : pyfloat) :
  leb x y = true -> is_nan x = false /\ is_nan y = false.
Proof.
  intros H. apply leb_compare in H. destruct H as [H|H];
    apply SFcompare_not_nan in H; exact H.
Qed.

Lemma ltb_not_nan (x y : pyfloat) :
  ltb x y = true -> is_nan x = false /\ is_nan y = false.
Proof. intros H. apply ltb_compare in H. apply SFcompare_not_nan in H. exact H. Qed.

Lemma leb_refl (x : pyfloat) : is_nan x = false -> leb x x = true.
Proof. intros H. apply leb_compare. right. apply SFcompare_refl, H. Qed.

Lemma ltb_leb (x y : pyfloat) : ltb x y = true -> leb x y = true.
Proof. intros H. apply leb_compare. left. apply ltb_compare, H. Qed.

Lemma leb_trans (x y z : pyfloat) : leb x y = true -> leb y z = true -> leb x z = true.
Proof.
  rewrite !leb_compare. intros [H1|H1] [H2|H2].
  - left. eapply SFcompare_lt_trans; eauto.
  - left. eapply SFcompare_lt_eq_trans; eauto.
  - left. eapply SFcompare_eq_lt_trans; eauto.
  - right. eapply SFcompare_eq_trans; eauto.
Qed.

(** Not below, for ordered values, is above or equal. *)
Lemma ltb_false_leb (x y : pyfloat) :
  is_nan x = false -> is_nan y = false -> ltb x y = false -> leb y x = true.
Proof.
  intros Hx Hy H. destruct (SFcompare_is_Some x y Hx Hy) as [c Hc].
  apply leb_compare. rewrite (SFcompare_antisym x y), Hc. simpl.
  destruct c; auto. exfalso.
  apply ltb_compare in Hc. congruence.
Qed.

Lemma leb_ltb_false (x y : pyfloat) : leb x y = true -> ltb y x = false.
Proof.
  intros H. apply leb_compare in H.
  destruct (ltb y x) eqn:E; [|reflexivity]. apply ltb_compare in E.
  rewrite (SFcompare_antisym y x), E in H. simpl in H. destruct H; congruence.
Qed.

Lemma ltb_irrefl_ge (x y : pyfloat) : ltb x y = true -> ltb y x = false.
Proof. intros H. apply leb_ltb_false, ltb_leb, H. Qed.

(** ** Magnitudes of binary64 results

    Rounding never makes a NaN of a mantissa, and a result whose
    magnitude stays far below [2^1024] is finite: this is what makes
    [math.ceil] defined on what [_image] computes. *)

Lemma fexp_eq (x : Z) : fexp prec emax x = Z.max (x - 53) (-1074).
Proof. reflexivity. Qed.

Lemma digits2_pos_size (p : positive) : digits2_pos p = Pos.size p.
Proof. induction p; simpl; congruence. Qed.

Lemma digits_upper (p : positive) : Z.pos p < 2 ^ Z.pos (digits2_pos p).
Proof.
  rewrite digits2_pos_size. pose proof (Pos.size_gt p) as H.
  apply Pos2Z.pos_lt_pos in H. rewrite Pos2Z.inj_pow in H. exact H.
Qed.

Lemma digits_lower (p : positive) : 2 ^ (Z.pos (digits2_pos p) - 1) <= Z.pos p.
Proof.
  rewrite digits2_pos_size. pose proof (Pos.size_le p) as H.
  apply Pos2Z.pos_le_pos in H. rewrite Pos2Z.inj_pow in H.
  replace (Z.pos (Pos.size p)) with (Z.succ (Z.pos (Pos.size p) - 1)) in H by lia.
  rewrite Z.pow_succ_r in H by lia. lia.
Qed.

Lemma Zdigits2_nonneg (m : Z) : 0 <= Zdigits2 m.
Proof. destruct m; simpl; lia. Qed.

(** A non-negative integer below [2^k] has at most [k] digits. *)
Lemma Zdigits2_le (m k : Z) : 0 <= k -> 0 <= m < 2 ^ k -> Zdigits2 m <= k.
Proof.
  intros Hk [H0 Hm]. destruct m as [|p|p]; simpl; [lia| |lia].
  pose proof (digits_lower p) as Hl.
  destruct (Z.le_gt_cases (Z.pos (digits2_pos p)) k) as [|Hgt]; [assumption|].
  assert (2 ^ k <= 2 ^ (Z.pos (digits2_pos p) - 1)) by (apply Z.pow_le_mono_r; lia).
  lia.
Qed.

Lemma Zdigits2_upper (m : Z) : 0 <= m -> m < 2 ^ Zdigits2 m.
Proof.
  intros H. destruct m as [|p|p]; simpl; [lia | apply digits_upper | lia].
Qed.

Lemma shr_1_m (r : shr_record) : 0 <= shr_m r -> shr_m (shr_1 r) = shr_m r / 2.
Proof.
  destruct r as [m b s]. unfold shr_1, shr_m. intros H.
  destruct m as [|[p|p|]|p]; try lia; try reflexivity.
  - apply Z.div_unique with 1; lia.
  - apply Z.div_unique with 0; lia.
Qed.

Lemma iter_shr_1_m (p : positive) (r : shr_record) :
  0 <= shr_m r -> shr_m (SpecFloat.iter_pos shr_1 p r) = shr_m r / 2 ^ Z.pos p.
Proof.
  revert r. induction p as [p IH|p IH|]; intros r H; cbn [SpecFloat.iter_pos].
  - assert (H1 : 0 <= shr_m (shr_1 r)) by (rewrite shr_1_m by lia; apply Z.div_pos; lia).
    assert (H2 : 0 <= shr_m (SpecFloat.iter_pos shr_1 p (shr_1 r)))
      by (rewrite IH by lia; apply Z.div_pos; lia).
    rewrite IH by exact H2. rewrite IH by exact H1. rewrite shr_1_m by exact H.
    rewrite !Z.div_div by lia. f_equal.
    replace (Z.pos p~1) with (1 + (Z.pos p + Z.pos p)) by lia.
    rewrite !Z.pow_add_r by lia. reflexivity.
  - assert (H2 : 0 <= shr_m (SpecFloat.iter_pos shr_1 p r))
      by (rewrite IH by lia; apply Z.div_pos; lia).
    rewrite IH by exact H2. rewrite IH by exact H.
    rewrite !Z.div_div by lia. f_equal.
    replace (Z.pos p~0) with (Z.pos p + Z.pos p) by lia.
    rewrite !Z.pow_add_r by lia. reflexivity.
  - rewrite shr_1_m by exact H. reflexivity.
Qed.

Lemma shr_record_of_loc_m (m : Z) (l : location) : shr_m (shr_record_of_loc m l) = m.
Proof. destruct l as [|[]]; reflexivity. Qed.

Lemma shr_fexp_bound (m e : Z) (l : location) :
  0 <= m ->
  0 <= shr_m (fst (shr_fexp prec emax m e l)) /\
  Zdigits2 (shr_m (fst (shr_fexp prec emax m e l))) + snd (shr_fexp prec emax m e l)
    <= Z.max (Zdigits2 m + e) (-1074) /\
  snd (shr_fexp prec emax m e l) <= Z.max e (fexp prec emax (Zdigits2 m + e)).
Proof.
  intros Hm. unfold shr_fexp, shr. rewrite fexp_eq.
  pose proof (Zdigits2_nonneg m) as Hd.
  pose proof (Zdigits2_upper m Hm) as Hu.
  destruct (Z.max (Zdigits2 m + e - 53) (-1074) - e) as [|p|p] eqn:En; cbn [fst snd].
  - rewrite shr_record_of_loc_m. lia.
  - rewrite iter_shr_1_m by (rewrite shr_record_of_loc_m; exact Hm).
    rewrite shr_record_of_loc_m.
    assert (H0 : 0 <= m / 2 ^ Z.pos p) by (apply Z.div_pos; lia).
    split; [exact H0|]. split; [|lia].
    destruct (Z.le_gt_cases (Zdigits2 m) (Z.pos p)) as [Hle|Hgt].
    + assert (m < 2 ^ Z.pos p).
      { eapply Z.lt_le_trans; [exact Hu|]. apply Z.pow_le_mono_r; lia. }
      rewrite Z.div_small by lia. simpl. lia.
    + assert (Zdigits2 (m / 2 ^ Z.pos p) <= Zdigits2 m - Z.pos p); [|lia].
      apply Zdigits2_le; [lia|]. split; [exact H0|].
      apply Z.div_lt_upper_bound; [lia|].
      rewrite <- Z.pow_add_r by lia.
      replace (Z.pos p + (Zdigits2 m - Z.pos p)) with (Zdigits2 m) by lia. exact Hu.
  - rewrite shr_record_of_loc_m. lia.
Qed.

Lemma round_nearest_even_bound (m : Z) (l : location) :
  0 <= m ->
  0 <= round_nearest_even m l /\ Zdigits2 (round_nearest_even m l) <= Zdigits2 m + 1.
Proof.
  intros Hm.
  assert (H1 : Zdigits2 (m + 1) <= Zdigits2 m + 1).
  { pose proof (Zdigits2_upper m Hm). pose proof (Zdigits2_nonneg m).
    apply Zdigits2_le; [lia|]. rewrite Z.pow_add_r by lia. lia. }
  destruct l as [|[]]; simpl; try destruct (Z.even m); lia.
Qed.

(** Rounding a mantissa of bounded magnitude gives a zero or a finite
    value whose magnitude is at most one more. *)
Lemma binary_round_aux_small (s : bool) (m e : Z) (l : location) (b : Z) :
  0 <= m -> e <= 971 -> Zdigits2 m + e <= b -> -1074 <= b <= 1023 ->
  small (b + 1) (binary_round_aux prec emax s m e l).
Proof.
  intros Hm He Hb Hrange. unfold binary_round_aux.
  destruct (shr_fexp_bound m e l Hm) as (H1 & H2 & H3).
  destruct (shr_fexp prec emax m e l) as [r1 e1]. cbn [fst snd] in *.
  destruct (round_nearest_even_bound (shr_m r1) (loc_of_shr_record r1) H1) as [H4 H5].
  set (m2 := round_nearest_even (shr_m r1) (loc_of_shr_record r1)) in *.
  destruct (shr_fexp_bound m2 e1 loc_Exact H4) as (H6 & H7 & H8).
  destruct (shr_fexp prec emax m2 e1 loc_Exact) as [r2 e2]. cbn [fst snd] in *.
  rewrite fexp_eq in *.
  destruct (shr_m r2) as [|p|p] eqn:Er; [exact I| |lia].
  assert (He2 : e2 <= 971) by lia.
  change (emax - prec) with 971.
  destruct (Z.leb_spec e2 971); [|lia]. simpl. simpl in H7. lia.
Qed.

Lemma binary_round_aux_exact (s : bool) (p : positive) (e : Z) :
  fexp prec emax (Z.pos (digits2_pos p) + e) <= e -> e <= 971 ->
  binary_round_aux prec emax s (Z.pos p) e loc_Exact = S754_finite s p e.
Proof.
  intros Hf He. unfold binary_round_aux.
  assert (Hs : shr_fexp prec emax (Z.pos p) e loc_Exact
               = (Build_shr_record (Z.pos p) false false, e)).
  { unfold shr_fexp, shr. cbn [Zdigits2].
    destruct (fexp prec emax (Z.pos (digits2_pos p) + e) - e) eqn:En; try reflexivity. lia. }
  rewrite Hs. cbn [shr_m loc_of_shr_record round_nearest_even]. rewrite Hs. cbn [shr_m].
  change (emax - prec) with 971. destruct (Z.leb_spec e 971); [reflexivity | lia].
Qed.

Lemma digits2_pos_iter_xO (p d : positive) :
  Z.pos (digits2_pos (Pos.iter xO p d)) = Z.pos (digits2_pos p) + Z.pos d.
Proof.
  induction d as [|d IH] using Pos.peano_ind.
  - simpl. lia.
  - rewrite Pos.iter_succ. cbn [digits2_pos]. lia.
Qed.

(** The float of a positive integer below [2^53] is finite, of the
    magnitude of the integer. *)
Lemma binary_round_int (s : bool) (p : positive) :
  Z.pos p < 2 ^ 53 ->
  exists m e, binary_round prec emax s p 0 = S754_finite s m e /\
              Z.pos (digits2_pos m) + e = Z.pos (digits2_pos p).
Proof.
  intros Hp.
  assert (Hd : Z.pos (digits2_pos p) <= 53).
  { apply (Zdigits2_le (Z.pos p) 53); lia. }
  unfold binary_round, shl_align. rewrite Z.add_0_r, fexp_eq.
  destruct (Z.max (Z.pos (digits2_pos p) - 53) (-1074) - 0) as [|d|d] eqn:En; try lia.
  - exists p, 0. split; [|lia]. apply binary_round_aux_exact; [rewrite fexp_eq|]; lia.
  - eexists _, _. split.
    + apply binary_round_aux_exact; [rewrite fexp_eq, digits2_pos_iter_xO|]; lia.
    + rewrite digits2_pos_iter_xO. lia.
Qed.

Lemma digits_mul (p q : positive) :
  Z.pos (digits2_pos (p * q)) <= Z.pos (digits2_pos p) + Z.pos (digits2_pos q).
Proof.
  apply (Zdigits2_le (Z.pos (p * q))); [lia|].
  pose proof (digits_upper p). pose proof (digits_upper q).
  rewrite Pos2Z.inj_mul, Z.pow_add_r by lia. nia.
Qed.

Lemma mul_small (a b : Z) (x y : pyfloat) :
  small a x -> small b y -> -1074 <= a + b <= 973 ->
  small (a + b + 1) (SFmul prec emax x y).
Proof.
  intros Hx Hy Hab.
  destruct x as [sx|sx| |sx mx ex], y as [sy|sy| |sy my ey]; cbn [small] in Hx, Hy;
    try contradiction; try exact I.
  cbn [SFmul]. apply binary_round_aux_small; try lia.
  cbn [Zdigits2]. pose proof (digits_mul mx my). lia.
Qed.

Lemma div_small (a b : Z) (x : pyfloat) (sy : bool) (my : positive) (ey : Z) :
  small a x -> b <= Z.pos (digits2_pos my) + ey -> -1074 <= a - b + 1 <= 1023 ->
  small (a - b + 2) (SFdiv prec emax x (S754_finite sy my ey)).
Proof.
  intros Hx Hy Hab.
  destruct x as [sx|sx| |sx mx ex]; cbn [small] in Hx; try contradiction; [exact I|].
  cbn [SFdiv]. unfold SFdiv_core_binary. cbn [Zdigits2]. rewrite fexp_eq.
  set (d1 := Z.pos (digits2_pos mx)) in *. set (d2 := Z.pos (digits2_pos my)) in *.
  set (e' := Z.min (Z.max (d1 + ex - (d2 + ey) - 53) (-1074)) (ex - ey)).
  set (m' := match ex - ey - e' with
             | 0 => Z.pos mx
             | Z.pos _ => Z.shiftl (Z.pos mx) (ex - ey - e')
             | Z.neg _ => 0
             end).
  assert (Hs : 0 <= ex - ey - e') by lia.
  assert (Hm' : m' = Z.pos mx * 2 ^ (ex - ey - e')).
  { subst m'. destruct (ex - ey - e') as [|s|s] eqn:Es; [simpl; lia| |lia].
    apply Z.shiftl_mul_pow2. lia. }
  pose proof (Z_div_mod m' (Z.pos my) ltac:(lia)) as Hdiv.
  destruct (Z.div_eucl m' (Z.pos my)) as [q r]. destruct Hdiv as [Hq Hr].
  assert (Hq0 : 0 <= q) by nia.
  replace (a - b + 2) with (a - b + 1 + 1) by lia.
  apply binary_round_aux_small; try lia.
  pose proof (digits_upper mx) as Hux. pose proof (digits_lower my) as Hly.
  fold d1 in Hux. fold d2 in Hly.
  destruct (Z.le_gt_cases 0 (d1 + (ex - ey - e') - d2 + 1)) as [Hk|Hk].
  - assert (Zdigits2 q <= d1 + (ex - ey - e') - d2 + 1); [|lia].
    apply Zdigits2_le; [lia|]. split; [exact Hq0|].
    assert (m' < Z.pos my * 2 ^ (d1 + (ex - ey - e') - d2 + 1)); [|nia].
    rewrite Hm'.
    apply Z.lt_le_trans with (2 ^ d1 * 2 ^ (ex - ey - e')).
    + apply Z.mul_lt_mono_pos_r; [apply Z.pow_pos_nonneg; lia | exact Hux].
    + rewrite <- Z.pow_add_r by lia.
      apply Z.le_trans with (2 ^ (d2 - 1) * 2 ^ (d1 + (ex - ey - e') - d2 + 1)).
      * rewrite <- Z.pow_add_r by lia. apply Z.pow_le_mono_r; lia.
      * apply Z.mul_le_mono_nonneg_r; [apply Z.pow_nonneg; lia | exact Hly].
  - assert (q = 0); [|subst q; simpl; lia].
    assert (m' < Z.pos my); [|nia].
    rewrite Hm'. apply Z.lt_le_trans with (2 ^ d1 * 2 ^ (ex - ey - e')).
    + apply Z.mul_lt_mono_pos_r; [apply Z.pow_pos_nonneg; lia | exact Hux].
    + rewrite <- Z.pow_add_r by lia.
      apply Z.le_trans with (2 ^ (d2 - 1)); [apply Z.pow_le_mono_r; lia | exact Hly].
Qed.

Lemma of_int_pos (z : Z) :
  0 < z < 2 ^ 53 ->
  exists m e, of_int z = S754_finite false m e /\
              1 <= Z.pos (digits2_pos m) + e <= 53.
Proof.
  intros Hz. destruct z as [|p|p]; try lia.
  destruct (binary_round_int false p) as (m & e & E & Hd); [lia|].
  exists m, e. split; [exact E|]. rewrite Hd.
  split; [lia|]. apply (Zdigits2_le (Z.pos p) 53); lia.
Qed.

Lemma of_int_small (z : Z) : - 2 ^ 53 < z < 2 ^ 53 -> small 53 (of_int z).
Proof.
  intros Hz. destruct z as [|p|p]; [exact I| |].
  - destruct (binary_round_int false p) as (m & e & E & Hd); [lia|].
    unfold of_int, binary_normalize. rewrite E. cbn [small]. rewrite Hd.
    apply (Zdigits2_le (Z.pos p) 53); lia.
  - destruct (binary_round_int true p) as (m & e & E & Hd); [lia|].
    unfold of_int, binary_normalize. rewrite E. cbn [small]. rewrite Hd.
    apply (Zdigits2_le (Z.pos p) 53); lia.
Qed.

Lemma small_ceil (b : Z) (x : pyfloat) : small b x -> exists k, ceil x = Some k.
Proof. destruct x; cbn [small ceil]; intros H; try contradiction; eauto. Qed.

Lemma small_le (a b : Z) (x : pyfloat) : a <= b -> small a x -> small b x.
Proof. destruct x; cbn [small]; intros; auto; lia. Qed.

(** ** Running monadic code *)

Ltac run := unfold mbind, M_bind, mret, M_ret, lift, gets, modify, attr; simpl.

Lemma bind_Ok {A B : Type} (m : M A) (f : A -> M B) (w w' : State) (a : A) :
  m w = Ok a w' -> (m ≫= f) w = f a w'.
Proof. intros H. unfold mbind, M_bind. rewrite H. reflexivity. Qed.

Lemma bind_Raise {A B : Type} (m : M A) (f : A -> M B) (w : State) (e : exn) :
  m w = Raise e -> (m ≫= f) w = Raise e.
Proof. intros H. unfold mbind, M_bind. rewrite H. reflexivity. Qed.

(** ** Constants *)

(** The literals [8.43], [3.5] and [24] are the correctly rounded
    quotients 843/100 and 7/2 and the float of 24; the ratio
    [8.43 / 64] is exact. *)
Lemma constants_values :
  CELL_WIDTH = div (of_int 843) (of_int 100) /\
  default_min_cell_width = div (of_int 7) (of_int 2) /\
  default_max_cell_width = S754_finite false 6755399441055744 (-48) /\
  PIXEL_TO_WIDTH_RATIO = S754_finite false 4745668107341660 (-55).
Proof. repeat split; vm_compute; reflexivity. Qed.

(** ** [__clip] *)

(** For ordered bounds, the clipped value of a value that is not NaN is
    between them. *)
Lemma clip_bounds (v lo hi : pyfloat) :
  leb lo hi = true -> is_nan v = false ->
  leb lo (__clip v lo hi) = true /\ leb (__clip v lo hi) hi = true.
Proof.
  intros H Hv. unfold __clip. destruct (leb_not_nan _ _ H) as [Hlo Hhi].
  destruct (ltb v lo) eqn:E1; [split; [apply leb_refl, Hlo | exact H]|].
  destruct (ltb hi v) eqn:E2; [split; [exact H | apply leb_refl, Hhi]|].
  split; apply ltb_false_leb; assumption.
Qed.

(** C4 (clipping), with the order of binary64 values.  [__clip] returns
    [lower] when [value < lower], otherwise [upper] when [value > upper],
    otherwise [value]: the comparisons are strict, so a value equal to a
    bound is returned unchanged.  When [lower <= upper] the value above
    [upper] is never below [lower]; the result lies in [[lower, upper]]
    for every value that is not NaN, and is [value] itself whenever
    [lower <= value <= upper]. *)
Theorem clip_spec (v lo hi : pyfloat) :
  (ltb v lo = true -> __clip v lo hi = lo) /\
  (ltb v lo = false -> ltb hi v = true -> __clip v lo hi = hi) /\
  (ltb v lo = false -> ltb hi v = false -> __clip v lo hi = v) /\
  (leb lo hi = true -> ltb hi v = true -> __clip v lo hi = hi) /\
  (leb lo hi = true -> is_nan v = false ->
     leb lo (__clip v lo hi) = true /\ leb (__clip v lo hi) hi = true) /\
  (leb lo v = true -> leb v hi = true -> __clip v lo hi = v).
Proof.
  split; [|split; [|split; [|split; [|split]]]].
  - unfold __clip. intros ->. reflexivity.
  - unfold __clip. intros -> ->. reflexivity.
  - unfold __clip. intros -> ->. reflexivity.
  - unfold __clip. intros Hle Hgt. destruct (ltb v lo) eqn:E.
    + apply ltb_leb in E. pose proof (leb_trans _ _ _ E Hle) as Hv.
      apply leb_ltb_false in Hv. congruence.
    + rewrite Hgt. reflexivity.
  - apply clip_bounds.
  - unfold __clip. intros H1 H2.
    rewrite (leb_ltb_false _ _ H1), (leb_ltb_false _ _ H2). reflexivity.
Qed.

(** Clipping to [3.5] and [24], the default bounds:
    [1] is raised to [3.5], [30] is cut to [24], [10] and the bounds
    themselves pass through. *)
Lemma clip_spec_witness :
  __clip (of_int 1) default_min_cell_width default_max_cell_width = default_min_cell_width /\
  __clip (of_int 30) default_min_cell_width default_max_cell_width = default_max_cell_width /\
  __clip (of_int 10) default_min_cell_width default_max_cell_width = of_int 10 /\
  __clip default_max_cell_width default_min_cell_width default_max_cell_width
    = default_max_cell_width /\
  __clip default_min_cell_width default_min_cell_width default_max_cell_width
    = default_min_cell_width /\
  leb default_min_cell_width
      (__clip (of_int 30) default_min_cell_width default_max_cell_width) = true /\
  leb (__clip (of_int 30) default_min_cell_width default_max_cell_width)
      default_max_cell_width = true.
Proof.
  split; [apply (clip_spec (of_int 1)); reflexivity|].
  split; [apply (clip_spec (of_int 30)); reflexivity|].
  split; [apply (clip_spec (of_int 10)); reflexivity|].
  split; [apply (clip_spec default_max_cell_width); reflexivity|].
  split; [apply (clip_spec default_min_cell_width); reflexivity|].
  apply (clip_spec (of_int 30)); reflexivity.
Defined.

(** NaN is neither below the lower bound nor above the upper one:
    [__clip] returns it, and it lies in no interval. *)
Lemma clip_nan_not_in_range :
  leb (of_int 0) (of_int 1) = true /\
  __clip S754_nan (of_int 0) (of_int 1) = S754_nan /\
  ~ (leb (of_int 0) (__clip S754_nan (of_int 0) (of_int 1)) = true /\
     leb (__clip S754_nan (of_int 0) (of_int 1)) (of_int 1) = true).
Proof.
  split; [reflexivity|]. split; [reflexivity|].
  intros [H _]. vm_compute in H. discriminate H.
Qed.

(** ** [__printed_text_height] *)

Lemma split_not_nil (sep : ascii) (T : string) : split sep T <> [].
Proof.
  destruct T as [|c T]; simpl; [discriminate|].
  destruct (Ascii.eqb c sep); [discriminate|].
  destruct (split sep T); discriminate.
Qed.

Lemma join_split (sep : ascii) (T : string) : join sep (split sep T) = T.
Proof.
  induction T as [|c T IH]; simpl; [reflexivity|].
  destruct (Ascii.eqb c sep) eqn:E.
  - apply Ascii.eqb_eq in E. subst c.
    pose proof (split_not_nil sep T) as Hne.
    destruct (split sep T) as [|l ls] eqn:Es; [congruence|].
    simpl in *. rewrite IH. reflexivity.
  - pose proof (split_not_nil sep T) as Hne.
    destruct (split sep T) as [|l ls] eqn:Es; [congruence|].
    simpl in *. destruct ls as [|l' ls]; simpl in *; rewrite <- IH; reflexivity.
Qed.

Lemma split_no_sep (sep : ascii) (T : string) :
  Forall (λ line, contains sep line = false) (split sep T).
Proof.
  induction T as [|c T IH]; simpl.
  - repeat constructor.
  - destruct (Ascii.eqb c sep) eqn:E.
    + constructor; [reflexivity | exact IH].
    + destruct (split sep T) as [|l ls].
      * repeat constructor. simpl. rewrite E. reflexivity.
      * inversion IH; subst. constructor; [|assumption].
        simpl. rewrite E. assumption.
Qed.

Lemma line_rows_pos (S : Z) (line : string) : 0 < S -> 1 <= line_rows S line.
Proof.
  intros HS. unfold line_rows, len, PIXEL_CHAR_WIDTH.
  assert (0 <= Z.of_nat (String.length line) * 9 / S) by (apply Z.div_pos; lia).
  lia.
Qed.

Lemma printed_text_height_loop (S : Z) (lines : list string) (acc : Z) (w : State) :
  S <> 0 ->
  for_fold (λ height line,
              q ← lift (py_floordiv (len line * PIXEL_CHAR_WIDTH) S);
              let height := height + q in
              mret (height + 1)) acc lines w
  = Ok (acc + sum_Z (map (line_rows S) lines)) w.
Proof.
  intros HS. set (body := λ height line, _).
  revert acc. induction lines as [|l ls IH]; intros acc; simpl.
  - run. f_equal. lia.
  - unfold mbind, M_bind. unfold body at 1. run.
    unfold py_floordiv. destruct (Z.eqb_spec S 0) as [|_]; [contradiction|].
    fold (@mbind M _). rewrite IH. f_equal. unfold line_rows. lia.
Qed.

(** C5 (printed height of a text).  On a sheet of pixel width [S > 0]
    the height is the sum over the lines of the text, split at the
    newlines, of [floor(len(line) * 9 / S) + 1]; the lines joined by
    newlines are the text and none contains a newline.  The height is at
    least 1, and is exactly 1 for the empty string. *)
Theorem printed_text_height_sum (T : string) (w : State) :
  0 < PIXEL_SHEET_WIDTH w ->
  let lines := split newline T in
  join newline lines = T /\
  Forall (λ line, contains newline line = false) lines /\
  __printed_text_height T w
    = Ok (sum_Z (map (λ line, len line * PIXEL_CHAR_WIDTH / PIXEL_SHEET_WIDTH w + 1) lines)) w /\
  1 <= sum_Z (map (λ line, len line * PIXEL_CHAR_WIDTH / PIXEL_SHEET_WIDTH w + 1) lines) /\
  __printed_text_height "" w = Ok 1 w.
Proof.
  intros HS lines.
  split; [apply join_split|]. split; [apply split_no_sep|].
  assert (Hrun : forall T', __printed_text_height T' w
            = Ok (sum_Z (map (line_rows (PIXEL_SHEET_WIDTH w)) (split newline T'))) w).
  { intros T'. unfold __printed_text_height.
    erewrite bind_Ok by reflexivity.
    rewrite printed_text_height_loop by lia. reflexivity. }
  split; [apply Hrun|]. split.
  - fold (line_rows (PIXEL_SHEET_WIDTH w)). subst lines.
    pose proof (split_not_nil newline T) as Hne.
    destruct (split newline T) as [|l ls]; [congruence|]. simpl.
    pose proof (line_rows_pos (PIXEL_SHEET_WIDTH w) l HS).
    assert (0 <= sum_Z (map (line_rows (PIXEL_SHEET_WIDTH w)) ls)).
    { clear -HS. induction ls as [|x xs IH]; simpl; [lia|].
      pose proof (line_rows_pos (PIXEL_SHEET_WIDTH w) x HS). lia. }
    lia.
  - rewrite Hrun. simpl. unfold line_rows. simpl.
    rewrite Z.div_0_l by lia. reflexivity.
Qed.

(** A text of two lines, the first 150 characters long, on the default
    sheet of 1200 pixels: 150 * 9 = 1350 pixels wrap once, so the height
    is (1 + 1) + (0 + 1) = 3. *)
Lemma printed_text_height_sum_witness :
  let w := __init__ default_pixel_sheet_width default_max_cell_width default_min_cell_width in
  let T := (String.concat "" (repeat "0123456789" 15) +:+ String newline "abc")%string in
  __printed_text_height T w = Ok 3 w.
Proof.
  intros w T.
  destruct (printed_text_height_sum T w) as (_ & _ & H & _); [vm_compute; reflexivity|].
  rewrite H. vm_compute. reflexivity.
Defined.

(** ** Hoare rules for the monad *)

Lemma hoare_ret {A : Type} (P : A -> State -> Prop) (a : A) :
  hoare (P a) (mret a) P.
Proof. intros w H. exists a, w. split; [reflexivity | exact H]. Qed.

Lemma hoare_bind {A B : Type} (P : State -> Prop) (Q : A -> State -> Prop)
    (R : B -> State -> Prop) (m : M A) (f : A -> M B) :
  hoare P m Q -> (forall a, hoare (Q a) (f a) R) -> hoare P (m ≫= f) R.
Proof.
  intros Hm Hf w HP. destruct (Hm w HP) as (a & w1 & E1 & HQ).
  destruct (Hf a w1 HQ) as (b & w2 & E2 & HR).
  exists b, w2. split; [|exact HR]. rewrite (bind_Ok _ _ _ _ _ E1). exact E2.
Qed.

Lemma hoare_conseq {A : Type} (P P' : State -> Prop) (Q Q' : A -> State -> Prop) (m : M A) :
  hoare P' m Q' -> (forall w, P w -> P' w) -> (forall a w, Q' a w -> Q a w) ->
  hoare P m Q.
Proof.
  intros H HP HQ w Hw. destruct (H w (HP w Hw)) as (a & w' & E & Hq).
  exists a, w'. split; [exact E | apply HQ, Hq].
Qed.

(** The invariant [I k] holds before the iteration on the element at
    position [k] of the list. *)
Lemma hoare_for_enumerate {A : Type} (I : nat -> State -> Prop) (l : list A)
    (start : Z) (body : Z -> A -> M unit) :
  (forall k x, l !! k = Some x ->
               hoare (I k) (body (start + Z.of_nat k) x) (λ _, I (S k))) ->
  hoare (I O) (for_enumerate start l body) (λ _, I (length l)).
Proof.
  revert I start. induction l as [|x l IH]; intros I start Hbody; simpl.
  - apply hoare_ret with (P := λ _, I O).
  - eapply hoare_bind.
    + specialize (Hbody O x eq_refl). rewrite Z.add_0_r in Hbody. exact Hbody.
    + intros u. apply (IH (λ k, I (S k))). intros k y Hk.
      replace (start + 1 + Z.of_nat k) with (start + Z.of_nat (S k)) by lia.
      apply Hbody. exact Hk.
Qed.

Lemma hoare_for_range (I : nat -> State -> Prop) (n : nat) (body : M unit) :
  (forall k, (k < n)%nat -> hoare (I k) body (λ _, I (S k))) ->
  hoare (I O) (for_range n body) (λ _, I n).
Proof.
  revert I. induction n as [|n IH]; intros I Hbody; simpl.
  - apply hoare_ret with (P := λ _, I O).
  - eapply hoare_bind.
    + apply (Hbody O). lia.
    + intros u. apply (IH (λ k, I (S k))). intros k Hk. apply Hbody. lia.
Qed.

(** ** The cursor *)

(** C6 (cursor reset), at the input where it fails.  The default value
    of [cursor] is one list, and [apply_shift] updates the list the cursor
    refers to: after a sheet is created, a text is placed with the shift
    [(2, 0)] and [set_active_sheet] is called again without a cursor, the
    cursor is at [(2, 0)], not at the origin. *)
Theorem set_active_sheet_default_is_shared :
  let w0 := __init__ default_pixel_sheet_width default_max_cell_width default_min_cell_width in
  cursor_after (create_empty_sheet "A" ∅) w0 = Some (0, 0) /\
  cursor_after (create_empty_sheet "A" ∅;;
                _text (PyStr "Hello") None (2, 0);;
                set_active_sheet "A" None) w0 = Some (2, 0).
Proof. split; vm_compute; reflexivity. Qed.

(** With a cursor argument the cursor is the list given, at the position
    it holds; without one it is the list [default_cursor], at whatever
    position that list holds by then. *)
Lemma set_active_sheet_cursor (name : string) (cursor : option loc) (w : State) :
  is_Some (sheetnames w !! name) ->
  exists w', set_active_sheet name cursor w = Ok tt w' /\
             _sheet w' = Some name /\
             cursor_pos w' = lists w !! default default_cursor cursor.
Proof.
  intros [ws Hws]. unfold set_active_sheet. rewrite Hws.
  eexists. split; [reflexivity|]. split; reflexivity.
Qed.

(** ** Methods run on the active worksheet *)

Lemma put_ws_put_ws (n : string) (ws ws' : Worksheet) (w : State) :
  put_ws n ws' (put_ws n ws w) = put_ws n ws' w.
Proof.
  unfold put_ws, set_sheetnames. simpl. rewrite insert_insert_eq. reflexivity.
Qed.

Lemma put_ws_id (n : string) (ws : Worksheet) (w : State) :
  sheetnames w !! n = Some ws -> put_ws n ws w = w.
Proof.
  intros H. destruct w. unfold put_ws, set_sheetnames. simpl in *.
  rewrite insert_id by exact H. reflexivity.
Qed.

Lemma ws_set_column_single (col : Z) (width : pyfloat) (fmt : Format) (ws : Worksheet) :
  ws_set_column col col width fmt ws
  = mkWorksheet (cells ws) (<[col := (width, fmt)]> (col_info ws)) (textboxes ws) (pictures ws).
Proof.
  unfold ws_set_column. replace (col - col + 1) with 1 by lia.
  unfold seqZ. simpl. reflexivity.
Qed.

Section OnSheet.

Variables (w0 : State) (n : string) (l : loc) (r c : Z).
Hypothesis Hsheet : _sheet w0 = Some n.
Hypothesis Hcursor : _cursor w0 = Some l.
Hypothesis Hpos : lists w0 !! l = Some (r, c).

Local Abbreviation on_ws := (on_ws w0 n).

Lemma on_sheet_run (f : Worksheet -> Worksheet) (ws : Worksheet) :
  on_sheet f (put_ws n ws w0) = Ok tt (put_ws n (f ws) w0).
Proof.
  unfold on_sheet. simpl. rewrite Hsheet. rewrite lookup_insert_eq.
  rewrite <- (put_ws_put_ws n ws (f ws) w0). reflexivity.
Qed.

Lemma the_sheet_run (ws : Worksheet) :
  the_sheet (put_ws n ws w0) = Ok ws (put_ws n ws w0).
Proof. unfold the_sheet. simpl. rewrite Hsheet. rewrite lookup_insert_eq. reflexivity. Qed.

Lemma the_cursor_run (ws : Worksheet) :
  the_cursor (put_ws n ws w0) = Ok (r, c) (put_ws n ws w0).
Proof.
  unfold the_cursor, cursor_pos. simpl. rewrite Hcursor. simpl. rewrite Hpos. reflexivity.
Qed.

Lemma apply_shift_run (shift : Z * Z) (ws : Worksheet) :
  apply_shift shift (put_ws n ws w0)
  = Ok tt (set_lists (<[l := (r + shift.1, c + shift.2)]> (lists w0)) (put_ws n ws w0)).
Proof. unfold apply_shift. simpl. rewrite Hcursor, Hpos. reflexivity. Qed.

Lemma hoare_on_sheet (f : Worksheet -> Worksheet) (J J' : Worksheet -> Prop) :
  (forall ws, J ws -> J' (f ws)) ->
  hoare (on_ws J) (on_sheet f) (λ _, on_ws J').
Proof.
  intros H w (ws & -> & HJ). exists tt, (put_ws n (f ws) w0).
  split; [apply on_sheet_run|]. exists (f ws). auto.
Qed.

Lemma hoare_the_cursor (J : Worksheet -> Prop) :
  hoare (on_ws J) the_cursor (λ p w, p = (r, c) /\ on_ws J w).
Proof.
  intros w (ws & -> & HJ). exists (r, c), (put_ws n ws w0).
  split; [apply the_cursor_run|]. split; [reflexivity|]. exists ws. auto.
Qed.

Lemma ensure_width_run (fmt : Format) (col : Z) (text : pyobj) (ws : Worksheet) :
  default_cell_format w0 = Some fmt ->
  ensure_width col text (put_ws n ws w0)
  = Ok tt (put_ws n (widen (MIN_CELL_WIDTH w0) (MAX_CELL_WIDTH w0) fmt col text ws) w0).
Proof.
  intros Hfmt. unfold ensure_width, __get_col_width, mbind, M_bind.
  rewrite the_sheet_run. unfold widen, width_of.
  destruct (col_info ws !! col) as [info|]; unfold mret, M_ret;
    (destruct (ltb _ (__printed_value_width text)); [|reflexivity]);
    unfold attr; change (default_cell_format (put_ws n ws w0)) with (default_cell_format w0);
    rewrite Hfmt; unfold __adjust_col_width, mbind, M_bind, gets;
    apply on_sheet_run.
Qed.

Lemma hoare_ensure_width (fmt : Format) (col : Z) (text : pyobj) (J J' : Worksheet -> Prop) :
  default_cell_format w0 = Some fmt ->
  (forall ws, J ws ->
     J' (widen (MIN_CELL_WIDTH w0) (MAX_CELL_WIDTH w0) fmt col text ws)) ->
  hoare (on_ws J) (ensure_width col text) (λ _, on_ws J').
Proof.
  intros Hfmt H w (ws & -> & HJ). eexists tt, _.
  split; [apply (ensure_width_run fmt); exact Hfmt|]. eexists. split; [reflexivity|]. auto.
Qed.


(** *** [_table] *)

Lemma widen_cells (MIN MAX : pyfloat) (fmt : Format) (col : Z) (text : pyobj) (ws : Worksheet) :
  cells (widen MIN MAX fmt col text ws) = cells ws.
Proof. unfold widen. destruct (ltb _ _); reflexivity. Qed.

Lemma py_index_nat {A : Type} (xs : list A) (j : nat) (x : A) :
  xs !! j = Some x -> py_index xs (Z.of_nat j) = inr x.
Proof.
  intros H. pose proof (lookup_lt_Some _ _ _ H) as Hlt. unfold py_index.
  destruct (Z.ltb_spec (Z.of_nat j) 0); [lia|].
  destruct (Z.ltb_spec (Z.of_nat j) 0); [lia|].
  destruct (Z.leb_spec (Z.of_nat (length xs)) (Z.of_nat j)); [lia|]. simpl.
  rewrite Nat2Z.id, H. reflexivity.
Qed.

Section Table.

Variables (df : DataFrame) (col_format ind_format dcf : Format).
Hypothesis Hwf : well_formed df.
Hypothesis Hdcf : default_cell_format w0 = Some dcf.

Lemma table_header_run :
  hoare (on_ws (λ _, True))
    (for_enumerate 0 (columns df) (λ j col_name,
       cur ← the_cursor;
       ensure_width (j + cur.2 + 1) col_name;;
       cur ← the_cursor;
       on_sheet (ws_write cur.1 (j + cur.2 + 1) col_name col_format)))
    (λ _, on_ws (header_written df col_format r c (length (columns df)))).
Proof.
  eapply hoare_conseq;
    [apply (hoare_for_enumerate (λ k, on_ws (header_written df col_format r c k)))| |].
  - intros k name Hk w (ws & -> & HJ).
    unfold mbind, M_bind. rewrite the_cursor_run. simpl.
    rewrite (ensure_width_run dcf) by exact Hdcf. rewrite the_cursor_run. simpl.
    rewrite on_sheet_run. eexists tt, _. split; [reflexivity|].
    eexists. split; [reflexivity|].
    intros j name' Hj Hname'. simpl. rewrite widen_cells.
    destruct (decide (j = k)) as [->|Hne].
    + rewrite lookup_insert_eq. congruence.
    + rewrite lookup_insert_ne by (intros E; inversion E; lia).
      apply HJ; [lia | exact Hname'].
  - intros w (ws & -> & _). exists ws. split; [reflexivity|].
    intros j name Hj. lia.
  - intros u w H. exact H.
Qed.

Lemma item_format_defined (i : Z) (j : nat) :
  (j < length (columns df))%nat ->
  exists fmt, __get_table_item_format i (Z.of_nat j) df = inr fmt.
Proof.
  intros Hj. destruct (lookup_lt_is_Some_2 _ _ Hj) as [name Hname].
  unfold __get_table_item_format. rewrite (py_index_nat _ _ _ Hname). eauto.
Qed.

Ltac other_cell := rewrite lookup_insert_ne by (intros E; inversion E; lia).

Lemma table_row_run (i : nat) (row : pyobj * list pyobj) :
  iterrows df !! i = Some row ->
  hoare (on_ws (λ ws, header_written df col_format r c (length (columns df)) ws /\
                      index_written df ind_format r c (S i) ws /\
                      rows_written df r c i ws))
    (for_enumerate 0 row.2 (λ j val,
       cur_format ← lift (__get_table_item_format (0 + Z.of_nat i) j df);
       cur ← the_cursor;
       on_sheet (ws_write (cur.1 + (0 + Z.of_nat i) + 1) (cur.2 + j + 1)
                   (__cast_to_str_except_numbers val) cur_format)))
    (λ _, on_ws (λ ws, header_written df col_format r c (length (columns df)) ws /\
                       index_written df ind_format r c (S i) ws /\
                       rows_written df r c (S i) ws)).
Proof.
  intros Hrow.
  assert (Hlen : length row.2 = length (columns df)).
  { exact (proj1 (Forall_lookup _ _) Hwf i row Hrow). }
  eapply hoare_conseq;
    [apply (hoare_for_enumerate
              (λ k, on_ws (λ ws, header_written df col_format r c (length (columns df)) ws /\
                                 index_written df ind_format r c (S i) ws /\
                                 rows_written df r c i ws /\
                                 row_written df r c i row.2 k ws)))| |].
  - intros k val Hk w (ws & -> & Hh & Hi & Hr & Hc).
    pose proof (lookup_lt_Some _ _ _ Hk) as Hlt.
    destruct (item_format_defined (Z.of_nat i) k) as [fmt Hfmt]; [lia|].
    rewrite !Z.add_0_l.
    unfold mbind, M_bind, lift. rewrite Hfmt. rewrite the_cursor_run. simpl.
    rewrite on_sheet_run. eexists tt, _. split; [reflexivity|].
    eexists. split; [reflexivity|]. simpl. repeat split.
    + intros j name Hj Hname. simpl. other_cell. apply Hh; assumption.
    + intros i' row' Hi' Hrow'. simpl. other_cell. apply Hi; assumption.
    + intros i' row' Hi' Hrow' j val' Hj Hval'.
      destruct (Hr i' row' Hi' Hrow' j val' Hj Hval') as (f & Hf & Hcell).
      exists f. split; [exact Hf|]. simpl. other_cell. exact Hcell.
    + intros j val' Hj Hval'. destruct (decide (j = k)) as [->|Hne].
      * exists fmt. split; [exact Hfmt|]. simpl. rewrite lookup_insert_eq. congruence.
      * destruct (Hc j val') as (f & Hf & Hcell); [lia | exact Hval' |].
        exists f. split; [exact Hf|]. simpl. other_cell. exact Hcell.
  - intros w (ws & -> & Hh & Hi & Hr). exists ws. split; [reflexivity|].
    repeat split; try assumption. intros j val Hj. lia.
  - intros u w (ws & -> & Hh & Hi & Hr & Hc). exists ws. split; [reflexivity|].
    repeat split; try assumption.
    intros i' row' Hi' Hrow'. destruct (decide (i' = i)) as [->|Hne].
    + replace row' with row by congruence. exact Hc.
    + apply Hr; [lia | exact Hrow'].
Qed.

Lemma table_rows_run :
  hoare (on_ws (header_written df col_format r c (length (columns df))))
    (for_enumerate 0 (iterrows df) (λ i row,
       cur ← the_cursor;
       on_sheet (ws_write (cur.1 + i + 1) cur.2 row.1 ind_format);;
       for_enumerate 0 row.2 (λ j val,
         cur_format ← lift (__get_table_item_format i j df);
         cur ← the_cursor;
         on_sheet (ws_write (cur.1 + i + 1) (cur.2 + j + 1)
                     (__cast_to_str_except_numbers val) cur_format))))
    (λ _, on_ws (table_written df col_format ind_format r c)).
Proof.
  eapply hoare_conseq;
    [apply (hoare_for_enumerate
              (λ k, on_ws (λ ws, header_written df col_format r c (length (columns df)) ws /\
                                 index_written df ind_format r c k ws /\
                                 rows_written df r c k ws)))| |].
  - intros k row Hk. eapply hoare_bind; [apply hoare_the_cursor|].
    intros cur. eapply hoare_bind with
      (Q := λ _, on_ws (λ ws, header_written df col_format r c (length (columns df)) ws /\
                              index_written df ind_format r c (S k) ws /\
                              rows_written df r c k ws)).
    + intros w (-> & ws & -> & Hh & Hi & Hr). simpl.
      rewrite on_sheet_run. eexists tt, _. split; [reflexivity|].
      eexists. split; [reflexivity|]. repeat split.
      * intros j name Hj Hname. simpl. other_cell. apply Hh; assumption.
      * intros i' row' Hi' Hrow'. simpl. destruct (decide (i' = k)) as [->|Hne].
        -- rewrite Z.add_0_l, lookup_insert_eq. congruence.
        -- other_cell. apply Hi; [lia | exact Hrow'].
      * intros i' row' Hi' Hrow' j val' Hj Hval'.
        destruct (Hr i' row' Hi' Hrow' j val' Hj Hval') as (f & Hf & Hcell).
        exists f. split; [exact Hf|]. simpl. other_cell. exact Hcell.
    + intros u. apply (table_row_run k row Hk).
  - intros w (ws & -> & Hh). exists ws. split; [reflexivity|].
    repeat split; try assumption; intros i row Hi; lia.
  - intros u w H. exact H.
Qed.

Lemma table_run (shift : option (Z * Z)) (ws : Worksheet) :
  let s := default (df_len df + 2, 0) shift in
  exists ws',
    _table df col_format ind_format shift (put_ws n ws w0)
    = Ok tt (set_lists (<[l := (r + s.1, c + s.2)]> (lists w0)) (put_ws n ws' w0)) /\
    table_written df col_format ind_format r c ws'.
Proof.
  intros s. unfold _table.
  change (add_format (Some col_format)) with col_format.
  change (add_format (Some ind_format)) with ind_format.
  destruct (table_header_run (put_ws n ws w0)) as ([] & w1 & E1 & Hw1).
  { exists ws. split; [reflexivity | exact I]. }
  rewrite (bind_Ok _ _ _ _ _ E1).
  destruct (table_rows_run w1 Hw1) as ([] & w2 & E2 & (ws' & -> & Hws')).
  rewrite (bind_Ok _ _ _ _ _ E2).
  exists ws'. split; [apply apply_shift_run | exact Hws'].
Qed.

End Table.

End OnSheet.

(** A state whose active worksheet is [ws] and whose cursor list [l]
    holds [(r, c)] is [put_ws] of itself. *)
Lemma table_run_at (df : DataFrame) (tcf tif dcf : Format) (shift : option (Z * Z))
    (w : State) (n : string) (ws : Worksheet) (l : loc) (r c : Z) :
  well_formed df ->
  _sheet w = Some n -> sheetnames w !! n = Some ws ->
  _cursor w = Some l -> lists w !! l = Some (r, c) ->
  default_cell_format w = Some dcf ->
  let s := default (df_len df + 2, 0) shift in
  exists ws',
    _table df tcf tif shift w
    = Ok tt (set_lists (<[l := (r + s.1, c + s.2)]> (lists w)) (put_ws n ws' w)) /\
    table_written df tcf tif r c ws'.
Proof.
  intros Hwf Hn Hws Hl Hp Hd s.
  destruct (table_run w n l r c Hn Hl Hp df tcf tif dcf Hwf Hd shift ws) as (ws' & E & H).
  rewrite (put_ws_id _ _ _ Hws) in E. exists ws'. split; assumption.
Qed.

(** *** The table on the sheet *)

Lemma ready_inv (w : State) (p : Z * Z) :
  ready w p ->
  exists n ws l dcf, _sheet w = Some n /\ sheetnames w !! n = Some ws /\
    _cursor w = Some l /\ lists w !! l = Some p /\ default_cell_format w = Some dcf.
Proof.
  intros ([ws Hws] & Hp & [dcf Hd]). unfold active_ws, cursor_pos in *.
  destruct (_sheet w) as [n|] eqn:En; [|discriminate].
  destruct (_cursor w) as [l|] eqn:El; [|discriminate].
  simpl in *. exists n, ws, l, dcf. auto.
Qed.

Lemma new_sheet_A_state (S : Z) (MAX MIN : pyfloat) :
  new_sheet_A S MAX MIN
  = mkState S MAX MIN {[ "A" := new_ws ]} (Some "A") (Some default_cursor) None (Some ∅)
            {[ default_cursor := (0, 0) ]}.
Proof. reflexivity. Qed.

Lemma new_sheet_A_active (S : Z) (MAX MIN : pyfloat) :
  active_ws (new_sheet_A S MAX MIN) = Some new_ws.
Proof.
  rewrite new_sheet_A_state. unfold active_ws.
  cbn [_sheet sheetnames mbind option_bind]. apply lookup_singleton_eq.
Qed.

Lemma new_sheet_A_ready (S : Z) (MAX MIN : pyfloat) : ready (new_sheet_A S MAX MIN) (0, 0).
Proof.
  split; [|split].
  - rewrite new_sheet_A_active. eauto.
  - rewrite new_sheet_A_state. reflexivity.
  - rewrite new_sheet_A_state. cbn [default_cell_format]. eauto.
Qed.

Lemma sheet_A_ready : ready sheet_A (0, 0).
Proof. apply new_sheet_A_ready. Qed.

(** On a new sheet every column has the default width. *)
Lemma new_ws_width (col : Z) : width_of new_ws col = CELL_WIDTH.
Proof.
  unfold width_of, new_ws, ws_set_column. cbn [col_info empty_worksheet].
  induction (seqZ 0 (701 - 0 + 1)) as [|k ks IH]; cbn [foldr].
  - rewrite lookup_empty. reflexivity.
  - destruct (decide (k = col)) as [->|Hne].
    + rewrite lookup_insert_eq. reflexivity.
    + rewrite lookup_insert_ne by exact Hne. exact IH.
Qed.

Lemma example_df_well_formed : well_formed example_df.
Proof. repeat constructor. Qed.

(** [_table] returns; the worksheet holds the table at the old cursor and
    the cursor has moved by the shift. *)
Lemma table_spec (df : DataFrame) (tcf tif : style) (shift : option (Z * Z))
    (w : State) (r c : Z) :
  well_formed df -> ready w (r, c) ->
  let s := default (df_len df + 2, 0) shift in
  exists w' ws',
    _table df tcf tif shift w = Ok tt w' /\
    active_ws w' = Some ws' /\
    cursor_pos w' = Some (r + s.1, c + s.2) /\
    table_written df tcf tif r c ws'.
Proof.
  intros Hwf Hready s.
  destruct (ready_inv _ _ Hready) as (n & ws & l & dcf & Hn & Hws & Hl & Hp & Hd).
  destruct (table_run_at df tcf tif dcf shift w n ws l r c Hwf Hn Hws Hl Hp Hd)
    as (ws' & E & Htab).
  eexists _, ws'. split; [exact E|]. split; [|split; [|exact Htab]].
  - unfold active_ws. simpl. rewrite Hn. simpl. apply lookup_insert_eq.
  - unfold cursor_pos. simpl. rewrite Hl. simpl. apply lookup_insert_eq.
Qed.

Lemma number_format_no_border (col_name : pyobj) (df : DataFrame) :
  add_format (__get_number_format col_name df) !! "bottom" = None /\
  add_format (__get_number_format col_name df) !! "right" = None.
Proof.
  unfold __get_number_format.
  destruct (match col_name with PyStr s => contains percent s | _ => false end);
    [split; reflexivity|].
  destruct (is_integer_dtype _); [split; reflexivity|].
  destruct (is_float_dtype _); split; reflexivity.
Qed.

(** The borders [__get_table_item_format] sets: the bottom one in the
    last row and only there, the right one in the last column and only
    there. *)
Lemma item_format_borders (df : DataFrame) (i j : Z) (fmt : Format) :
  __get_table_item_format i j df = inr fmt ->
  fmt !! "bottom" = (if decide (i = df_len df - 1) then border else None) /\
  fmt !! "right" = (if decide (j = columns_len df - 1) then border else None).
Proof.
  unfold __get_table_item_format.
  destruct (py_index (columns df) j) as [e|name]; [discriminate|].
  intros H. injection H as <-.
  destruct (number_format_no_border name df) as [Hb Hr].
  destruct (Z.eqb_spec i (df_len df - 1)) as [Hi|Hi];
    destruct (Z.eqb_spec j (columns_len df - 1)) as [Hj|Hj]; simpl;
    destruct (decide (i = df_len df - 1)); try contradiction;
    destruct (decide (j = columns_len df - 1)); try contradiction;
    unfold set_right, set_bottom, border; split;
    rewrite ?lookup_insert_eq, ?(lookup_insert_ne _ "right" "bottom"),
            ?(lookup_insert_ne _ "bottom" "right") by discriminate;
    rewrite ?lookup_insert_eq; auto.
Qed.

(** The number format of a column named with a percent sign. *)
Lemma item_format_percent (df : DataFrame) (i : Z) (j : nat) (s : string) (fmt : Format) :
  columns df !! j = Some (PyStr s) -> contains percent s = true ->
  __get_table_item_format i (Z.of_nat j) df = inr fmt ->
  fmt !! "num_format" = Some (PText "0.00%").
Proof.
  intros Hname Hs. unfold __get_table_item_format.
  rewrite (py_index_nat _ _ _ Hname). unfold __get_number_format. rewrite Hs.
  intros H. injection H as <-.
  repeat match goal with |- context [if ?b then _ else _] => destruct b end;
    unfold set_right, set_bottom;
    rewrite ?lookup_insert_ne by discriminate; reflexivity.
Qed.

(** The data cell of row [i] and column [j] of a written table. *)
Lemma table_written_cell (df : DataFrame) (tcf tif : Format) (r c : Z) (ws : Worksheet)
    (i j : nat) :
  well_formed df -> table_written df tcf tif r c ws ->
  (i < length (iterrows df))%nat -> (j < length (columns df))%nat ->
  exists row val fmt,
    iterrows df !! i = Some row /\ row.2 !! j = Some val /\
    __get_table_item_format (Z.of_nat i) (Z.of_nat j) df = inr fmt /\
    cells ws !! (r + Z.of_nat i + 1, c + Z.of_nat j + 1)
      = Some (__cast_to_str_except_numbers val, fmt).
Proof.
  intros Hwf (_ & _ & Hrows) Hi Hj.
  destruct (lookup_lt_is_Some_2 _ _ Hi) as [row Hrow].
  assert (Hlen : length row.2 = length (columns df)).
  { exact (proj1 (Forall_lookup _ _) Hwf i row Hrow). }
  destruct (lookup_lt_is_Some_2 row.2 j) as [val Hval]; [lia|].
  destruct (Hrows i row Hi Hrow j val) as (fmt & Hfmt & Hcell); [lia | exact Hval |].
  exists row, val, fmt. auto.
Qed.

(** C1 (borders of a table).  For a table of [R >= 1] rows and [C >= 1]
    columns placed at the cursor [(r, c)], [_table] returns and every
    data cell [(i, j)] is on the sheet at [(r + i + 1, c + j + 1)] with a
    format whose bottom border is set exactly when [i = R - 1] and whose
    right border is set exactly when [j = C - 1]: the cell [(R-1, C-1)]
    has both, the other cells of the last row the bottom one only, the
    other cells of the last column the right one only, and every other
    data cell none. *)
Theorem table_borders_exact (df : DataFrame) (tcf tif : style) (shift : option (Z * Z))
    (w : State) (r c : Z) :
  well_formed df -> ready w (r, c) -> 1 <= df_len df -> 1 <= columns_len df ->
  exists w' ws',
    _table df tcf tif shift w = Ok tt w' /\ active_ws w' = Some ws' /\
    forall i j : Z, 0 <= i < df_len df -> 0 <= j < columns_len df ->
      exists value fmt,
        cells ws' !! (r + i + 1, c + j + 1) = Some (value, fmt) /\
        fmt !! "bottom" = (if decide (i = df_len df - 1) then border else None) /\
        fmt !! "right" = (if decide (j = columns_len df - 1) then border else None).
Proof.
  intros Hwf Hready _ _.
  destruct (table_spec df tcf tif shift w r c Hwf Hready) as (w' & ws' & E & Hws & _ & Htab).
  exists w', ws'. split; [exact E|]. split; [exact Hws|].
  intros i j Hi Hj. unfold df_len, columns_len in Hi, Hj.
  destruct (table_written_cell df tcf tif r c ws' (Z.to_nat i) (Z.to_nat j) Hwf Htab)
    as (row & val & fmt & _ & _ & Hfmt & Hcell); [lia | lia |].
  rewrite !Z2Nat.id in Hfmt, Hcell by lia.
  exists (__cast_to_str_except_numbers val), fmt. split; [exact Hcell|].
  apply item_format_borders, Hfmt.
Qed.

(** The table [example_df] on a new sheet: its six data cells are at rows
    1 to 3 and columns 1 to 2 with the borders of the last row and of the
    last column. *)
Lemma table_borders_exact_witness :
  exists w' ws',
    _table example_df ∅ ∅ None sheet_A = Ok tt w' /\ active_ws w' = Some ws' /\
    forall i j : Z, 0 <= i < 3 -> 0 <= j < 2 ->
      exists value fmt,
        cells ws' !! (0 + i + 1, 0 + j + 1) = Some (value, fmt) /\
        fmt !! "bottom" = (if decide (i = 2) then border else None) /\
        fmt !! "right" = (if decide (j = 1) then border else None).
Proof.
  apply (table_borders_exact example_df ∅ ∅ None sheet_A 0 0).
  - exact example_df_well_formed.
  - exact sheet_A_ready.
  - vm_compute. discriminate.
  - vm_compute. discriminate.
Defined.

(** C7 (cursor after a table).  [_table] on a table of [R] rows returns
    with the header row written at the row of the old cursor, one name
    per column from the column after the cursor's, and with the cursor
    moved by the explicit shift or, without one, by [(R + 2, 0)]: by
    [(2, 0)] for a table without rows and by [(5, 0)] for one of 3 rows. *)
Theorem table_advances_cursor (df : DataFrame) (tcf tif : style) (shift : option (Z * Z))
    (w : State) (r c : Z) :
  well_formed df -> ready w (r, c) ->
  exists w' ws',
    _table df tcf tif shift w = Ok tt w' /\ active_ws w' = Some ws' /\
    (forall (j : nat) name, columns df !! j = Some name ->
       cells ws' !! (r, Z.of_nat j + c + 1) = Some (name, add_format (Some tcf))) /\
    match shift with
    | Some s => cursor_pos w' = Some (r + s.1, c + s.2)
    | None => cursor_pos w' = Some (r + (df_len df + 2), c) /\
              (iterrows df = [] -> cursor_pos w' = Some (r + 2, c)) /\
              (df_len df = 3 -> cursor_pos w' = Some (r + 5, c))
    end.
Proof.
  intros Hwf Hready.
  destruct (table_spec df tcf tif shift w r c Hwf Hready)
    as (w' & ws' & E & Hws & Hcur & Hhead & _).
  exists w', ws'. split; [exact E|]. split; [exact Hws|]. split.
  - intros j name Hname. apply Hhead; [|exact Hname].
    apply (lookup_lt_Some _ _ _ Hname).
  - destruct shift as [s|]; simpl in Hcur; [exact Hcur|].
    rewrite Z.add_0_r in Hcur.
    split; [exact Hcur|]. split.
    + intros Hnil. rewrite Hcur. unfold df_len. rewrite Hnil. reflexivity.
    + intros H3. rewrite Hcur, H3. reflexivity.
Qed.

(** The table [example_df], of 3 rows and 2 columns, placed at the origin
    of a new sheet without a shift: the cursor ends at [(5, 0)].  A table
    with one column and no row: its header is written and the cursor ends
    at [(2, 0)]. *)
Lemma table_advances_cursor_witness :
  (exists w', _table example_df ∅ ∅ None sheet_A = Ok tt w' /\
              cursor_pos w' = Some (5, 0)) /\
  (exists w' ws', _table empty_df ∅ ∅ None sheet_A = Ok tt w' /\
                  active_ws w' = Some ws' /\
                  cells ws' !! (0, 1) = Some (PyStr "count", ∅) /\
                  cursor_pos w' = Some (2, 0)).
Proof.
  split.
  - destruct (table_advances_cursor example_df ∅ ∅ None sheet_A 0 0
                example_df_well_formed sheet_A_ready)
      as (w' & ws' & E & _ & _ & _ & _ & H3).
    exists w'. split; [exact E|]. apply H3. reflexivity.
  - destruct (table_advances_cursor empty_df ∅ ∅ None sheet_A 0 0)
      as (w' & ws' & E & Hws & Hhead & _ & H0 & _);
      [constructor | exact sheet_A_ready |].
    exists w', ws'. split; [exact E|]. split; [exact Hws|]. split.
    + apply (Hhead O (PyStr "count")). reflexivity.
    + apply H0. reflexivity.
Defined.

(** C8 (percent columns).  In a column whose name is a string with a
    percent sign, whatever the dtype of the column, [__get_number_format]
    gives the format [0.00%] and every data cell [_table] writes in the
    column has this number format. *)
Theorem percent_column_format (df : DataFrame) (tcf tif : style) (shift : option (Z * Z))
    (w : State) (r c : Z) (j : nat) (s : string) :
  well_formed df -> ready w (r, c) ->
  columns df !! j = Some (PyStr s) -> contains percent s = true ->
  __get_number_format (PyStr s) df = Some {[ "num_format" := PText "0.00%" ]} /\
  exists w' ws',
    _table df tcf tif shift w = Ok tt w' /\ active_ws w' = Some ws' /\
    forall i : Z, 0 <= i < df_len df ->
      exists value fmt,
        cells ws' !! (r + i + 1, c + Z.of_nat j + 1) = Some (value, fmt) /\
        fmt !! "num_format" = Some (PText "0.00%").
Proof.
  intros Hwf Hready Hname Hs. split.
  { unfold __get_number_format. rewrite Hs. reflexivity. }
  destruct (table_spec df tcf tif shift w r c Hwf Hready) as (w' & ws' & E & Hws & _ & Htab).
  exists w', ws'. split; [exact E|]. split; [exact Hws|].
  intros i Hi. unfold df_len in Hi.
  destruct (table_written_cell df tcf tif r c ws' (Z.to_nat i) j Hwf Htab)
    as (row & val & fmt & _ & _ & Hfmt & Hcell);
    [lia | apply (lookup_lt_Some _ _ _ Hname) |].
  rewrite !Z2Nat.id in Hfmt, Hcell by lia.
  exists (__cast_to_str_except_numbers val), fmt. split; [exact Hcell|].
  apply (item_format_percent df i j s fmt Hname Hs Hfmt).
Qed.

(** The column ["share, %"] of [example_df] holds floats and is the
    second column: its three cells are written with the format [0.00%]. *)
Lemma percent_column_format_witness :
  __get_number_format (PyStr "share, %") example_df
    = Some {[ "num_format" := PText "0.00%" ]} /\
  exists w' ws',
    _table example_df ∅ ∅ None sheet_A = Ok tt w' /\ active_ws w' = Some ws' /\
    forall i : Z, 0 <= i < 3 ->
      exists value fmt,
        cells ws' !! (0 + i + 1, 0 + Z.of_nat 1 + 1) = Some (value, fmt) /\
        fmt !! "num_format" = Some (PText "0.00%").
Proof.
  apply (percent_column_format example_df ∅ ∅ None sheet_A 0 0 1 "share, %").
  - exact example_df_well_formed.
  - exact sheet_A_ready.
  - reflexivity.
  - reflexivity.
Defined.

(** ** The column width registry *)

Lemma widen_col_info (MIN MAX : pyfloat) (fmt : Format) (col : Z) (text : pyobj)
    (ws : Worksheet) :
  col_info (widen MIN MAX fmt col text ws)
  = if ltb (width_of ws col) (__printed_value_width text)
    then <[col := (__clip (__printed_value_width text) MIN MAX, fmt)]> (col_info ws)
    else col_info ws.
Proof.
  unfold widen. destruct (ltb _ _); [|reflexivity].
  rewrite ws_set_column_single. reflexivity.
Qed.

Lemma ensure_width_at (w : State) (p : Z * Z) (col : Z) (text : pyobj) :
  ready w p ->
  exists n ws dcf,
    _sheet w = Some n /\ sheetnames w !! n = Some ws /\ default_cell_format w = Some dcf /\
    ensure_width col text w
    = Ok tt (put_ws n (widen (MIN_CELL_WIDTH w) (MAX_CELL_WIDTH w) dcf col text ws) w).
Proof.
  intros Hready.
  destruct (ready_inv _ _ Hready) as (n & ws & l & dcf & Hn & Hws & Hl & Hp & Hd).
  exists n, ws, dcf. repeat split; try assumption.
  rewrite <- (put_ws_id _ _ _ Hws) at 1.
  apply (ensure_width_run w n Hn dcf col text ws Hd).
Qed.

(** C3 (width adjustment).  With [need] the printed width of the text,
    the adjustment of lines 171-175 registers for the column the width
    [__clip(need, MIN_CELL_WIDTH, MAX_CELL_WIDTH)], with the default cell
    format, when the current width of the column is strictly below [need]
    itself, and leaves the reporter as it is otherwise.  When it registers
    and [need] is above [MAX_CELL_WIDTH] and not below [MIN_CELL_WIDTH],
    the width registered is [MAX_CELL_WIDTH]: [30] clipped to [3.5] and
    [24] is [24]. *)
Theorem ensure_width_spec (w : State) (p : Z * Z) (col : Z) (text : pyobj) :
  ready w p ->
  let need := __printed_value_width text in
  let width := __clip need (MIN_CELL_WIDTH w) (MAX_CELL_WIDTH w) in
  exists ws w' ws' dcf,
    active_ws w = Some ws /\ default_cell_format w = Some dcf /\
    ensure_width col text w = Ok tt w' /\ active_ws w' = Some ws' /\
    (ltb (width_of ws col) need = true ->
       col_info ws' = <[col := (width, dcf)]> (col_info ws) /\ width_of ws' col = width) /\
    (ltb (width_of ws col) need = false -> w' = w) /\
    (ltb (width_of ws col) need = true ->
     ltb need (MIN_CELL_WIDTH w) = false -> ltb (MAX_CELL_WIDTH w) need = true ->
       width_of ws' col = MAX_CELL_WIDTH w) /\
    __clip (of_int 30) default_min_cell_width (of_int 24) = of_int 24.
Proof.
  intros Hready need width.
  destruct (ensure_width_at w p col text Hready) as (n & ws & dcf & Hn & Hws & Hd & E).
  exists ws. eexists _, _, dcf.
  split; [unfold active_ws; rewrite Hn; exact Hws|]. split; [exact Hd|].
  split; [exact E|].
  split; [unfold active_ws; simpl; rewrite Hn; simpl; apply lookup_insert_eq|].
  assert (Hstored : ltb (width_of ws col) need = true ->
            col_info (widen (MIN_CELL_WIDTH w) (MAX_CELL_WIDTH w) dcf col text ws)
              = <[col := (width, dcf)]> (col_info ws) /\
            width_of (widen (MIN_CELL_WIDTH w) (MAX_CELL_WIDTH w) dcf col text ws) col = width).
  { intros Hlt. split.
    - rewrite widen_col_info. fold need. rewrite Hlt. reflexivity.
    - unfold width_of. rewrite widen_col_info. fold need.
      rewrite Hlt, lookup_insert_eq. reflexivity. }
  split; [exact Hstored|]. split; [|split].
  - intros Hge. unfold widen. fold need. rewrite Hge. apply put_ws_id, Hws.
  - intros Hlt Hmin Hmax. destruct (Hstored Hlt) as [_ ->].
    unfold width, __clip. rewrite Hmin, Hmax. reflexivity.
  - reflexivity.
Qed.

(** A header of 26 characters on a new sheet with the default bounds
    [3.5] and [24]: its printed width, 26 * 9 * (8.43 / 64), is about
    30.8, above the width 8.43 of the column, and the column is set to
    [24]. *)
Lemma ensure_width_spec_witness :
  exists w' ws',
    ensure_width 1 (PyStr "abcdefghijklmnopqrstuvwxyz") sheet_A = Ok tt w' /\
    active_ws w' = Some ws' /\ width_of ws' 1 = of_int 24.
Proof.
  destruct (ensure_width_spec sheet_A (0, 0) 1 (PyStr "abcdefghijklmnopqrstuvwxyz")
              sheet_A_ready)
    as (ws & w' & ws' & dcf & Hws & _ & E & Hws' & _ & _ & Hmax & _).
  exists w', ws'. split; [exact E|]. split; [exact Hws'|].
  assert (Hws0 : ws = new_ws).
  { pose proof (new_sheet_A_active default_pixel_sheet_width default_max_cell_width
                  default_min_cell_width) as H. fold sheet_A in H. congruence. }
  rewrite Hmax; [reflexivity | rewrite Hws0, new_ws_width; vm_compute; reflexivity
                | vm_compute; reflexivity | vm_compute; reflexivity].
Defined.

Lemma widths_bounded_width_of (MAX : pyfloat) (ws : Worksheet) (col : Z) :
  widths_bounded MAX ws -> leb (width_of ws col) MAX = true.
Proof.
  intros [Hd Hall]. unfold width_of.
  destruct (col_info ws !! col) as [info|] eqn:E; [|exact Hd].
  exact (Hall col info E).
Qed.

(** One adjustment, on the worksheet. *)
Lemma widen_step (MIN MAX : pyfloat) (fmt : Format) (col : Z) (text : pyobj) (ws : Worksheet) :
  leb MIN MAX = true -> widths_bounded MAX ws ->
  let ws' := widen MIN MAX fmt col text ws in
  widths_bounded MAX ws' /\
  (forall col', leb (width_of ws col') (width_of ws' col') = true) /\
  (forall col', col_info ws' !! col' = col_info ws !! col' \/
                exists width f, col_info ws' !! col' = Some (width, f) /\
                                leb MIN width = true /\ leb width MAX = true).
Proof.
  intros Hmm Hb ws'.
  assert (Hsame : forall col', leb (width_of ws col') (width_of ws col') = true).
  { intros col'. apply leb_refl.
    apply (leb_not_nan _ _ (widths_bounded_width_of MAX ws col' Hb)). }
  subst ws'. unfold widen.
  destruct (ltb (width_of ws col) (__printed_value_width text)) eqn:Hlt.
  2:{ split; [exact Hb|]. split; [exact Hsame|]. intros col'. left. reflexivity. }
  set (need := __printed_value_width text) in *.
  destruct (ltb_not_nan _ _ Hlt) as [_ Hneed].
  destruct (clip_bounds need MIN MAX Hmm Hneed) as [Hlo Hhi].
  rewrite ws_set_column_single. split; [|split].
  - split; [apply Hb|]. simpl. apply map_Forall_insert_2; [exact Hhi | apply Hb].
  - intros col'. unfold width_of at 2. simpl.
    destruct (decide (col = col')) as [<-|Hne].
    + rewrite lookup_insert_eq. simpl. unfold __clip.
      destruct (ltb need MIN) eqn:E1.
      * apply ltb_leb, ltb_compare.
        eapply SFcompare_lt_trans; apply ltb_compare; eassumption.
      * destruct (ltb MAX need) eqn:E2.
        -- apply widths_bounded_width_of, Hb.
        -- apply ltb_leb, Hlt.
    + rewrite lookup_insert_ne by exact Hne. apply Hsame.
  - intros col'. simpl. destruct (decide (col = col')) as [<-|Hne].
    + right. eexists _, _. rewrite lookup_insert_eq. eauto.
    + left. apply lookup_insert_ne, Hne.
Qed.

Lemma ready_put_ws (w : State) (p : Z * Z) (n : string) (ws : Worksheet) :
  _sheet w = Some n -> ready w p -> ready (put_ws n ws w) p.
Proof.
  intros Hn (_ & Hp & Hd). split; [|split; assumption].
  exists ws. unfold active_ws. simpl. rewrite Hn. simpl. apply lookup_insert_eq.
Qed.

(** C2 (widths only grow), for the configurations that keep it.  When
    [min_cell_width <= max_cell_width] and the default width 8.43 and the
    widths registered so far are at most [max_cell_width] (as they are on
    a new sheet when [8.43 <= max_cell_width]), any sequence of width
    adjustments returns and leaves the widths bounded in the same way;
    the width of no column has decreased, and every column either has the
    entry it had or one whose width lies in
    [[MIN_CELL_WIDTH, MAX_CELL_WIDTH]]. *)
Theorem widths_never_decrease (calls : list (Z * pyobj)) (w : State) (p : Z * Z)
    (ws : Worksheet) :
  ready w p -> active_ws w = Some ws ->
  leb (MIN_CELL_WIDTH w) (MAX_CELL_WIDTH w) = true ->
  widths_bounded (MAX_CELL_WIDTH w) ws ->
  exists w' ws',
    run_all (map (λ call, ensure_width call.1 call.2) calls) w = Ok tt w' /\
    active_ws w' = Some ws' /\ ready w' p /\
    MIN_CELL_WIDTH w' = MIN_CELL_WIDTH w /\ MAX_CELL_WIDTH w' = MAX_CELL_WIDTH w /\
    widths_bounded (MAX_CELL_WIDTH w) ws' /\
    (forall col, leb (width_of ws col) (width_of ws' col) = true) /\
    (forall col, col_info ws' !! col = col_info ws !! col \/
                 exists width f, col_info ws' !! col = Some (width, f) /\
                                 leb (MIN_CELL_WIDTH w) width = true /\
                                 leb width (MAX_CELL_WIDTH w) = true).
Proof.
  revert w ws. induction calls as [|[col text] calls IH]; intros w ws Hready Hws Hmm Hb.
  - exists w, ws. simpl. split; [reflexivity|]. split; [exact Hws|].
    split; [exact Hready|]. split; [reflexivity|]. split; [reflexivity|].
    split; [exact Hb|]. split.
    + intros col. apply leb_refl.
      apply (leb_not_nan _ _ (widths_bounded_width_of _ ws col Hb)).
    + intros col. left. reflexivity.
  - destruct (ensure_width_at w p col text Hready) as (n & ws0 & dcf & Hn & Hws0 & Hd & E).
    assert (ws0 = ws) as ->.
    { unfold active_ws in Hws. rewrite Hn in Hws. simpl in Hws. congruence. }
    destruct (widen_step (MIN_CELL_WIDTH w) (MAX_CELL_WIDTH w) dcf col text ws Hmm Hb)
      as (Hb1 & Hmono1 & Hent1).
    set (ws1 := widen (MIN_CELL_WIDTH w) (MAX_CELL_WIDTH w) dcf col text ws) in *.
    destruct (IH (put_ws n ws1 w) ws1) as (w' & ws' & E' & Hws' & Hr' & Hmin & Hmax & Hb' & Hmono' & Hent').
    + apply ready_put_ws; assumption.
    + unfold active_ws. simpl. rewrite Hn. simpl. apply lookup_insert_eq.
    + exact Hmm.
    + exact Hb1.
    + exists w', ws'. simpl. rewrite (bind_Ok _ _ _ _ _ E). split; [exact E'|].
      split; [exact Hws'|]. split; [exact Hr'|].
      split; [exact Hmin|]. split; [exact Hmax|]. split; [exact Hb'|]. split.
      * intros c. eapply leb_trans; [apply Hmono1 | apply Hmono'].
      * intros c. destruct (Hent' c) as [Heq|Hin]; [|right; exact Hin].
        rewrite Heq. apply Hent1.
Qed.

(** On a new sheet every column registered has the default width. *)
Lemma new_sheet_widths_bounded (MAX : pyfloat) (first last : Z) (fmt : Format) :
  leb CELL_WIDTH MAX = true ->
  widths_bounded MAX (ws_set_column first last CELL_WIDTH fmt empty_worksheet).
Proof.
  intros H. split; [exact H|]. unfold ws_set_column. simpl.
  induction (seqZ first (last - first + 1)) as [|col cols IH]; simpl.
  - apply map_Forall_empty.
  - apply map_Forall_insert_2; [exact H | exact IH].
Qed.

(** Three adjustments on a new sheet with the default bounds: a header
    of 26 characters, a shorter one for the same column, and one for
    the next column. *)
Lemma widths_never_decrease_witness :
  let calls := [(1, PyStr "abcdefghijklmnopqrstuvwxyz"); (1, PyStr "abcdefghijkl");
                (2, PyStr "abcdefghijkl")] in
  exists w' ws',
    run_all (map (λ call, ensure_width call.1 call.2) calls) sheet_A = Ok tt w' /\
    active_ws w' = Some ws' /\
    (forall col, leb (width_of new_ws col) (width_of ws' col) = true) /\
    (forall col, col_info ws' !! col = col_info new_ws !! col \/
                 exists width f, col_info ws' !! col = Some (width, f) /\
                                 leb default_min_cell_width width = true /\
                                 leb width default_max_cell_width = true).
Proof.
  intros calls.
  destruct (widths_never_decrease calls sheet_A (0, 0) new_ws)
    as (w' & ws' & E & Hws' & _ & _ & _ & _ & Hmono & Hent).
  - exact sheet_A_ready.
  - apply new_sheet_A_active.
  - vm_compute. reflexivity.
  - apply new_sheet_widths_bounded. vm_compute. reflexivity.
  - exists w', ws'. split; [exact E|]. split; [exact Hws'|].
    split; [exact Hmono | exact Hent].
Defined.

(** With [max_cell_width=5] and the default [min_cell_width=3.5], a
    header of 10 characters (printed width about 11.9) takes column 1
    from the default width 8.43 down to 5.  With [min_cell_width=10] and
    [max_cell_width=5] the width stored, 5, is below the minimum. *)
Lemma narrow_maximum_shrinks_column :
  leb (MIN_CELL_WIDTH narrow_A) (MAX_CELL_WIDTH narrow_A) = true /\
  active_width narrow_A 1 = Some CELL_WIDTH /\
  width_after (ensure_width 1 (PyStr "0123456789")) narrow_A 1 = Some (of_int 5) /\
  ltb (of_int 5) CELL_WIDTH = true /\
  leb CELL_WIDTH (of_int 5) = false /\
  MIN_CELL_WIDTH crossed_A = of_int 10 /\
  width_after (ensure_width 1 (PyStr "0123456789")) crossed_A 1 = Some (of_int 5) /\
  leb (MIN_CELL_WIDTH crossed_A) (of_int 5) = false.
Proof. repeat split; vm_compute; reflexivity. Qed.

(** ** Text boxes *)

Lemma printed_text_height_run (T : string) (w : State) :
  PIXEL_SHEET_WIDTH w <> 0 ->
  __printed_text_height T w
  = Ok (sum_Z (map (line_rows (PIXEL_SHEET_WIDTH w)) (split newline T))) w.
Proof.
  intros HS. unfold __printed_text_height.
  erewrite bind_Ok by reflexivity.
  rewrite printed_text_height_loop by exact HS. reflexivity.
Qed.

Lemma text_run (value : pyobj) (format : option style) (shift : Z * Z)
    (w : State) (n : string) (ws : Worksheet) (l : loc) (a b : Z) :
  _sheet w = Some n -> sheetnames w !! n = Some ws ->
  _cursor w = Some l -> lists w !! l = Some (a, b) ->
  _text value format shift w
  = Ok tt (set_lists (<[l := (a + shift.1, b + shift.2)]> (lists w))
             (put_ws n (ws_write a b value (add_format format) ws) w)).
Proof.
  intros Hn Hws Hl Hp. unfold _text.
  rewrite <- (put_ws_id _ _ _ Hws) at 1.
  unfold mbind, M_bind.
  rewrite (the_cursor_run w n l a b Hl Hp). simpl.
  rewrite (on_sheet_run w n Hn).
  apply (apply_shift_run w n l a b Hl Hp).
Qed.

Lemma text_title_inv (value : pyobj) (format : option style) (shift : Z * Z)
    (n : string) (l l' : loc) (p : Z * Z) :
  hoare (title_inv n l l' p) (_text value format shift) (λ _, title_inv n l l' p).
Proof.
  intros w (Hn & [ws Hws] & Hl & Ha & Hne & Hp & [[a b] Hq]).
  eexists tt, _. split; [apply (text_run _ _ _ w n ws l a b); assumption|].
  unfold title_inv. simpl.
  split; [exact Hn|]. split; [rewrite lookup_insert_eq; eauto|].
  split; [exact Hl|]. split; [exact Ha|]. split; [exact Hne|].
  split; [rewrite lookup_insert_ne by exact Hne; exact Hp|].
  rewrite lookup_insert_eq. eauto.
Qed.

(** The title branch of [_textbox]: it returns, and the cursor is then a
    list that holds the position the cursor had. *)
Lemma textbox_title_run (title : pyobj) (header_format : style) (w : State) (p : Z * Z) :
  ready w p ->
  hoare (λ w1, w1 = w)
    (p ← the_cursor;
     anchor ← new_list p;
     modify (set_cursor_anchor (Some anchor));;
     _text title (Some header_format) (0, 1);;
     cell_header ← lift (py_floordiv (len (py_str title) * PIXEL_CHAR_WIDTH) PIXEL_CELL_WIDTH);
     for_range (Z.to_nat (Z.max 3 cell_header)) (_text (PyStr "") (Some header_format) (0, 1));;
     modify (λ w, set_cursor (_cursor_anchor w) w))
    (λ _ w', is_Some (active_ws w') /\ cursor_pos w' = Some p /\
             default_cell_format w' = default_cell_format w /\
             PIXEL_SHEET_WIDTH w' = PIXEL_SHEET_WIDTH w).
Proof.
  intros Hready.
  destruct (ready_inv _ _ Hready) as (n & ws & l & dcf & Hn & Hws & Hl & Hp & Hd).
  set (l' := fresh (dom (lists w))).
  assert (Hfresh : lists w !! l' = None).
  { apply not_elem_of_dom. apply is_fresh. }
  assert (Hne : l <> l') by (intros ->; congruence).
  set (Inv := λ w1, title_inv n l l' p w1 /\
                    default_cell_format w1 = default_cell_format w /\
                    PIXEL_SHEET_WIDTH w1 = PIXEL_SHEET_WIDTH w).
  assert (Htext : forall s f sh, hoare Inv (_text s f sh) (λ _, Inv)).
  { intros s f sh w1 (Hinv & Hd1 & HS1).
    destruct (text_title_inv s f sh n l l' p w1 Hinv) as ([] & w2 & E & Hinv2).
    exists tt, w2. split; [exact E|]. split; [exact Hinv2|].
    destruct Hinv as (Hn1 & [ws1 Hws1] & Hl1 & _ & _ & _ & [[a b] Hq]).
    rewrite (text_run _ _ _ w1 n ws1 l a b Hn1 Hws1 Hl1 Hq) in E.
    injection E as <-. split; assumption. }
  eapply hoare_bind with (Q := λ q w1, q = p /\ w1 = w).
  { intros w1 ->. exists p, w. split; [|auto].
    unfold the_cursor, cursor_pos. rewrite Hl. simpl. rewrite Hp. reflexivity. }
  intros q. eapply hoare_bind with (Q := λ a w1, a = l' /\ Inv (set_cursor_anchor (Some a) w1)).
  { intros w1 (-> & ->). eexists l', _. split; [reflexivity|]. split; [reflexivity|].
    split; [|split; reflexivity]. unfold title_inv. simpl.
    split; [exact Hn|]. split; [eauto|]. split; [exact Hl|]. split; [reflexivity|].
    split; [exact Hne|]. split; [apply lookup_insert_eq|].
    rewrite lookup_insert_ne by (intros E; apply Hne; symmetry; exact E). rewrite Hp. destruct p; eauto. }
  intros a. eapply hoare_bind with (Q := λ _, Inv).
  { intros w1 (-> & H). eexists tt, _. split; [reflexivity | exact H]. }
  intros u1. eapply hoare_bind; [apply Htext|].
  intros u2. eapply hoare_bind with (Q := λ _, Inv).
  { intros w1 H. unfold lift, py_floordiv. simpl. eexists _, w1. split; [reflexivity | exact H]. }
  intros cell_header. eapply hoare_bind with (Q := λ _, Inv).
  { apply (hoare_for_range (λ _, Inv)). intros k Hk. apply Htext. }
  intros u3 w1 ((Hn1 & Hws1 & Hl1 & Ha1 & _ & Hp1 & _) & Hd1 & HS1).
  eexists tt, _. split; [reflexivity|]. simpl.
  split; [unfold active_ws; simpl; rewrite Hn1; exact Hws1|].
  split; [unfold cursor_pos; simpl; rewrite Ha1; exact Hp1|].
  split; assumption.
Qed.

Lemma apply_shift_pos (shift : Z * Z) (w : State) (r c : Z) :
  cursor_pos w = Some (r, c) ->
  exists w', apply_shift shift w = Ok tt w' /\
             cursor_pos w' = Some (r + shift.1, c + shift.2) /\
             active_ws w' = active_ws w.
Proof.
  unfold cursor_pos, apply_shift. destruct (_cursor w) as [l|] eqn:El; [|discriminate].
  simpl. intros ->. eexists. split; [reflexivity|]. simpl. rewrite El. simpl.
  split; [apply lookup_insert_eq | reflexivity].
Qed.

(** C10 (cursor after a text box).  On a sheet of non-zero pixel width,
    [_textbox] returns, with or without a title, and the cursor is then
    the cursor before plus the shift given or, without one, plus
    [(printed_text_height(text) + 2, 0)]: the title and the header cells
    move the list that was the cursor, and the cursor becomes the copy
    made before, which holds the position saved. *)
Theorem textbox_advances_cursor (text : string) (title : option pyobj)
    (header_format textbox_format : style) (shift : option (Z * Z))
    (w : State) (r c : Z) :
  ready w (r, c) -> PIXEL_SHEET_WIDTH w <> 0 ->
  exists height w',
    __printed_text_height text w = Ok height w /\
    _textbox text title header_format textbox_format shift w = Ok tt w' /\
    cursor_pos w' = Some (match shift with
                          | Some s => (r + s.1, c + s.2)
                          | None => (r + (height + 2), c)
                          end).
Proof.
  intros Hready HS.
  destruct (ready_inv _ _ Hready) as (n & ws & l & dcf & Hn & Hws & Hl & Hp & Hd).
  pose proof (printed_text_height_run text w HS) as Hh.
  set (height := sum_Z (map (line_rows (PIXEL_SHEET_WIDTH w)) (split newline text))) in *.
  exists height.
  assert (Hmid : exists w2, (match title with
                   | Some title =>
                       p ← the_cursor;
                       anchor ← new_list p;
                       modify (set_cursor_anchor (Some anchor));;
                       _text title (Some header_format) (0, 1);;
                       cell_header ← lift (py_floordiv (len (py_str title) * PIXEL_CHAR_WIDTH)
                                             PIXEL_CELL_WIDTH);
                       for_range (Z.to_nat (Z.max 3 cell_header))
                         (_text (PyStr "") (Some header_format) (0, 1));;
                       modify (λ w, set_cursor (_cursor_anchor w) w)
                   | None => mret tt
                   end) (put_ws n (ws_insert_textbox
                           (mkTextbox (r + 1) c text
                              (textbox_format ∪
                               {[ "width" := PNum (Int (PIXEL_SHEET_WIDTH w));
                                  "height" := PNum (Int (height * PIXEL_ROW_HEIGHT));
                                  "object_position" := PNum (Int 1) ]})) ws) w)
                 = Ok tt w2 /\ cursor_pos w2 = Some (r, c)).
  { set (w1 := put_ws n _ w).
    assert (Hready1 : ready w1 (r, c)) by (apply ready_put_ws; assumption).
    destruct title as [title|].
    - destruct (textbox_title_run title header_format w1 (r, c) Hready1 w1 eq_refl)
        as ([] & w2 & E & _ & Hpos & _).
      exists w2. split; assumption.
    - exists w1. split; [reflexivity | apply Hready1]. }
  destruct Hmid as (w2 & E2 & Hpos2).
  destruct (apply_shift_pos (default (height + 2, 0) shift) w2 r c Hpos2)
    as (w' & E' & Hpos' & _).
  exists w'. split; [exact Hh|]. split.
  - unfold _textbox. rewrite (bind_Ok _ _ _ _ _ Hh).
    rewrite <- (put_ws_id _ _ _ Hws) at 1.
    unfold mbind at 1, M_bind at 1. rewrite (the_cursor_run w n l r c Hl Hp).
    unfold mbind at 1, M_bind at 1, gets at 1.
    unfold mbind at 1, M_bind at 1. rewrite (on_sheet_run w n Hn).
    cbn [fst snd PIXEL_SHEET_WIDTH put_ws set_sheetnames].
    rewrite (bind_Ok _ _ _ _ _ E2). exact E'.
  - rewrite Hpos'. destruct shift as [s|]; simpl; [reflexivity|].
    rewrite Z.add_0_r. reflexivity.
Qed.

(** A text of two lines under a title, placed at the origin of a new
    sheet without a shift: the height is 2 and the cursor ends at
    [(4, 0)]. *)
Lemma textbox_advances_cursor_witness :
  exists w',
    _textbox (String.concat (String newline "") ["first"; "second"]) (Some (PyStr "Summary"))
             ∅ ∅ None sheet_A = Ok tt w' /\
    cursor_pos w' = Some (4, 0).
Proof.
  destruct (textbox_advances_cursor
              (String.concat (String newline "") ["first"; "second"])
              (Some (PyStr "Summary")) ∅ ∅ None sheet_A 0 0 sheet_A_ready)
    as (height & w' & Hh & E & Hpos).
  - vm_compute. discriminate.
  - exists w'. split; [exact E|]. rewrite Hpos.
    assert (height = 2) as ->; [|reflexivity].
    rewrite printed_text_height_run in Hh by (vm_compute; discriminate).
    assert (Hw : forall (a b : Z) (w1 w2 : State), Ok a w1 = Ok b w2 -> b = a)
      by (intros a b w1 w2 H; congruence).
    apply Hw in Hh. rewrite Hh. reflexivity.
Defined.

(** ** Images *)

Lemma truediv_int (a b : Z) :
  - 2 ^ 53 < a < 2 ^ 53 -> 0 < b < 2 ^ 53 ->
  exists f, py_truediv (Int a) (Int b) = inr (Float f) /\ small 54 f.
Proof.
  intros Ha Hb. destruct (of_int_pos b Hb) as (m & e & E & Hm).
  unfold py_truediv. cbn [to_float]. rewrite E. cbn [is_zero].
  eexists. split; [reflexivity|].
  change 54 with (53 - 1 + 2). apply div_small; [apply of_int_small, Ha | lia | lia].
Qed.

Lemma truediv_row_height (x : number) (b : Z) :
  small b (to_float x) -> -1070 <= b <= 1027 ->
  exists f, py_truediv x (Int PIXEL_ROW_HEIGHT) = inr (Float f) /\ small (b - 3) f.
Proof.
  intros Hx Hb. unfold py_truediv. cbn [to_float].
  change (of_int PIXEL_ROW_HEIGHT) with (S754_finite false 5629499534213120 (-48)).
  cbn [is_zero]. eexists. split; [reflexivity|].
  replace (b - 3) with (b - 5 + 2) by lia. apply div_small; [exact Hx | simpl; lia | lia].
Qed.

(** [min(1, a, b)] is [1] or one of the two, and is at most [1]. *)
Lemma py_min_one (f1 f2 : pyfloat) :
  let scale := py_min (Int 1) [Float f1; Float f2] in
  (scale = Int 1 \/ scale = Float f1 \/ scale = Float f2) /\
  py_le scale (Int 1) = true.
Proof.
  unfold py_min. cbn [foldl].
  destruct (py_lt (Float f1) (Int 1)) eqn:E1.
  - destruct (py_lt (Float f2) (Float f1)) eqn:E2.
    + split; [auto|]. cbn [py_lt py_le to_float] in *.
      apply ltb_leb, ltb_compare.
      eapply SFcompare_lt_trans; apply ltb_compare; eassumption.
    + split; [auto|]. cbn [py_lt py_le to_float] in *. apply ltb_leb, E1.
  - destruct (py_lt (Float f2) (Int 1)) eqn:E2.
    + split; [auto|]. cbn [py_lt py_le to_float] in *. apply ltb_leb, E2.
    + split; [auto|]. reflexivity.
Qed.

(** The number of rows an image takes is defined: the scaled height
    divided by the row height is a finite float. *)
Lemma image_rows_defined (height : Z) (scale : number) :
  0 < height < 2 ^ 53 ->
  scale = Int 1 \/ (exists f, scale = Float f /\ small 54 f) ->
  exists rows k,
    py_truediv (py_mul (Int height) scale) (Int PIXEL_ROW_HEIGHT) = inr rows /\
    math_ceil rows = inr k.
Proof.
  intros Hh Hscale.
  assert (Hprod : small 108 (to_float (py_mul (Int height) scale))).
  { destruct Hscale as [->|(f & -> & Hf)]; cbn [py_mul to_float].
    - rewrite Z.mul_1_r. apply (small_le 53); [lia|]. apply of_int_small. lia.
    - change 108 with (53 + 54 + 1). apply mul_small; [|exact Hf|lia].
      apply of_int_small. lia. }
  destruct (truediv_row_height _ 108 Hprod) as (f & E & Hf); [lia|].
  destruct (small_ceil _ _ Hf) as [k Hk].
  exists (Float f), k. split; [exact E|]. cbn [math_ceil]. rewrite Hk. reflexivity.
Qed.

(** C9 (images).  For an image of positive pixel size and an integer
    bound (all below [2^53], so that their floats are exact), [_image]
    returns.  It computes [maxW / width] and [maxH / height] and takes
    [scale = min(1, maxW/width, maxH/height)], which is at most [1], and
    inserts the image at the cursor with this scale.  The cursor then
    moves by the shift given or, without one, by
    [(ceil(height * scale / PIXEL_ROW_HEIGHT) + 1, 0)]; the quotient is a
    finite float, so its ceiling is defined.  For the size [(900, 1600)]
    and the bound [(450, 800)] the scale is [0.5] and the ceiling is [40]. *)
Theorem image_scale_and_advance (image : Image) (image_name : string)
    (max_pixel_size : Z * Z) (image_options : gmap string pval) (shift : option (Z * Z))
    (w : State) (r c : Z) :
  ready w (r, c) ->
  0 < (size image).1 < 2 ^ 53 -> 0 < (size image).2 < 2 ^ 53 ->
  - 2 ^ 53 < max_pixel_size.1 < 2 ^ 53 -> - 2 ^ 53 < max_pixel_size.2 < 2 ^ 53 ->
  exists scale_w scale_h rows k ws w' ws',
    py_truediv (Int max_pixel_size.1) (Int (size image).1) = inr scale_w /\
    py_truediv (Int max_pixel_size.2) (Int (size image).2) = inr scale_h /\
    let scale := py_min (Int 1) [scale_w; scale_h] in
    py_le scale (Int 1) = true /\
    py_truediv (py_mul (Int (size image).2) scale) (Int PIXEL_ROW_HEIGHT) = inr rows /\
    math_ceil rows = inr k /\
    active_ws w = Some ws /\
    _image image image_name max_pixel_size image_options shift w = Ok tt w' /\
    active_ws w' = Some ws' /\
    pictures ws' = mkPicture r c image_name image
                     (image_options ∪
                      {[ "x_scale" := PNum scale; "y_scale" := PNum scale;
                         "object_position" := PNum (Int 3) ]}) :: pictures ws /\
    cursor_pos w' = Some (match shift with
                          | Some s => (r + s.1, c + s.2)
                          | None => (r + (k + 1), c)
                          end) /\
    py_min (Int 1) [Float (div (of_int 450) (of_int 900));
                    Float (div (of_int 800) (of_int 1600))]
      = Float (S754_finite false 4503599627370496 (-53)) /\
    math_ceil (Float (div (mul (of_int 1600) (S754_finite false 4503599627370496 (-53)))
                          (of_int PIXEL_ROW_HEIGHT))) = inr 40.
Proof.
  intros Hready Hw Hh Hmw Hmh.
  destruct (ready_inv _ _ Hready) as (n & ws & l & dcf & Hn & Hws & Hl & Hp & Hd).
  destruct (truediv_int _ _ Hmw Hw) as (fw & Ew & Hfw).
  destruct (truediv_int _ _ Hmh Hh) as (fh & Eh & Hfh).
  destruct (py_min_one fw fh) as [Hcases Hle].
  set (scale := py_min (Int 1) [Float fw; Float fh]) in *.
  destruct (image_rows_defined (size image).2 scale Hh) as (rows & k & Erows & Ek).
  { destruct Hcases as [->|[->| ->]]; eauto. }
  set (pic := mkPicture r c image_name image
                (image_options ∪ {[ "x_scale" := PNum scale; "y_scale" := PNum scale;
                                    "object_position" := PNum (Int 3) ]})).
  set (s := match shift with Some s => s | None => (k + 1, 0) end).
  exists (Float fw), (Float fh), rows, k, ws.
  exists (set_lists (<[l := (r + s.1, c + s.2)]> (lists w)) (put_ws n (ws_insert_image pic ws) w)).
  exists (ws_insert_image pic ws).
  split; [exact Ew|]. split; [exact Eh|]. split; [exact Hle|]. split; [exact Erows|].
  split; [exact Ek|].
  split; [unfold active_ws; rewrite Hn; exact Hws|]. split; [|split; [|split; [|split]]].
  - unfold _image. rewrite Ew, Eh. fold scale.
    rewrite <- (put_ws_id _ _ _ Hws) at 1.
    unfold mbind at 1, M_bind at 1, lift at 1.
    unfold mbind at 1, M_bind at 1, lift at 1.
    unfold mbind at 1, M_bind at 1. rewrite (the_cursor_run w n l r c Hl Hp).
    cbv zeta.
    unfold mbind at 1, M_bind at 1. rewrite (on_sheet_run w n Hn).
    fold scale. destruct shift as [sh|].
    + unfold mbind, M_bind, mret, M_ret.
      exact (apply_shift_run w n l r c Hl Hp sh (ws_insert_image pic ws)).
    + rewrite Erows. unfold mbind, M_bind, mret, M_ret, lift. rewrite Ek.
      exact (apply_shift_run w n l r c Hl Hp (k + 1, 0) (ws_insert_image pic ws)).
  - unfold active_ws. simpl. rewrite Hn. simpl. apply lookup_insert_eq.
  - reflexivity.
  - unfold cursor_pos. simpl. rewrite Hl. simpl. rewrite lookup_insert_eq.
    subst s. destruct shift as [sh|]; simpl; [reflexivity|]. rewrite Z.add_0_r. reflexivity.
  - split; vm_compute; reflexivity.
Qed.

(** An image of 900 by 1600 pixels with the default bound
    [(450, 800)], placed at the origin of a new sheet without a shift:
    both quotients are [0.5], the scaled height 800 takes 40 rows, and
    the cursor ends at [(41, 0)]. *)
Lemma image_scale_and_advance_witness :
  exists w' ws',
    _image (mkImage (900, 1600)) "plot" (450, 800) ∅ None sheet_A = Ok tt w' /\
    active_ws w' = Some ws' /\
    (exists p, pictures ws' = [p] /\
               pic_options p !! "x_scale"
                 = Some (PNum (Float (S754_finite false 4503599627370496 (-53))))) /\
    cursor_pos w' = Some (41, 0).
Proof.
  destruct (image_scale_and_advance (mkImage (900, 1600)) "plot" (450, 800) ∅ None
              sheet_A 0 0 sheet_A_ready)
    as (sw & sh & rows & k & ws & w' & ws' & Ew & Eh & _ & Erows & Ek & Hws & E & Hws'
        & Hpic & Hpos & _); cbn [size fst snd]; try lia.
  assert (Hinr : forall (A : Type) (x y : A), @inr exn A x = inr y -> y = x)
    by (intros A x y H; congruence).
  vm_compute in Ew. apply Hinr in Ew. subst sw.
  vm_compute in Eh. apply Hinr in Eh. subst sh.
  vm_compute in Erows. apply Hinr in Erows. subst rows.
  vm_compute in Ek. apply Hinr in Ek. subst k.
  exists w', ws'. split; [exact E|]. split; [exact Hws'|]. split; [|exact Hpos].
  assert (ws = new_ws) as ->.
  { pose proof (new_sheet_A_active default_pixel_sheet_width default_max_cell_width
                  default_min_cell_width) as H. fold sheet_A in H. congruence. }
  eexists. split; [exact Hpic|]. reflexivity.
Defined.

(** * Further properties of the reporter *)

(** ** Shifts and text *)

Lemma set_lists_id (w : State) (l : loc) (p : Z * Z) :
  lists w !! l = Some p -> set_lists (<[l := p]> (lists w)) w = w.
Proof.
  intros H. destruct w. unfold set_lists. cbn [lists] in *.
  rewrite (insert_id _ _ _ H). reflexivity.
Qed.

(** X2.  Two shifts in a row are one shift by their sum, in every state
    (without a cursor both raise [TypeError]); a shift followed by the
    opposite shift gives back the state. *)
Theorem apply_shift_compose (s1 s2 : Z * Z) (w : State) :
  (apply_shift s1;; apply_shift s2) w = apply_shift (s1.1 + s2.1, s1.2 + s2.2) w /\
  (is_Some (cursor_pos w) ->
   (apply_shift s1;; apply_shift (- s1.1, - s1.2)) w = Ok tt w).
Proof.
  assert (Hcomp : forall t1 t2 : Z * Z,
            (apply_shift t1;; apply_shift t2) w
            = apply_shift (t1.1 + t2.1, t1.2 + t2.2) w).
  { intros t1 t2. unfold mbind, M_bind, apply_shift.
    destruct (_cursor w) as [l|] eqn:El; [|reflexivity].
    destruct (lists w !! l) as [[r c]|] eqn:Ep; [|reflexivity].
    cbn [_cursor lists set_lists fst snd]. rewrite El, lookup_insert_eq.
    unfold set_lists. cbn. rewrite insert_insert_eq.
    rewrite !Z.add_assoc. reflexivity. }
  split; [apply Hcomp|].
  intros [p Hp]. rewrite Hcomp. cbn [fst snd].
  unfold cursor_pos in Hp. unfold apply_shift.
  destruct (_cursor w) as [l|] eqn:El; [|discriminate]. simpl in Hp. rewrite Hp.
  destruct p as [r c]. f_equal. cbn [fst snd].
  replace (r + (s1.1 + - s1.1)) with r by lia.
  replace (c + (s1.2 + - s1.2)) with c by lia.
  apply set_lists_id, Hp.
Qed.

Lemma apply_shift_compose_witness :
  (apply_shift (2, 0);; apply_shift (-2, -0)) sheet_A = Ok tt sheet_A.
Proof.
  apply (apply_shift_compose (2, 0) (5, 1) sheet_A).
  rewrite (proj1 (proj2 sheet_A_ready)). eauto.
Defined.

(** X1.  [_text] writes the value, with the format, in the cell under the
    cursor and moves the cursor by the shift; every other cell, the
    column widths, the text boxes and the pictures of the sheet stay as
    they were. *)
Theorem text_places_value (value : pyobj) (format : option style) (shift : Z * Z)
    (w : State) (r c : Z) :
  ready w (r, c) ->
  exists ws w' ws',
    active_ws w = Some ws /\
    _text value format shift w = Ok tt w' /\ active_ws w' = Some ws' /\
    cells ws' !! (r, c) = Some (value, add_format format) /\
    (forall pos, pos <> (r, c) -> cells ws' !! pos = cells ws !! pos) /\
    col_info ws' = col_info ws /\ textboxes ws' = textboxes ws /\
    pictures ws' = pictures ws /\
    cursor_pos w' = Some (r + shift.1, c + shift.2).
Proof.
  intros Hready.
  destruct (ready_inv _ _ Hready) as (n & ws & l & dcf & Hn & Hws & Hl & Hp & Hd).
  exists ws. eexists _, _.
  split; [unfold active_ws; rewrite Hn; exact Hws|].
  split; [apply (text_run _ _ _ w n ws l r c Hn Hws Hl Hp)|].
  split; [unfold active_ws; simpl; rewrite Hn; simpl; apply lookup_insert_eq|].
  simpl. split; [apply lookup_insert_eq|].
  split; [intros pos Hpos; apply lookup_insert_ne; congruence|].
  repeat (split; [reflexivity|]).
  unfold cursor_pos. simpl. rewrite Hl. simpl. apply lookup_insert_eq.
Qed.

(** The text "Hello" with the shift [(2, 0)] at the origin of a new
    sheet: the cell [(0, 0)] holds it and the cursor is at [(2, 0)]. *)
Lemma text_places_value_witness :
  exists w' ws',
    _text (PyStr "Hello") None (2, 0) sheet_A = Ok tt w' /\ active_ws w' = Some ws' /\
    cells ws' !! (0, 0) = Some (PyStr "Hello", ∅) /\
    cursor_pos w' = Some (2, 0).
Proof.
  destruct (text_places_value (PyStr "Hello") None (2, 0) sheet_A 0 0 sheet_A_ready)
    as (ws & w' & ws' & _ & E & Hws' & Hcell & _ & _ & _ & _ & Hpos).
  exists w', ws'. auto.
Defined.

(** X5.  [set_active_sheet] keeps the list it is given (or the list of
    the default argument): a placement updates that very list, so a
    second call with the same argument, or again without one, does not
    reset the cursor but resumes where the placement left it. *)
Theorem cursor_list_is_shared (name : string) (cursor : option loc) (shift : Z * Z)
    (w : State) (r c : Z) :
  is_Some (sheetnames w !! name) ->
  lists w !! default default_cursor cursor = Some (r, c) ->
  exists w',
    (set_active_sheet name cursor;; apply_shift shift) w = Ok tt w' /\
    lists w' !! default default_cursor cursor = Some (r + shift.1, c + shift.2) /\
    cursor_after (set_active_sheet name cursor) w' = Some (r + shift.1, c + shift.2).
Proof.
  intros [ws Hws] Hp. unfold mbind, M_bind, set_active_sheet, cursor_after.
  rewrite Hws. unfold apply_shift. cbn [_cursor set_cursor set_sheet lists].
  rewrite Hp. eexists. split; [reflexivity|].
  cbn [lists set_lists sheetnames set_cursor set_sheet]. rewrite Hws.
  split; [apply lookup_insert_eq|].
  unfold cursor_pos. cbn. apply lookup_insert_eq.
Qed.

(** On a new sheet, a shift by [(3, 1)] and then [set_active_sheet("A")]
    without a cursor: the cursor is at [(3, 1)]. *)
Lemma cursor_list_is_shared_witness :
  exists w',
    (set_active_sheet "A" None;; apply_shift (3, 1)) sheet_A = Ok tt w' /\
    cursor_after (set_active_sheet "A" None) w' = Some (3, 1).
Proof.
  destruct (cursor_list_is_shared "A" None (3, 1) sheet_A 0 0) as (w' & E & _ & H).
  - unfold sheet_A. rewrite new_sheet_A_state. cbn [sheetnames].
    rewrite lookup_singleton_eq. eauto.
  - unfold sheet_A. rewrite new_sheet_A_state. reflexivity.
  - exists w'. split; [exact E | exact H].
Defined.

(** ** Errors *)

(** X3.  Before a sheet exists nothing can be placed: on a reporter as
    [__init__] leaves it, [set_active_sheet] raises [KeyError] for every
    name, and [apply_shift], [_text], [_textbox] (on a non-zero sheet
    width) and [_table] (with at least one column) raise [TypeError],
    the cursor being [None]. *)
Theorem nothing_placed_before_a_sheet (S : Z) (MAX MIN : pyfloat) :
  let w := __init__ S MAX MIN in
  (forall name cursor, set_active_sheet name cursor w = Raise KeyError) /\
  (forall shift, apply_shift shift w = Raise TypeError) /\
  (forall value format shift, _text value format shift w = Raise TypeError) /\
  (forall text title hf tf shift,
     S <> 0 -> _textbox text title hf tf shift w = Raise TypeError) /\
  (forall df tcf tif shift,
     columns df <> [] -> _table df tcf tif shift w = Raise TypeError).
Proof.
  intros w. split; [|split; [|split; [|split]]].
  - intros name cursor. unfold set_active_sheet. simpl. rewrite lookup_empty. reflexivity.
  - reflexivity.
  - reflexivity.
  - intros text title hf tf shift HS. unfold _textbox.
    rewrite (bind_Ok _ _ _ _ _ (printed_text_height_run text w HS)). reflexivity.
  - intros df tcf tif shift Hcols. unfold _table.
    destruct (columns df) as [|name names]; [congruence|]. reflexivity.
Qed.

Lemma nothing_placed_before_a_sheet_witness :
  let w := __init__ default_pixel_sheet_width default_max_cell_width default_min_cell_width in
  _textbox "text" None ∅ ∅ None w = Raise TypeError /\
  _table example_df ∅ ∅ None w = Raise TypeError.
Proof.
  intros w.
  destruct (nothing_placed_before_a_sheet default_pixel_sheet_width default_max_cell_width
              default_min_cell_width) as (_ & _ & _ & Htb & Htab).
  split; [apply Htb; discriminate | apply Htab; discriminate].
Defined.

(** X6.  The constructor accepts a sheet width of 0, and then no text can
    be measured: [__printed_text_height] raises [ZeroDivisionError] for
    every text, the empty one included, and so does [_textbox], in every
    state and before it writes anything. *)
Theorem zero_sheet_width_raises (text : string) (title : option pyobj)
    (hf tf : style) (shift : option (Z * Z)) (w : State) :
  PIXEL_SHEET_WIDTH w = 0 ->
  __printed_text_height text w = Raise ZeroDivisionError /\
  _textbox text title hf tf shift w = Raise ZeroDivisionError.
Proof.
  intros HS.
  assert (H : __printed_text_height text w = Raise ZeroDivisionError).
  { unfold __printed_text_height. erewrite bind_Ok by reflexivity. rewrite HS.
    pose proof (split_not_nil newline text) as Hne.
    destruct (split newline text) as [|line lines]; [congruence|]. reflexivity. }
  split; [exact H|]. unfold _textbox. apply bind_Raise, H.
Qed.

Lemma zero_sheet_width_raises_witness :
  _textbox "" None ∅ ∅ None (new_sheet_A 0 default_max_cell_width default_min_cell_width)
  = Raise ZeroDivisionError.
Proof.
  apply (zero_sheet_width_raises "" None ∅ ∅ None).
  rewrite new_sheet_A_state. reflexivity.
Defined.



(** ** More on the printed height *)

Lemma split_app (sep : ascii) (a b : string) :
  split sep (a +:+ String sep b) = split sep a ++ split sep b.
Proof.
  induction a as [|ch a IH]; simpl.
  - rewrite Ascii.eqb_refl. reflexivity.
  - destruct (Ascii.eqb ch sep); [rewrite IH; reflexivity|].
    rewrite IH. pose proof (split_not_nil sep a) as Hne.
    destruct (split sep a) as [|line lines]; [congruence|]. reflexivity.
Qed.

Lemma sum_Z_app (xs ys : list Z) : sum_Z (xs ++ ys) = sum_Z xs + sum_Z ys.
Proof. induction xs as [|x xs IH]; simpl; [reflexivity|]. rewrite IH. lia. Qed.

(** X7.  Heights add up: on a sheet of non-zero width the height of two
    texts joined by a newline is the sum of their heights. *)
Theorem printed_text_height_additive (a b : string) (w : State) :
  PIXEL_SHEET_WIDTH w <> 0 ->
  exists ha hb,
    __printed_text_height a w = Ok ha w /\
    __printed_text_height b w = Ok hb w /\
    __printed_text_height (a +:+ String newline b) w = Ok (ha + hb) w.
Proof.
  intros HS. eexists _, _.
  split; [apply printed_text_height_run, HS|].
  split; [apply printed_text_height_run, HS|].
  rewrite printed_text_height_run by exact HS.
  rewrite split_app, map_app, sum_Z_app. reflexivity.
Qed.

Lemma printed_text_height_additive_witness :
  let w := __init__ 90 default_max_cell_width default_min_cell_width in
  __printed_text_height ("a long first line" +:+ String newline "second") w = Ok 3 w.
Proof.
  intros w.
  destruct (printed_text_height_additive "a long first line" "second" w)
    as (ha & hb & Ha & Hb & H); [discriminate|].
  rewrite H. vm_compute in Ha, Hb.
  assert (ha = 2) as -> by congruence. assert (hb = 1) as -> by congruence. reflexivity.
Defined.

Lemma len_nonneg (s : string) : 0 <= len s.
Proof. unfold len. lia. Qed.

Lemma len_append (a b : string) : len (a +:+ b) = len a + len b.
Proof.
  unfold len. induction a as [|c a IH].
  - change ("" +:+ b)%string with b. simpl. lia.
  - change (String c a +:+ b)%string with (String c (a +:+ b)).
    cbn [String.length]. lia.
Qed.

(** The characters of the lines, and one newline between two lines, are
    the characters of the text. *)
Lemma len_join (sep : ascii) (lines : list string) :
  lines <> [] ->
  len (join sep lines) = sum_Z (map len lines) + (Z.of_nat (length lines) - 1).
Proof.
  induction lines as [|l ls IH]; [congruence|]. intros _.
  destruct ls as [|l' ls].
  - simpl. lia.
  - change (join sep (l :: l' :: ls)) with (l +:+ String sep (join sep (l' :: ls)))%string.
    rewrite len_append.
    assert (Hs : forall s, len (String sep s) = 1 + len s).
    { intros s. unfold len. cbn [String.length]. lia. }
    rewrite Hs, IH by discriminate. simpl map. simpl length. unfold sum_Z. simpl foldr.
    rewrite !Nat2Z.inj_succ. lia.
Qed.

Lemma div_sum_le (S : Z) (xs : list Z) :
  0 < S -> Forall (λ x, 0 <= x) xs ->
  sum_Z (map (λ x, x / S) xs) <= sum_Z xs / S.
Proof.
  intros HS. induction 1 as [|x xs Hx Hxs IH]; simpl.
  - rewrite Z.div_0_l by lia. lia.
  - apply Z.div_le_lower_bound; [exact HS|].
    pose proof (Z.mul_div_le x S HS).
    assert (S * (sum_Z xs / S) <= sum_Z xs) by (apply Z.mul_div_le; exact HS).
    nia.
Qed.

(** X8.  On a sheet of positive width a text takes at least one row per
    line and at most one row per line plus [len(text) * 9 // S] rows of
    wrapping; when every line is shorter than the sheet
    ([len(line) * 9 < S]) it takes exactly one row per line. *)
Theorem printed_text_height_bounds (T : string) (w : State) :
  0 < PIXEL_SHEET_WIDTH w ->
  let lines := split newline T in
  let n := Z.of_nat (length lines) in
  exists h,
    __printed_text_height T w = Ok h w /\
    n <= h <= n + len T * PIXEL_CHAR_WIDTH / PIXEL_SHEET_WIDTH w /\
    (Forall (λ line, len line * PIXEL_CHAR_WIDTH < PIXEL_SHEET_WIDTH w) lines -> h = n).
Proof.
  intros HS lines n.
  exists (sum_Z (map (line_rows (PIXEL_SHEET_WIDTH w)) lines)).
  split; [apply printed_text_height_run; lia|].
  set (S := PIXEL_SHEET_WIDTH w) in *.
  assert (Hsplit : sum_Z (map (line_rows S) lines)
                   = sum_Z (map (λ x, x / S) (map (λ l, len l * PIXEL_CHAR_WIDTH) lines)) + n).
  { subst n. clear. induction lines as [|l ls IH]; [reflexivity|].
    cbn [map sum_Z foldr length]. unfold sum_Z in IH. rewrite IH.
    unfold line_rows. lia. }
  rewrite Hsplit. split; [split|].
  - assert (0 <= sum_Z (map (λ x, x / S) (map (λ l, len l * PIXEL_CHAR_WIDTH) lines))); [|lia].
    clear -HS. unfold sum_Z. induction lines as [|l ls IH]; cbn [map foldr]; [lia|].
    assert (0 <= len l * PIXEL_CHAR_WIDTH / S).
    { apply Z.div_pos; [|lia]. pose proof (len_nonneg l). unfold PIXEL_CHAR_WIDTH. lia. }
    lia.
  - assert (Hle : sum_Z (map (λ x, x / S) (map (λ l, len l * PIXEL_CHAR_WIDTH) lines))
                  <= len T * PIXEL_CHAR_WIDTH / S); [|lia].
    etransitivity; [apply div_sum_le; [exact HS|]|].
    + clear. induction lines as [|l ls IH]; cbn [map]; constructor; [|exact IH].
      pose proof (len_nonneg l). unfold PIXEL_CHAR_WIDTH. lia.
    + apply Z.div_le_mono; [exact HS|].
      assert (Hsum : sum_Z (map (λ l, len l * PIXEL_CHAR_WIDTH) lines)
                     = sum_Z (map len lines) * PIXEL_CHAR_WIDTH).
      { clear. unfold sum_Z. induction lines as [|l ls IH]; cbn [map foldr]; [reflexivity|].
        rewrite IH. lia. }
      rewrite Hsum.
      pose proof (len_join newline lines (split_not_nil newline T)) as Hj.
      subst lines. rewrite join_split in Hj.
      assert (1 <= Z.of_nat (length (split newline T))).
      { pose proof (split_not_nil newline T). destruct (split newline T); simpl; [congruence|lia]. }
      unfold PIXEL_CHAR_WIDTH. lia.
  - intros Hshort.
    assert (sum_Z (map (λ x, x / S) (map (λ l, len l * PIXEL_CHAR_WIDTH) lines)) = 0); [|lia].
    clear -Hshort. unfold sum_Z.
    induction Hshort as [|l ls Hl _ IH]; [reflexivity|]. cbn [map foldr].
    rewrite Z.div_small; [lia|].
    pose proof (len_nonneg l). unfold PIXEL_CHAR_WIDTH in *. lia.
Qed.

(** Three short lines on the default sheet take three rows. *)
Lemma printed_text_height_bounds_witness :
  let w := __init__ default_pixel_sheet_width default_max_cell_width default_min_cell_width in
  let T := ("one" +:+ String newline ("two" +:+ String newline "three"))%string in
  __printed_text_height T w = Ok 3 w.
Proof.
  intros w T.
  destruct (printed_text_height_bounds T w) as (h & E & _ & Hshort); [reflexivity|].
  rewrite E. f_equal. apply Hshort. repeat constructor.
Defined.

(** ** Sheets *)




(** *** What a placement leaves alone *)

Lemma same_elsewhere_refl (w : State) : same_elsewhere w w.
Proof. repeat split. Qed.

Lemma same_elsewhere_trans (w1 w2 w3 : State) :
  same_elsewhere w1 w2 -> same_elsewhere w2 w3 -> same_elsewhere w1 w3.
Proof.
  intros (H1 & H2 & H3 & H4 & H5 & H6) (K1 & K2 & K3 & K4 & K5 & K6).
  repeat split; try congruence.
  intros n Hn. rewrite K6 by congruence. apply H6, Hn.
Qed.

Lemma preserves_ret {A : Type} (a : A) : preserves same_elsewhere (mret a).
Proof. intros w b w' H. injection H; intros; subst. apply same_elsewhere_refl. Qed.

Lemma preserves_bind {A B : Type} (m : M A) (f : A -> M B) :
  preserves same_elsewhere m -> (forall a, preserves same_elsewhere (f a)) ->
  preserves same_elsewhere (m ≫= f).
Proof.
  intros Hm Hf w b w' H. unfold mbind, M_bind in H.
  destruct (m w) as [a w1|e] eqn:E; [|discriminate].
  eapply same_elsewhere_trans; [apply (Hm _ _ _ E) | apply (Hf _ _ _ _ H)].
Qed.

Lemma preserves_lift {A : Type} (r : exn + A) : preserves same_elsewhere (lift r).
Proof.
  intros w a w' H. unfold lift in H. destruct r; [discriminate|].
  injection H; intros; subst. apply same_elsewhere_refl.
Qed.

Lemma preserves_gets {A : Type} (field : State -> A) : preserves same_elsewhere (gets field).
Proof. intros w a w' H. injection H; intros; subst. apply same_elsewhere_refl. Qed.

Lemma preserves_attr {A : Type} (field : State -> option A) (e : exn) :
  preserves same_elsewhere (attr field e).
Proof.
  intros w a w' H. unfold attr in H. destruct (field w); [|discriminate].
  injection H; intros; subst. apply same_elsewhere_refl.
Qed.

Lemma preserves_the_cursor : preserves same_elsewhere the_cursor.
Proof.
  intros w a w' H. unfold the_cursor in H. destruct (cursor_pos w); [|discriminate].
  injection H; intros; subst. apply same_elsewhere_refl.
Qed.

Lemma preserves_the_sheet : preserves same_elsewhere the_sheet.
Proof.
  intros w a w' H. unfold the_sheet in H. destruct (_sheet w) as [n|]; [|discriminate].
  destruct (sheetnames w !! n); [|discriminate].
  injection H; intros; subst. apply same_elsewhere_refl.
Qed.

Lemma preserves_on_sheet (f : Worksheet -> Worksheet) : preserves same_elsewhere (on_sheet f).
Proof.
  intros w a w' H. unfold on_sheet in H. destruct (_sheet w) as [n|] eqn:En; [|discriminate].
  destruct (sheetnames w !! n); [|discriminate]. injection H; intros; subst.
  unfold same_elsewhere. cbn. rewrite En.
  split; [reflexivity|]. split; [reflexivity|]. split; [reflexivity|].
  split; [reflexivity|]. split; [reflexivity|].
  intros n' Hn'. apply lookup_insert_ne. congruence.
Qed.

Lemma preserves_apply_shift (shift : Z * Z) : preserves same_elsewhere (apply_shift shift).
Proof.
  intros w a w' H. unfold apply_shift in H. destruct (_cursor w) as [l|]; [|discriminate].
  destruct (lists w !! l) as [[r c]|]; [|discriminate]. injection H; intros; subst.
  repeat split.
Qed.

Lemma preserves_new_list (p : Z * Z) : preserves same_elsewhere (new_list p).
Proof. intros w a w' H. injection H; intros; subst. repeat split. Qed.

Lemma preserves_set_cursor_anchor (c : option loc) :
  preserves same_elsewhere (modify (set_cursor_anchor c)).
Proof. intros w a w' H. injection H; intros; subst. repeat split. Qed.

Lemma preserves_restore_cursor :
  preserves same_elsewhere (modify (λ w, set_cursor (_cursor_anchor w) w)).
Proof. intros w a w' H. injection H; intros; subst. repeat split. Qed.

Lemma preserves_for_enumerate {A : Type} (l : list A) (start : Z) (body : Z -> A -> M unit) :
  (forall i x, preserves same_elsewhere (body i x)) ->
  preserves same_elsewhere (for_enumerate start l body).
Proof.
  intros Hbody. revert start. induction l as [|x l IH]; intros start; cbn [for_enumerate].
  - apply preserves_ret.
  - apply preserves_bind; [apply Hbody | intros u; apply IH].
Qed.

Lemma preserves_for_range (n : nat) (body : M unit) :
  preserves same_elsewhere body -> preserves same_elsewhere (for_range n body).
Proof.
  intros Hbody. induction n as [|n IH]; cbn [for_range].
  - apply preserves_ret.
  - apply preserves_bind; [exact Hbody | intros u; exact IH].
Qed.

Lemma preserves_for_fold {A B : Type} (body : B -> A -> M B) (acc : B) (l : list A) :
  (forall b x, preserves same_elsewhere (body b x)) ->
  preserves same_elsewhere (for_fold body acc l).
Proof.
  intros Hbody. revert acc. induction l as [|x l IH]; intros acc; cbn [for_fold].
  - apply preserves_ret.
  - apply preserves_bind; [apply Hbody | intros b; apply IH].
Qed.

Ltac frame_with tac :=
  repeat first
    [ tac
    | apply preserves_ret | apply preserves_lift | apply preserves_gets
    | apply preserves_attr | apply preserves_the_cursor | apply preserves_the_sheet
    | apply preserves_on_sheet | apply preserves_apply_shift | apply preserves_new_list
    | apply preserves_set_cursor_anchor | apply preserves_restore_cursor
    | apply preserves_for_range | (apply preserves_for_enumerate; intros ? ?)
    | (apply preserves_for_fold; intros ? ?)
    | (apply preserves_bind; [|intros ?])
    | progress cbv zeta
    | match goal with
      | |- preserves _ (match ?x with _ => _ end) => destruct x
      end ].

Lemma preserves_text (value : pyobj) (format : option style) (shift : Z * Z) :
  preserves same_elsewhere (_text value format shift).
Proof. unfold _text. frame_with fail. Qed.

Lemma preserves_ensure_width (col : Z) (text : pyobj) :
  preserves same_elsewhere (ensure_width col text).
Proof. unfold ensure_width, __get_col_width, __adjust_col_width. frame_with fail. Qed.

Ltac frame := frame_with ltac:(first [apply preserves_text | apply preserves_ensure_width]).

(** X20.  A placement, when it returns, has worked on the active sheet
    only: after [_text], [_textbox], [_image] or [_table] every other
    worksheet of the workbook is what it was, the same sheet is active,
    and the sheet width, the width bounds and the default cell format
    are unchanged. *)
Theorem placements_keep_other_sheets :
  (forall value format shift, preserves same_elsewhere (_text value format shift)) /\
  (forall text title hf tf shift, preserves same_elsewhere (_textbox text title hf tf shift)) /\
  (forall image name bound options shift,
     preserves same_elsewhere (_image image name bound options shift)) /\
  (forall df tcf tif shift, preserves same_elsewhere (_table df tcf tif shift)).
Proof.
  split; [exact preserves_text|]. split; [|split].
  - intros. unfold _textbox, __printed_text_height. frame.
  - intros. unfold _image. frame.
  - intros. unfold _table. frame.
Qed.

(** A text placed on the sheet "B" of a workbook that also has the sheet
    "A": "A" is still a new sheet. *)
Lemma placements_keep_other_sheets_witness :
  exists w', _text (PyStr "on B") None (2, 0) two_sheets = Ok tt w' /\
             _sheet w' = Some "B" /\ sheetnames w' !! "A" = Some new_ws.
Proof.
  assert (E : exists w', _text (PyStr "on B") None (2, 0) two_sheets = Ok tt w').
  { eexists. apply (text_run _ _ _ two_sheets "B" new_ws default_cursor 0 0); reflexivity. }
  destruct E as [w' E]. exists w'. split; [exact E|].
  destruct (proj1 placements_keep_other_sheets (PyStr "on B") None (2, 0) _ _ _ E)
    as (_ & _ & _ & Hs & _ & Hother).
  split; [exact Hs|]. rewrite Hother by discriminate. reflexivity.
Defined.

(** ** The layout of a table *)

Lemma widen_textboxes (MIN MAX : pyfloat) (fmt : Format) (col : Z) (text : pyobj)
    (ws : Worksheet) :
  textboxes (widen MIN MAX fmt col text ws) = textboxes ws /\
  pictures (widen MIN MAX fmt col text ws) = pictures ws.
Proof. unfold widen. destruct (ltb _ _); split; reflexivity. Qed.

Section TableLayout.

Variables (w0 : State) (n : string) (l : loc) (r c : Z).
Hypothesis Hsheet : _sheet w0 = Some n.
Hypothesis Hcursor : _cursor w0 = Some l.
Hypothesis Hpos : lists w0 !! l = Some (r, c).
Variables (df : DataFrame) (col_format ind_format dcf : Format).
Hypothesis Hwf : well_formed df.
Hypothesis Hdcf : default_cell_format w0 = Some dcf.

Local Abbreviation on_ws := (on_ws w0 n).
Local Abbreviation MIN := (MIN_CELL_WIDTH w0).
Local Abbreviation MAX := (MAX_CELL_WIDTH w0).

Lemma header_layout_run (ws0 : Worksheet) :
  hoare (on_ws (λ ws, ws = ws0))
    (for_enumerate 0 (columns df) (λ j col_name,
       cur ← the_cursor;
       ensure_width (j + cur.2 + 1) col_name;;
       cur ← the_cursor;
       on_sheet (ws_write cur.1 (j + cur.2 + 1) col_name col_format)))
    (λ _, on_ws (header_layout df MIN MAX dcf r c ws0 (length (columns df)))).
Proof.
  eapply hoare_conseq;
    [apply (hoare_for_enumerate (λ k, on_ws (header_layout df MIN MAX dcf r c ws0 k)))| |].
  - intros k name Hk w (ws & -> & Hcells & Htb & Hpic & Hdone & Hrest).
    rewrite Z.add_0_l.
    unfold mbind, M_bind. rewrite (the_cursor_run w0 n l r c Hcursor Hpos). simpl.
    rewrite (ensure_width_run w0 n Hsheet dcf) by exact Hdcf.
    rewrite (the_cursor_run w0 n l r c Hcursor Hpos). simpl.
    rewrite (on_sheet_run w0 n Hsheet). eexists tt, _. split; [reflexivity|].
    eexists. split; [reflexivity|].
    set (col := Z.of_nat k + c + 1).
    assert (Hcol0 : col_info ws !! col = col_info ws0 !! col) by (apply Hrest; subst col; lia).
    assert (Hw : width_of ws col = width_of ws0 col) by (unfold width_of; rewrite Hcol0; reflexivity).
    destruct (widen_textboxes MIN MAX dcf col name ws) as [Htb' Hpic'].
    split; [|split; [|split; [|split]]]; cbn [cells col_info textboxes pictures ws_write].
    + intros pos Hout. rewrite lookup_insert_ne.
      * rewrite widen_cells. apply Hcells. lia.
      * intros E. apply Hout. rewrite <- E. cbn [fst snd]. subst col. lia.
    + congruence.
    + congruence.
    + intros j name' Hj Hname'. rewrite widen_col_info.
      destruct (decide (j = k)) as [->|Hne].
      * replace name' with name by congruence. fold col.
        rewrite widen_col_info, Hw.
        destruct (ltb (width_of ws0 col) (__printed_value_width name)).
        -- rewrite !lookup_insert_eq. reflexivity.
        -- exact Hcol0.
      * destruct (ltb (width_of ws col) (__printed_value_width name)).
        -- rewrite lookup_insert_ne by (subst col; lia). apply Hdone; [lia | exact Hname'].
        -- apply Hdone; [lia | exact Hname'].
    + intros col' Hout. rewrite widen_col_info.
      destruct (ltb (width_of ws col) (__printed_value_width name)).
      * rewrite lookup_insert_ne by (subst col; lia). apply Hrest. lia.
      * apply Hrest. lia.
  - intros w (ws & -> & ->). exists ws0. split; [reflexivity|].
    split; [|split; [|split; [|split]]]; try reflexivity.
    intros j name Hj. lia.
  - intros u w H. exact H.
Qed.

Lemma row_layout_run (ws1 : Worksheet) (i : nat) (row : pyobj * list pyobj) :
  iterrows df !! i = Some row ->
  hoare (on_ws (rows_layout df r c ws1 (S i)))
    (for_enumerate 0 row.2 (λ j val,
       cur_format ← lift (__get_table_item_format (0 + Z.of_nat i) j df);
       cur ← the_cursor;
       on_sheet (ws_write (cur.1 + (0 + Z.of_nat i) + 1) (cur.2 + j + 1)
                   (__cast_to_str_except_numbers val) cur_format)))
    (λ _, on_ws (rows_layout df r c ws1 (S i))).
Proof.
  intros Hrow.
  assert (Hlen : length row.2 = length (columns df)).
  { exact (proj1 (Forall_lookup _ _) Hwf i row Hrow). }
  eapply hoare_conseq;
    [apply (hoare_for_enumerate (λ _, on_ws (rows_layout df r c ws1 (S i))))| |].
  - intros k val Hk w (ws & -> & Hcells & Htb & Hpic & Hci).
    pose proof (lookup_lt_Some _ _ _ Hk) as Hlt.
    destruct (item_format_defined df (Z.of_nat i) k) as [fmt Hfmt]; [lia|].
    rewrite !Z.add_0_l.
    unfold mbind, M_bind, lift. rewrite Hfmt.
    rewrite (the_cursor_run w0 n l r c Hcursor Hpos). simpl.
    rewrite (on_sheet_run w0 n Hsheet). eexists tt, _. split; [reflexivity|].
    eexists. split; [reflexivity|].
    split; [|split; [|split]]; cbn [cells col_info textboxes pictures ws_write];
      try assumption.
    intros pos Hout. rewrite lookup_insert_ne; [apply Hcells, Hout|].
    intros E. apply Hout. rewrite <- E. cbn [fst snd]. unfold columns_len. lia.
  - intros w H. exact H.
  - intros u w H. exact H.
Qed.

Lemma rows_layout_run (ws1 : Worksheet) :
  hoare (on_ws (λ ws, ws = ws1))
    (for_enumerate 0 (iterrows df) (λ i row,
       cur ← the_cursor;
       on_sheet (ws_write (cur.1 + i + 1) cur.2 row.1 ind_format);;
       for_enumerate 0 row.2 (λ j val,
         cur_format ← lift (__get_table_item_format i j df);
         cur ← the_cursor;
         on_sheet (ws_write (cur.1 + i + 1) (cur.2 + j + 1)
                     (__cast_to_str_except_numbers val) cur_format))))
    (λ _, on_ws (rows_layout df r c ws1 (length (iterrows df)))).
Proof.
  eapply hoare_conseq;
    [apply (hoare_for_enumerate (λ k, on_ws (rows_layout df r c ws1 k)))| |].
  - intros k row Hk. eapply hoare_bind; [apply (hoare_the_cursor w0 n l r c Hcursor Hpos)|].
    intros cur. eapply hoare_bind with (Q := λ _, on_ws (rows_layout df r c ws1 (S k))).
    + intros w (-> & ws & -> & Hcells & Htb & Hpic & Hci). simpl.
      rewrite (on_sheet_run w0 n Hsheet). eexists tt, _. split; [reflexivity|].
      eexists. split; [reflexivity|].
      split; [|split; [|split]]; cbn [cells col_info textboxes pictures ws_write];
        try assumption.
      intros pos Hout. rewrite lookup_insert_ne.
      * apply Hcells. lia.
      * intros E. apply Hout. rewrite <- E. cbn [fst snd]. unfold columns_len. lia.
    + intros u. apply (row_layout_run ws1 k row Hk).
  - intros w (ws & -> & ->). exists ws1. split; [reflexivity|].
    split; [|split; [|split]]; reflexivity.
  - intros u w H. exact H.
Qed.

Lemma table_layout_run (shift : option (Z * Z)) (ws0 : Worksheet) :
  let s := default (df_len df + 2, 0) shift in
  exists ws1 ws2,
    _table df col_format ind_format shift (put_ws n ws0 w0)
    = Ok tt (set_lists (<[l := (r + s.1, c + s.2)]> (lists w0)) (put_ws n ws2 w0)) /\
    header_layout df MIN MAX dcf r c ws0 (length (columns df)) ws1 /\
    rows_layout df r c ws1 (length (iterrows df)) ws2.
Proof.
  intros s. unfold _table.
  change (add_format (Some col_format)) with col_format.
  change (add_format (Some ind_format)) with ind_format.
  destruct (header_layout_run ws0 (put_ws n ws0 w0)) as ([] & w1 & E1 & (ws1 & -> & H1)).
  { exists ws0. split; reflexivity. }
  rewrite (bind_Ok _ _ _ _ _ E1).
  destruct (rows_layout_run ws1 (put_ws n ws1 w0)) as ([] & w2 & E2 & (ws2 & -> & H2)).
  { exists ws1. split; reflexivity. }
  rewrite (bind_Ok _ _ _ _ _ E2).
  exists ws1, ws2. split; [|split; assumption].
  apply (apply_shift_run w0 n l r c Hcursor Hpos).
Qed.

End TableLayout.

Lemma table_layout_at (df : DataFrame) (tcf tif : style) (shift : option (Z * Z))
    (w : State) (r c : Z) :
  well_formed df -> ready w (r, c) ->
  exists ws dcf ws1 ws2 w',
    active_ws w = Some ws /\ default_cell_format w = Some dcf /\
    _table df tcf tif shift w = Ok tt w' /\ active_ws w' = Some ws2 /\
    header_layout df (MIN_CELL_WIDTH w) (MAX_CELL_WIDTH w) dcf r c ws
      (length (columns df)) ws1 /\
    rows_layout df r c ws1 (length (iterrows df)) ws2.
Proof.
  intros Hwf Hready.
  destruct (ready_inv _ _ Hready) as (n & ws & l & dcf & Hn & Hws & Hl & Hp & Hd).
  destruct (table_layout_run w n l r c Hn Hl Hp df tcf tif dcf Hwf Hd shift ws)
    as (ws1 & ws2 & E & H1 & H2).
  rewrite (put_ws_id _ _ _ Hws) in E.
  exists ws, dcf, ws1, ws2. eexists.
  split; [unfold active_ws; rewrite Hn; exact Hws|]. split; [exact Hd|].
  split; [exact E|]. split; [|split; assumption].
  unfold active_ws. simpl. rewrite Hn. simpl. apply lookup_insert_eq.
Qed.

(** X10.  [_table] stays in its rectangle: apart from the header row right
    of the cursor and the index column and data below it, every cell of
    the sheet is what it was (the cell under the cursor itself is not
    written); the text boxes and pictures are untouched, and so is the
    registered width of every column outside the table's data columns. *)
Theorem table_stays_in_its_rectangle (df : DataFrame) (tcf tif : style)
    (shift : option (Z * Z)) (w : State) (r c : Z) :
  well_formed df -> ready w (r, c) ->
  exists ws w' ws',
    active_ws w = Some ws /\
    _table df tcf tif shift w = Ok tt w' /\ active_ws w' = Some ws' /\
    (forall pos, ~ in_table r c (df_len df) (columns_len df) pos ->
       cells ws' !! pos = cells ws !! pos) /\
    cells ws' !! (r, c) = cells ws !! (r, c) /\
    textboxes ws' = textboxes ws /\ pictures ws' = pictures ws /\
    (forall col, ~ (c + 1 <= col <= c + columns_len df) ->
       col_info ws' !! col = col_info ws !! col).
Proof.
  intros Hwf Hready.
  destruct (table_layout_at df tcf tif shift w r c Hwf Hready)
    as (ws & dcf & ws1 & ws2 & w' & Hws & _ & E & Hws' & H1 & H2).
  destruct H1 as (Hc1 & Ht1 & Hp1 & _ & Hi1). destruct H2 as (Hc2 & Ht2 & Hp2 & Hi2).
  exists ws, w', ws2. split; [exact Hws|]. split; [exact E|]. split; [exact Hws'|].
  assert (Hcells : forall pos, ~ in_table r c (df_len df) (columns_len df) pos ->
            cells ws2 !! pos = cells ws !! pos).
  { intros pos Hout. unfold in_table, df_len, columns_len in Hout.
    rewrite Hc2 by (unfold columns_len; lia). apply Hc1. lia. }
  split; [exact Hcells|].
  split; [apply Hcells; unfold in_table; cbn [fst snd]; lia|].
  split; [congruence|]. split; [congruence|].
  intros col Hout. rewrite Hi2. apply Hi1. unfold columns_len in Hout. lia.
Qed.

(** The table [example_df] on a new sheet: the cell under the cursor and
    the cell right of the last header stay empty. *)
Lemma table_stays_in_its_rectangle_witness :
  exists w' ws',
    _table example_df ∅ ∅ None sheet_A = Ok tt w' /\ active_ws w' = Some ws' /\
    cells ws' !! (0, 0) = None /\ cells ws' !! (0, 3) = None /\
    cells ws' !! (4, 1) = None.
Proof.
  destruct (table_stays_in_its_rectangle example_df ∅ ∅ None sheet_A 0 0
              example_df_well_formed sheet_A_ready)
    as (ws & w' & ws' & Hws & E & Hws' & Hout & _).
  assert (ws = new_ws) as ->.
  { pose proof (new_sheet_A_active default_pixel_sheet_width default_max_cell_width
                  default_min_cell_width) as H. fold sheet_A in H. congruence. }
  exists w', ws'. split; [exact E|]. split; [exact Hws'|].
  split; [|split]; (rewrite Hout; [reflexivity|]);
    unfold in_table, df_len, columns_len; cbn; lia.
Defined.

(** X12.  [_table] sizes each column of the table once, by its header:
    the column keeps its width when that is not below the printed width
    of the header, and gets the clipped printed width otherwise.  So,
    whatever the bounds, every column of the table ends up at least as
    wide as its header is printed, or exactly [MAX_CELL_WIDTH] wide. *)
Theorem table_columns_fit_headers (df : DataFrame) (tcf tif : style)
    (shift : option (Z * Z)) (w : State) (r c : Z) :
  well_formed df -> ready w (r, c) ->
  exists ws w' ws',
    active_ws w = Some ws /\
    _table df tcf tif shift w = Ok tt w' /\ active_ws w' = Some ws' /\
    forall (j : nat) name, columns df !! j = Some name ->
      let col := Z.of_nat j + c + 1 in
      let need := __printed_value_width name in
      (ltb (width_of ws col) need = true ->
         width_of ws' col = __clip need (MIN_CELL_WIDTH w) (MAX_CELL_WIDTH w)) /\
      (ltb (width_of ws col) need = false -> width_of ws' col = width_of ws col) /\
      (ltb (width_of ws' col) need = false \/ width_of ws' col = MAX_CELL_WIDTH w).
Proof.
  intros Hwf Hready.
  destruct (table_layout_at df tcf tif shift w r c Hwf Hready)
    as (ws & dcf & ws1 & ws2 & w' & Hws & _ & E & Hws' & H1 & H2).
  destruct H1 as (_ & _ & _ & Hdone & _). destruct H2 as (_ & _ & _ & Hi2).
  exists ws, w', ws2. split; [exact Hws|]. split; [exact E|]. split; [exact Hws'|].
  intros j name Hname col need.
  assert (Hw : width_of ws2 col
               = if ltb (width_of ws col) need
                 then __clip need (MIN_CELL_WIDTH w) (MAX_CELL_WIDTH w)
                 else width_of ws col).
  { unfold width_of at 1. rewrite Hi2. unfold col at 1.
    rewrite (Hdone j name (lookup_lt_Some _ _ _ Hname) Hname). fold col.
    rewrite widen_col_info. fold need.
    destruct (ltb (width_of ws col) need); [rewrite lookup_insert_eq|]; reflexivity. }
  split; [intros H; rewrite Hw, H; reflexivity|].
  split; [intros H; rewrite Hw, H; reflexivity|].
  rewrite Hw. destruct (ltb (width_of ws col) need) eqn:Hlt; [|left; exact Hlt].
  unfold __clip. destruct (ltb need (MIN_CELL_WIDTH w)) eqn:E1.
  - left. apply ltb_irrefl_ge, E1.
  - destruct (ltb (MAX_CELL_WIDTH w) need) eqn:E2; [right; reflexivity|].
    left. destruct (ltb need need) eqn:E3; [|reflexivity].
    pose proof (ltb_irrefl_ge _ _ E3). congruence.
Qed.

(** [example_df] on a new sheet with the default bounds: the column of
    "count" (5 characters) keeps the width 8.43, and the column of
    "share, %" (8 characters, printed width about 9.48) is widened to
    that width. *)
Lemma table_columns_fit_headers_witness :
  exists w' ws',
    _table example_df ∅ ∅ None sheet_A = Ok tt w' /\ active_ws w' = Some ws' /\
    width_of ws' 1 = CELL_WIDTH /\
    width_of ws' 2 = __printed_value_width (PyStr "share, %").
Proof.
  destruct (table_columns_fit_headers example_df ∅ ∅ None sheet_A 0 0
              example_df_well_formed sheet_A_ready)
    as (ws & w' & ws' & Hws & E & Hws' & Hcols).
  assert (ws = new_ws) as ->.
  { pose proof (new_sheet_A_active default_pixel_sheet_width default_max_cell_width
                  default_min_cell_width) as H. fold sheet_A in H. congruence. }
  exists w', ws'. split; [exact E|]. split; [exact Hws'|]. split.
  - pose proof (Hcols O (PyStr "count") eq_refl) as H. cbv zeta in H.
    change (Z.of_nat 0 + 0 + 1) with 1 in H. destruct H as (_ & Hkeep & _).
    rewrite Hkeep; rewrite new_ws_width; [reflexivity|].
    vm_compute. reflexivity.
  - pose proof (Hcols 1%nat (PyStr "share, %") eq_refl) as H. cbv zeta in H.
    change (Z.of_nat 1 + 0 + 1) with 2 in H. destruct H as (Hwiden & _ & _).
    rewrite Hwiden.
    + vm_compute. reflexivity.
    + rewrite new_ws_width. vm_compute. reflexivity.
Defined.

Lemma item_format_num_format (df : DataFrame) (i : Z) (j : nat) (name : pyobj) (fmt : Format) :
  columns df !! j = Some name ->
  __get_table_item_format i (Z.of_nat j) df = inr fmt ->
  fmt !! "num_format" = add_format (__get_number_format name df) !! "num_format".
Proof.
  intros Hname. unfold __get_table_item_format.
  rewrite (py_index_nat _ _ _ Hname). intros H. injection H as <-.
  repeat match goal with |- context [if ?b then _ else _] => destruct b end;
    unfold set_right, set_bottom;
    rewrite ?lookup_insert_ne by discriminate; reflexivity.
Qed.

(** X11.  What [_table] puts in the cells.  The index label of each row
    is written, as it is, left of the row with the index format.  Each
    value is written as it is when it is a number and as its [str()]
    otherwise.  Its number format is [0.00%] under a string name with a
    percent sign; otherwise it follows the dtype of the column: [0] for
    integers, [0.000] for floats, none for the rest.  A name that is not
    a string gives no percent format, whatever its [str()]. *)
Theorem table_cell_contents (df : DataFrame) (tcf tif : style) (shift : option (Z * Z))
    (w : State) (r c : Z) :
  well_formed df -> ready w (r, c) ->
  exists w' ws',
    _table df tcf tif shift w = Ok tt w' /\ active_ws w' = Some ws' /\
    (forall (i : nat) row, iterrows df !! i = Some row ->
       cells ws' !! (r + Z.of_nat i + 1, c) = Some (row.1, tif)) /\
    (forall (i j : nat) row val name,
       iterrows df !! i = Some row -> row.2 !! j = Some val -> columns df !! j = Some name ->
       exists fmt,
         cells ws' !! (r + Z.of_nat i + 1, c + Z.of_nat j + 1)
           = Some (match val with PyNum _ _ => val | _ => PyStr (py_str val) end, fmt) /\
         fmt !! "num_format"
           = if match name with PyStr s => contains percent s | _ => false end
             then Some (PText "0.00%")
             else match dtype_of df name with
                  | IntegerDtype => Some (PText "0")
                  | FloatDtype => Some (PText "0.000")
                  | OtherDtype => None
                  end).
Proof.
  intros Hwf Hready.
  destruct (table_spec df tcf tif shift w r c Hwf Hready)
    as (w' & ws' & E & Hws & _ & _ & Hindex & Hrows).
  exists w', ws'. split; [exact E|]. split; [exact Hws|]. split.
  - intros i row Hrow. apply Hindex; [|exact Hrow]. apply (lookup_lt_Some _ _ _ Hrow).
  - intros i j row val name Hrow Hval Hname.
    destruct (Hrows i row (lookup_lt_Some _ _ _ Hrow) Hrow j val
                (lookup_lt_Some _ _ _ Hval) Hval) as (fmt & Hfmt & Hcell).
    exists fmt. split.
    + rewrite Hcell. destruct val; reflexivity.
    + rewrite (item_format_num_format df _ j name fmt Hname Hfmt).
      unfold __get_number_format.
      destruct (match name with PyStr s => contains percent s | _ => false end);
        [reflexivity|].
      destruct (dtype_of df name); reflexivity.
Qed.

(** [example_df] on a new sheet: the index label "b" is at [(2, 0)], the
    integer 2 of the column "count" at [(2, 1)] with the format [0]. *)
Lemma table_cell_contents_witness :
  exists w' ws',
    _table example_df ∅ ∅ None sheet_A = Ok tt w' /\ active_ws w' = Some ws' /\
    cells ws' !! (2, 0) = Some (PyStr "b", ∅) /\
    exists fmt, cells ws' !! (2, 1) = Some (PyNum (Int 2) "2", fmt) /\
                fmt !! "num_format" = Some (PText "0").
Proof.
  destruct (table_cell_contents example_df ∅ ∅ None sheet_A 0 0
              example_df_well_formed sheet_A_ready)
    as (w' & ws' & E & Hws' & Hindex & Hdata).
  exists w', ws'. split; [exact E|]. split; [exact Hws'|]. split.
  - destruct (iterrows example_df !! 1%nat) as [row|] eqn:Hrow; [|discriminate].
    change (2, 0) with (0 + Z.of_nat 1 + 1, 0).
    rewrite (Hindex 1%nat row Hrow). injection Hrow as <-. reflexivity.
  - destruct (iterrows example_df !! 1%nat) as [row|] eqn:Hrow; [|discriminate].
    destruct (Hdata 1%nat 0%nat row (PyNum (Int 2) "2") (PyStr "count") Hrow)
      as (fmt & Hcell & Hnum); [injection Hrow as <-; reflexivity | reflexivity |].
    change (0 + Z.of_nat 1 + 1, 0 + Z.of_nat 0 + 1) with (2, 1) in Hcell.
    exists fmt. split; [exact Hcell | exact Hnum].
Defined.

(** ** The layout of a text box *)

Lemma title_blank_step (n : string) (l l' : loc) (r c : Z) (title : pyobj) (fmt : style)
    (tb : Textbox) (ws0 : Worksheet) (j : nat) :
  l <> l' ->
  hoare (title_written n l l' r c title fmt tb ws0 j)
        (_text (PyStr "") (Some fmt) (0, 1))
        (λ _, title_written n l l' r c title fmt tb ws0 (S j)).
Proof.
  intros Hne w (Hn & Hl & Ha & Hp & Hp' & ws & Hws & Ht & Hb & Hout & Htb & Hpic & Hci).
  eexists tt, _. split; [apply (text_run _ _ _ w n ws l r (c + 1 + Z.of_nat j)); assumption|].
  unfold title_written. cbn [_sheet _cursor _cursor_anchor lists sheetnames set_lists put_ws
                            set_sheetnames fst snd].
  split; [exact Hn|]. split; [exact Hl|]. split; [exact Ha|].
  split; [rewrite lookup_insert_eq; f_equal; f_equal; lia|].
  split; [rewrite lookup_insert_ne by exact Hne; exact Hp'|].
  eexists. split; [apply lookup_insert_eq|].
  cbn [cells textboxes pictures col_info ws_write].
  split; [rewrite lookup_insert_ne by (intros E; inversion E; lia); exact Ht|].
  split; [|split; [|auto]].
  - intros i Hi. destruct (decide (i = 1 + Z.of_nat j)) as [->|Hi'].
    + replace (c + (1 + Z.of_nat j)) with (c + 1 + Z.of_nat j) by lia.
      rewrite lookup_insert_eq. reflexivity.
    + rewrite lookup_insert_ne by (intros E; inversion E; lia). apply Hb. lia.
  - intros pos Hpos. rewrite lookup_insert_ne.
    + apply Hout. lia.
    + intros E. apply Hpos. rewrite <- E. cbn [fst snd]. lia.
Qed.

(** X13.  [_textbox] with a title, on a sheet of non-zero width: the text
    box is added one row below the cursor; the title is written under
    the cursor and [k = max(3, len(str(title)) * 9 // 64)] empty strings
    in the [k] cells right of it, all with the header format, and no other
    cell changes.  The cursor is then a new list, moved by the shift from
    the old position, while the list that was the cursor is left [k + 1]
    cells to the right of it. *)
Theorem titled_textbox_layout (text : string) (title : pyobj)
    (header_format textbox_format : style) (shift : option (Z * Z))
    (w : State) (r c : Z) :
  ready w (r, c) -> PIXEL_SHEET_WIDTH w <> 0 ->
  let k := Z.max 3 (len (py_str title) * PIXEL_CHAR_WIDTH / PIXEL_CELL_WIDTH) in
  exists ws l height w' ws' l',
    active_ws w = Some ws /\ _cursor w = Some l /\
    __printed_text_height text w = Ok height w /\
    _textbox text (Some title) header_format textbox_format shift w = Ok tt w' /\
    active_ws w' = Some ws' /\
    textboxes ws' = mkTextbox (r + 1) c text
                      (textbox_format ∪
                       {[ "width" := PNum (Int (PIXEL_SHEET_WIDTH w));
                          "height" := PNum (Int (height * PIXEL_ROW_HEIGHT));
                          "object_position" := PNum (Int 1) ]}) :: textboxes ws /\
    cells ws' !! (r, c) = Some (title, header_format) /\
    (forall i, 1 <= i <= k -> cells ws' !! (r, c + i) = Some (PyStr "", header_format)) /\
    (forall pos, ~ (pos.1 = r /\ c <= pos.2 <= c + k) -> cells ws' !! pos = cells ws !! pos) /\
    _cursor w' = Some l' /\ l' <> l /\ lists w !! l' = None /\
    lists w' !! l = Some (r, c + k + 1) /\
    cursor_pos w' = Some (match shift with
                          | Some s => (r + s.1, c + s.2)
                          | None => (r + (height + 2), c)
                          end).
Proof.
  intros Hready HS k.
  destruct (ready_inv _ _ Hready) as (n & ws & l & dcf & Hn & Hws & Hl & Hp & Hd).
  pose proof (printed_text_height_run text w HS) as Hh.
  set (height := sum_Z (map (line_rows (PIXEL_SHEET_WIDTH w)) (split newline text))) in *.
  set (tb := mkTextbox (r + 1) c text
               (textbox_format ∪
                {[ "width" := PNum (Int (PIXEL_SHEET_WIDTH w));
                   "height" := PNum (Int (height * PIXEL_ROW_HEIGHT));
                   "object_position" := PNum (Int 1) ]})).
  set (l' := fresh (dom (lists w))).
  assert (Hfresh : lists w !! l' = None) by (apply not_elem_of_dom, is_fresh).
  assert (Hne : l <> l') by (intros ->; congruence).
  set (w1 := put_ws n (ws_insert_textbox tb ws) w).
  (* the title branch, from [w1] *)
  assert (Hbranch : hoare (λ w2, w2 = w1)
            (p ← the_cursor;
             anchor ← new_list p;
             modify (set_cursor_anchor (Some anchor));;
             _text title (Some header_format) (0, 1);;
             cell_header ← lift (py_floordiv (len (py_str title) * PIXEL_CHAR_WIDTH)
                                   PIXEL_CELL_WIDTH);
             for_range (Z.to_nat (Z.max 3 cell_header))
               (_text (PyStr "") (Some header_format) (0, 1));;
             modify (λ w, set_cursor (_cursor_anchor w) w))
            (λ _ w2, exists w3, title_written n l l' r c title header_format tb ws
                                  (Z.to_nat k) w3 /\ w2 = set_cursor (Some l') w3)).
  { eapply hoare_bind with (Q := λ q w2, q = (r, c) /\ w2 = w1).
    { intros w2 ->. exists (r, c), w1. split; [|auto].
      apply (the_cursor_run w n l r c Hl Hp). }
    intros q. eapply hoare_bind with
      (Q := λ a w2, a = l' /\ w2 = set_lists (<[l' := (r, c)]> (lists w)) w1).
    { intros w2 (-> & ->). eexists l', _. split; [reflexivity|]. auto. }
    intros a. eapply hoare_bind with
      (Q := λ _ w2, w2 = set_cursor_anchor (Some l') (set_lists (<[l' := (r, c)]> (lists w)) w1)).
    { intros w2 (-> & ->). eexists tt, _. split; reflexivity. }
    intros u1. eapply hoare_bind with
      (Q := λ _, title_written n l l' r c title header_format tb ws O).
    { intros w2 ->. eexists tt, _. split.
      - apply (text_run _ _ _ _ n (ws_insert_textbox tb ws) l r c).
        + exact Hn.
        + cbn. apply lookup_insert_eq.
        + exact Hl.
        + cbn. rewrite lookup_insert_ne by (intros E; apply Hne; symmetry; exact E). exact Hp.
      - unfold title_written.
        cbn [_sheet _cursor _cursor_anchor lists sheetnames set_lists put_ws set_sheetnames
             set_cursor_anchor w1 fst snd].
        split; [exact Hn|]. split; [exact Hl|]. split; [reflexivity|].
        split; [rewrite lookup_insert_eq; f_equal; f_equal; lia|].
        split; [rewrite lookup_insert_ne by exact Hne; apply lookup_insert_eq|].
        eexists. split; [apply lookup_insert_eq|].
        cbn [cells textboxes pictures col_info ws_write ws_insert_textbox].
        split; [apply lookup_insert_eq|].
        split; [intros i Hi; lia|].
        split; [|auto].
        intros pos Hpos. apply lookup_insert_ne. intros E. apply Hpos.
        rewrite <- E. cbn [fst snd]. lia. }
    intros u2. eapply hoare_bind with
      (Q := λ q, λ w2, q = len (py_str title) * PIXEL_CHAR_WIDTH / PIXEL_CELL_WIDTH /\
                       title_written n l l' r c title header_format tb ws O w2).
    { intros w2 H. eexists _, w2. split; [reflexivity|]. split; [reflexivity | exact H]. }
    intros cell_header. eapply hoare_bind with
      (Q := λ _, title_written n l l' r c title header_format tb ws (Z.to_nat k)).
    { intros w2 (-> & H). fold k.
      exact (hoare_for_range
               (λ j, title_written n l l' r c title header_format tb ws j) (Z.to_nat k)
               _ (λ j _, title_blank_step n l l' r c title header_format tb ws j Hne) w2 H). }
    intros u3 w2 H. eexists tt, _. split; [reflexivity|].
    exists w2. split; [exact H|].
    destruct H as (_ & _ & Ha & _). unfold set_cursor. rewrite Ha. reflexivity. }
  destruct (Hbranch w1 eq_refl) as ([] & w2 & E2 & w3 & Hw3 & ->).
  destruct Hw3 as (Hn3 & Hl3 & Ha3 & Hp3 & Hp3' & ws3 & Hws3 & Ht & Hb & Hout & Htb & _).
  assert (Hk : Z.of_nat (Z.to_nat k) = k) by (apply Z2Nat.id; subst k; lia).
  rewrite Hk in *.
  set (s := default (height + 2, 0) shift).
  exists ws, l, height.
  exists (set_lists (<[l' := (r + s.1, c + s.2)]> (lists w3)) (set_cursor (Some l') w3)).
  exists ws3, l'.
  split; [unfold active_ws; rewrite Hn; exact Hws|]. split; [exact Hl|].
  split; [exact Hh|]. split.
  { unfold _textbox. rewrite (bind_Ok _ _ _ _ _ Hh).
    rewrite <- (put_ws_id _ _ _ Hws) at 1.
    unfold mbind at 1, M_bind at 1. rewrite (the_cursor_run w n l r c Hl Hp).
    unfold mbind at 1, M_bind at 1, gets at 1.
    unfold mbind at 1, M_bind at 1. rewrite (on_sheet_run w n Hn).
    cbn [fst snd PIXEL_SHEET_WIDTH put_ws set_sheetnames].
    fold tb. fold (put_ws n (ws_insert_textbox tb ws) w). fold w1.
    rewrite (bind_Ok _ _ _ _ _ E2). fold s.
    unfold apply_shift. cbn [_cursor set_cursor lists]. rewrite Hp3'. reflexivity. }
  split; [unfold active_ws; cbn; rewrite Hn3; exact Hws3|].
  split; [exact Htb|]. split; [exact Ht|]. split; [exact Hb|]. split; [exact Hout|].
  split; [reflexivity|]. split; [congruence|]. split; [exact Hfresh|].
  split.
  - cbn. rewrite lookup_insert_ne by congruence. rewrite Hp3. f_equal. f_equal. lia.
  - unfold cursor_pos. cbn. rewrite lookup_insert_eq. subst s.
    destruct shift as [sh|]; cbn; [reflexivity|]. rewrite Z.add_0_r. reflexivity.
Qed.

(** A note under the title "Summary" (7 characters, so 3 blank cells) at
    the origin of a new sheet: the cursor ends at [(3, 0)], and the list
    of the default argument, which was the cursor, is left at [(0, 4)]. *)
Lemma titled_textbox_layout_witness :
  exists w' ws',
    _textbox "note" (Some (PyStr "Summary")) ∅ ∅ None sheet_A = Ok tt w' /\
    active_ws w' = Some ws' /\
    cells ws' !! (0, 0) = Some (PyStr "Summary", ∅) /\
    cells ws' !! (0, 3) = Some (PyStr "", ∅) /\
    lists w' !! default_cursor = Some (0, 4) /\
    cursor_pos w' = Some (3, 0).
Proof.
  destruct (titled_textbox_layout "note" (PyStr "Summary") ∅ ∅ None sheet_A 0 0
              sheet_A_ready)
    as (ws & l & height & w' & ws' & l' & _ & Hl & Hh & E & Hws' & _ & Ht & Hb & _
        & _ & _ & _ & Hold & Hpos); [vm_compute; discriminate|].
  assert (l = default_cursor) as ->.
  { unfold sheet_A in Hl. rewrite new_sheet_A_state in Hl. cbn in Hl. congruence. }
  assert (height = 1) as ->.
  { rewrite printed_text_height_run in Hh by (vm_compute; discriminate).
    assert (Hw : forall (a b : Z) (w1 w2 : State), Ok a w1 = Ok b w2 -> b = a)
      by (intros a b w1 w2 H; congruence).
    apply Hw in Hh. rewrite Hh. reflexivity. }
  exists w', ws'. split; [exact E|]. split; [exact Hws'|]. split; [exact Ht|].
  split; [apply (Hb 3); vm_compute; split; discriminate|].
  split; [exact Hold | exact Hpos].
Defined.

(** ** The width of a column, by the length of its header *)

Lemma shr_fexp_lower (m e : Z) (l : location) :
  0 < m -> -1074 <= e ->
  0 < shr_m (fst (shr_fexp prec emax m e l)) /\
  Zdigits2 m + e - 53 <= snd (shr_fexp prec emax m e l) /\
  e <= snd (shr_fexp prec emax m e l).
Proof.
  intros Hm He. unfold shr_fexp, shr. rewrite fexp_eq.
  destruct m as [|p|p]; try lia. cbn [Zdigits2].
  pose proof (digits_lower p) as Hl.
  destruct (Z.max (Z.pos (digits2_pos p) + e - 53) (-1074) - e) as [|d|d] eqn:En;
    cbn [fst snd].
  - rewrite shr_record_of_loc_m. lia.
  - rewrite iter_shr_1_m by (rewrite shr_record_of_loc_m; lia).
    rewrite shr_record_of_loc_m. split; [|lia].
    apply Z.div_str_pos. split; [apply Z.pow_pos_nonneg; lia|].
    eapply Z.le_trans; [|exact Hl]. apply Z.pow_le_mono_r; lia.
  - rewrite shr_record_of_loc_m. lia.
Qed.

Lemma round_nearest_even_ge (m : Z) (l : location) : m <= round_nearest_even m l.
Proof. destruct l as [|[]]; simpl; try destruct (Z.even m); lia. Qed.

(** Rounding a positive mantissa in the normal range gives a finite
    value, whose exponent is at least the canonical one of the input. *)
Lemma binary_round_aux_finite (s : bool) (m e : Z) (l : location) :
  0 < m -> -1074 <= e <= 971 -> Zdigits2 m + e <= 1023 ->
  exists m' e', binary_round_aux prec emax s m e l = S754_finite s m' e' /\
                Zdigits2 m + e - 53 <= e'.
Proof.
  intros Hm He Hb. unfold binary_round_aux.
  destruct (shr_fexp_bound m e l ltac:(lia)) as (_ & H2 & H3).
  destruct (shr_fexp_lower m e l Hm ltac:(lia)) as (L1 & L2 & L3).
  destruct (shr_fexp prec emax m e l) as [r1 e1]. cbn [fst snd] in *.
  pose proof (round_nearest_even_ge (shr_m r1) (loc_of_shr_record r1)) as Hge.
  destruct (round_nearest_even_bound (shr_m r1) (loc_of_shr_record r1) ltac:(lia)) as [_ H5].
  set (m2 := round_nearest_even (shr_m r1) (loc_of_shr_record r1)) in *.
  destruct (shr_fexp_bound m2 e1 loc_Exact ltac:(lia)) as (_ & H7 & H8).
  destruct (shr_fexp_lower m2 e1 loc_Exact ltac:(lia) ltac:(lia)) as (K1 & K2 & K3).
  destruct (shr_fexp prec emax m2 e1 loc_Exact) as [r2 e2]. cbn [fst snd] in *.
  rewrite fexp_eq in *.
  destruct (shr_m r2) as [|p|p] eqn:Er; try lia.
  change (emax - prec) with 971.
  destruct (Z.leb_spec e2 971); [|lia].
  exists p, e2. split; [reflexivity | lia].
Qed.

Lemma digits_mul_lower (p q : positive) :
  Z.pos (digits2_pos p) + Z.pos (digits2_pos q) - 1 <= Z.pos (digits2_pos (p * q)).
Proof.
  pose proof (digits_lower p) as Hp. pose proof (digits_lower q) as Hq.
  pose proof (digits_upper (p * q)) as Hu.
  destruct (Z.le_gt_cases (Z.pos (digits2_pos p) + Z.pos (digits2_pos q) - 1)
              (Z.pos (digits2_pos (p * q)))) as [|Hgt]; [assumption|].
  assert (2 ^ Z.pos (digits2_pos (p * q))
          <= 2 ^ (Z.pos (digits2_pos p) - 1 + (Z.pos (digits2_pos q) - 1)))
    by (apply Z.pow_le_mono_r; lia).
  rewrite Z.pow_add_r in H by lia. rewrite Pos2Z.inj_mul in Hu. nia.
Qed.

Lemma digits_ge (p : positive) (k : Z) : 0 <= k -> 2 ^ k <= Z.pos p -> k + 1 <= Z.pos (digits2_pos p).
Proof.
  intros Hk Hp. pose proof (digits_upper p) as Hu.
  destruct (Z.le_gt_cases (k + 1) (Z.pos (digits2_pos p))) as [|Hgt]; [assumption|].
  assert (2 ^ Z.pos (digits2_pos p) <= 2 ^ k) by (apply Z.pow_le_mono_r; lia). lia.
Qed.

Lemma binary_round_int_canonical (s : bool) (p : positive) :
  Z.pos p < 2 ^ 53 ->
  exists m e, binary_round prec emax s p 0 = S754_finite s m e /\
              Z.pos (digits2_pos m) = 53 /\ e = Z.pos (digits2_pos p) - 53.
Proof.
  intros Hp.
  assert (Hd : Z.pos (digits2_pos p) <= 53).
  { apply (Zdigits2_le (Z.pos p) 53); lia. }
  unfold binary_round, shl_align. rewrite Z.add_0_r, fexp_eq.
  destruct (Z.max (Z.pos (digits2_pos p) - 53) (-1074) - 0) as [|d|d] eqn:En; try lia.
  - exists p, 0. split; [|lia]. apply binary_round_aux_exact; [rewrite fexp_eq|]; lia.
  - eexists _, _. split; [|split].
    + apply binary_round_aux_exact; [rewrite fexp_eq, digits2_pos_iter_xO|]; lia.
    + rewrite digits2_pos_iter_xO. lia.
    + lia.
Qed.

(** The printed width of 29 characters or more is a finite float with an
    exponent of at least -47, so at least 32. *)
Lemma printed_width_long (z : Z) :
  2 ^ 8 <= z < 2 ^ 53 ->
  exists m e, mul (of_int z) PIXEL_TO_WIDTH_RATIO = S754_finite false m e /\ -47 <= e.
Proof.
  intros Hz. destruct z as [|p|p]; try lia.
  destruct (binary_round_int_canonical false p) as (m & e1 & E & Hm & He1); [lia|].
  unfold of_int, binary_normalize. rewrite E.
  rewrite (proj2 (proj2 (proj2 constants_values))).
  unfold mul. cbn [SFmul xorb].
  pose proof (digits_ge p 8 ltac:(lia) ltac:(lia)) as Hp.
  assert (Hp53 : Z.pos (digits2_pos p) <= 53) by (apply (Zdigits2_le (Z.pos p) 53); lia).
  pose proof (digits_mul_lower m 4745668107341660) as Hlo.
  pose proof (digits_mul m 4745668107341660) as Hhi.
  change (Z.pos (digits2_pos 4745668107341660)) with 53 in Hlo, Hhi.
  destruct (binary_round_aux_finite false (Z.pos (m * 4745668107341660)) (e1 + -55) loc_Exact)
    as (m' & e' & E' & He'); cbn [Zdigits2]; try lia.
  exists m', e'. split; [exact E'|]. cbn [Zdigits2] in He'. lia.
Qed.

Lemma ltb_by_exponent (m1 m2 : positive) (e1 e2 : Z) :
  e1 < e2 -> ltb (S754_finite false m1 e1) (S754_finite false m2 e2) = true /\
             ltb (S754_finite false m2 e2) (S754_finite false m1 e1) = false.
Proof.
  intros H. unfold ltb, SFltb. cbn [SFcompare].
  rewrite (proj2 (Z.compare_lt_iff e1 e2) H).
  rewrite (proj2 (Z.compare_gt_iff e2 e1) H). split; reflexivity.
Qed.

(** The width the adjustment gives, with the default bounds, to a column
    of the default width, by the number [n] of characters of the header. *)
Lemma width_by_length (n : Z) :
  0 <= n < 2 ^ 49 ->
  let need := mul (of_int (n * PIXEL_CHAR_WIDTH)) PIXEL_TO_WIDTH_RATIO in
  (if ltb CELL_WIDTH need
   then __clip need default_min_cell_width default_max_cell_width
   else CELL_WIDTH)
  = if n <=? 7 then CELL_WIDTH else if n <=? 20 then need else default_max_cell_width.
Proof.
  intros Hn need.
  destruct (Z.le_gt_cases 29 n) as [Hlong|Hshort].
  2:{ assert (Hk : exists k : nat, n = Z.of_nat k) by (exists (Z.to_nat n); lia).
      destruct Hk as [k ->].
      do 29 (destruct k as [|k]; [vm_compute; reflexivity|]). lia. }
  destruct (printed_width_long (n * PIXEL_CHAR_WIDTH)) as (m & e & E & He);
    [unfold PIXEL_CHAR_WIDTH; lia|].
  subst need. rewrite E.
  destruct (Z.leb_spec n 7); [lia|]. destruct (Z.leb_spec n 20); [lia|].
  unfold CELL_WIDTH, __clip.
  rewrite (proj1 (ltb_by_exponent 4745668107341660 m (-49) e ltac:(lia))).
  unfold default_min_cell_width.
  rewrite (proj2 (ltb_by_exponent 7881299347898368 m (-51) e ltac:(lia))).
  rewrite (proj1 (proj2 (proj2 constants_values))).
  rewrite (proj1 (ltb_by_exponent 6755399441055744 m (-48) e ltac:(lia))).
  reflexivity.
Qed.

(** X9.  With the default bounds [3.5] and [24], what [_table] does to a
    column that has the default width 8.43 depends on the number of
    characters of the header only: up to 7 the column is left alone,
    from 8 to 20 it gets the printed width of the header, and from 21 on
    it gets the width 24. *)
Theorem header_length_decides_width (w : State) (p : Z * Z) (ws : Worksheet)
    (col : Z) (text : pyobj) :
  ready w p -> active_ws w = Some ws ->
  MIN_CELL_WIDTH w = default_min_cell_width ->
  MAX_CELL_WIDTH w = default_max_cell_width ->
  width_of ws col = CELL_WIDTH ->
  len (py_str text) < 2 ^ 49 ->
  exists w' ws',
    ensure_width col text w = Ok tt w' /\ active_ws w' = Some ws' /\
    width_of ws' col
    = if len (py_str text) <=? 7 then CELL_WIDTH
      else if len (py_str text) <=? 20 then __printed_value_width text
      else of_int 24.
Proof.
  intros Hready Hws Hmin Hmax Hcol Hlen.
  destruct (ensure_width_at w p col text Hready) as (n & ws0 & dcf & Hn & Hws0 & Hd & E).
  assert (ws0 = ws) as ->.
  { unfold active_ws in Hws. rewrite Hn in Hws. simpl in Hws. congruence. }
  eexists _, _. split; [exact E|].
  split; [unfold active_ws; simpl; rewrite Hn; simpl; apply lookup_insert_eq|].
  unfold width_of at 1. rewrite widen_col_info, Hcol, Hmin, Hmax.
  pose proof (width_by_length (len (py_str text))
                ltac:(pose proof (len_nonneg (py_str text)); lia)) as Hw.
  cbv zeta in Hw. fold (__printed_value_width text) in Hw.
  change (of_int 24) with default_max_cell_width. rewrite <- Hw.
  destruct (ltb CELL_WIDTH (__printed_value_width text)).
  - rewrite lookup_insert_eq. reflexivity.
  - fold (width_of ws col). exact Hcol.
Qed.

(** On a new sheet with the default bounds: "Total" keeps the width 8.43,
    a header of 12 characters gets its printed width, and a header of 30
    characters gets 24. *)
Lemma header_length_decides_width_witness :
  (exists w' ws', ensure_width 1 (PyStr "Total") sheet_A = Ok tt w' /\
                  active_ws w' = Some ws' /\ width_of ws' 1 = CELL_WIDTH) /\
  (exists w' ws', ensure_width 1 (PyStr "abcdefghijkl") sheet_A = Ok tt w' /\
                  active_ws w' = Some ws' /\
                  width_of ws' 1 = __printed_value_width (PyStr "abcdefghijkl")) /\
  (exists w' ws', ensure_width 1 (PyStr "abcdefghijklmnopqrstuvwxyz0123") sheet_A = Ok tt w' /\
                  active_ws w' = Some ws' /\ width_of ws' 1 = of_int 24).
Proof.
  assert (Hws : active_ws sheet_A = Some new_ws) by apply new_sheet_A_active.
  assert (H : forall text, len (py_str text) < 2 ^ 49 ->
            exists w' ws', ensure_width 1 text sheet_A = Ok tt w' /\
              active_ws w' = Some ws' /\
              width_of ws' 1 = if len (py_str text) <=? 7 then CELL_WIDTH
                               else if len (py_str text) <=? 20 then __printed_value_width text
                               else of_int 24).
  { intros text Hlen.
    apply (header_length_decides_width sheet_A (0, 0) new_ws 1 text sheet_A_ready Hws);
      [reflexivity | reflexivity | apply new_ws_width | exact Hlen]. }
  split; [|split].
  - apply (H (PyStr "Total")). vm_compute. reflexivity.
  - apply (H (PyStr "abcdefghijkl")). vm_compute. reflexivity.
  - apply (H (PyStr "abcdefghijklmnopqrstuvwxyz0123")). vm_compute. reflexivity.
Defined.

(** ** The themed reporter *)

Lemma check_keys_inr (keys : list string) (formats : gmap string style) :
  check_keys keys formats = inr tt <-> Forall (λ k, is_Some (formats !! k)) keys.
Proof.
  induction keys as [|key keys IH]; cbn [check_keys].
  - split; [intros _; constructor | reflexivity].
  - destruct (formats !! key) as [f|] eqn:E.
    + rewrite IH. split.
      * intros H. constructor; [rewrite E; eauto | exact H].
      * intros H. inversion H. assumption.
    + split; [discriminate|]. intros H. inversion H as [|? ? [f Hf]].
      rewrite E in Hf. discriminate.
Qed.

Lemma check_keys_inl (keys : list string) (formats : gmap string style) (key : string) :
  check_keys keys formats = inl (ValueError key) <->
  exists before after,
    keys = before ++ key :: after /\ formats !! key = None /\
    Forall (λ k, is_Some (formats !! k)) before.
Proof.
  induction keys as [|k keys IH]; cbn [check_keys].
  - split; [discriminate|]. intros (before & after & H & _). destruct before; discriminate.
  - destruct (formats !! k) as [f|] eqn:E.
    + rewrite IH. split.
      * intros (before & after & -> & Hk & Hb). exists (k :: before), after.
        split; [reflexivity|]. split; [exact Hk|]. constructor; [rewrite E; eauto | exact Hb].
      * intros (before & after & H & Hk & Hb). destruct before as [|k' before].
        -- injection H as -> _. congruence.
        -- injection H as -> ->. exists before, after. inversion Hb. auto.
    + split.
      * intros [= <-]. exists [], keys. split; [reflexivity|]. split; [exact E | constructor].
      * intros (before & after & H & Hk & Hb). destruct before as [|k' before].
        -- injection H as -> _. reflexivity.
        -- injection H as -> _. inversion Hb as [|? ? [f Hf]]. congruence.
Qed.

Lemma check_keys_unit (keys : list string) (formats : gmap string style) (u : unit) :
  check_keys keys formats = inr u <-> check_keys keys formats = inr tt.
Proof. destruct u. tauto. Qed.

(** X15.  [_read_theme] returns the theme as it was read, and does so
    exactly when the six necessary styles are in it; otherwise the
    [ValueError] names the first of the necessary keys, in the order of
    [NECESSARY_FORMAT_KEYS], that the theme lacks. *)
Theorem read_theme_checks_the_keys (theme : gmap string style) :
  (forall formats,
     _read_theme theme = inr formats <->
     formats = theme /\ forall key, key ∈ NECESSARY_FORMAT_KEYS -> is_Some (theme !! key)) /\
  (forall key,
     _read_theme theme = inl (ValueError key) <->
     exists before after,
       NECESSARY_FORMAT_KEYS = before ++ key :: after /\ theme !! key = None /\
       forall k, k ∈ before -> is_Some (theme !! k)).
Proof.
  unfold _read_theme. cbv zeta. split.
  - intros formats. rewrite <- Forall_forall, <- check_keys_inr.
    destruct (check_keys NECESSARY_FORMAT_KEYS theme) as [e|[]]; split.
    + discriminate.
    + intros [_ H]. discriminate.
    + intros [= <-]. auto.
    + intros [-> _]. reflexivity.
  - intros key. setoid_rewrite <- Forall_forall. rewrite <- check_keys_inl.
    destruct (check_keys NECESSARY_FORMAT_KEYS theme) as [e|[]]; split; congruence.
Qed.

(** The example theme is accepted; without its "textbox" style, the
    error names "textbox". *)
Lemma read_theme_checks_the_keys_witness :
  _read_theme example_theme = inr example_theme /\
  _read_theme (delete "textbox" example_theme) = inl (ValueError "textbox").
Proof.
  split.
  - apply (proj1 (read_theme_checks_the_keys example_theme)). split; [reflexivity|].
    intros key Hkey. unfold NECESSARY_FORMAT_KEYS in Hkey.
    repeat (apply elem_of_cons in Hkey; destruct Hkey as [->|Hkey]; [eexists; reflexivity|]).
    apply elem_of_nil in Hkey. contradiction.
  - apply (proj2 (read_theme_checks_the_keys (delete "textbox" example_theme))).
    exists ["default_cell"; "sheet_title"; "text_title"], ["table_columns"; "table_index"].
    split; [reflexivity|]. split; [apply lookup_delete_eq|].
    intros k Hk.
    repeat (apply elem_of_cons in Hk; destruct Hk as [->|Hk]; [eexists; reflexivity|]).
    apply elem_of_nil in Hk. contradiction.
Defined.

(** *** Running the methods of the themed reporter *)

Lemma bindX_Done {A B : Type} (m : MX A) (f : A -> MX B) (x x' : ExcelReporter) (a : A) :
  m x = Done a x' -> (m ≫= f) x = f a x'.
Proof. intros H. unfold mbind, MX_bind. rewrite H. reflexivity. Qed.


Lemma super_Ok {A : Type} (m : M A) (x : ExcelReporter) (a : A) (w : State) :
  m (base x) = Ok a w -> super m x = Done a (set_base w x).
Proof. intros H. unfold super. rewrite H. reflexivity. Qed.




Lemma truediv_pos (a b : Z) :
  0 < b < 2 ^ 53 -> py_truediv (Int a) (Int b) = inr (Float (div (of_int a) (of_int b))).
Proof.
  intros Hb. destruct (of_int_pos b Hb) as (m & e & E & _).
  unfold py_truediv. cbn [to_float]. rewrite E. reflexivity.
Qed.



(** [_image] with a shift given. *)
Lemma image_shift_run (image : Image) (image_name : string) (max_pixel_size : Z * Z)
    (image_options : gmap string pval) (s : Z * Z)
    (w : State) (n : string) (ws : Worksheet) (l : loc) (a b : Z) :
  _sheet w = Some n -> sheetnames w !! n = Some ws ->
  _cursor w = Some l -> lists w !! l = Some (a, b) ->
  0 < (size image).1 < 2 ^ 53 -> 0 < (size image).2 < 2 ^ 53 ->
  _image image image_name max_pixel_size image_options (Some s) w
  = Ok tt (set_lists (<[l := (a + s.1, b + s.2)]> (lists w))
             (put_ws n (ws_insert_image
                          (mkPicture a b image_name image
                             (image_options ∪
                              {[ "x_scale" := PNum (image_scale max_pixel_size (size image));
                                 "y_scale" := PNum (image_scale max_pixel_size (size image));
                                 "object_position" := PNum (Int 3) ]})) ws) w)).
Proof.
  intros Hn Hws Hl Hp H1 H2. unfold _image.
  rewrite (truediv_pos _ _ H1), (truediv_pos _ _ H2).
  rewrite <- (put_ws_id _ _ _ Hws) at 1.
  unfold mbind, M_bind, lift.
  rewrite (the_cursor_run w n l a b Hl Hp). cbv zeta.
  rewrite (on_sheet_run w n Hn).
  unfold mret, M_ret.
  apply (apply_shift_run w n l a b Hl Hp).
Qed.

(** [_textbox] without a title. *)
Lemma textbox_plain_run (text : string) (header_format textbox_format : style)
    (shift : option (Z * Z))
    (w : State) (n : string) (ws : Worksheet) (l : loc) (a b : Z) :
  _sheet w = Some n -> sheetnames w !! n = Some ws ->
  _cursor w = Some l -> lists w !! l = Some (a, b) ->
  PIXEL_SHEET_WIDTH w <> 0 ->
  let height := sum_Z (map (line_rows (PIXEL_SHEET_WIDTH w)) (split newline text)) in
  let s := default (height + 2, 0) shift in
  _textbox text None header_format textbox_format shift w
  = Ok tt (set_lists (<[l := (a + s.1, b + s.2)]> (lists w))
             (put_ws n (ws_insert_textbox
                          (mkTextbox (a + 1) b text
                             (textbox_format ∪
                              {[ "width" := PNum (Int (PIXEL_SHEET_WIDTH w));
                                 "height" := PNum (Int (height * PIXEL_ROW_HEIGHT));
                                 "object_position" := PNum (Int 1) ]})) ws) w)).
Proof.
  intros Hn Hws Hl Hp HS height s. unfold _textbox.
  rewrite (bind_Ok _ _ _ _ _ (printed_text_height_run text w HS)). fold height.
  rewrite <- (put_ws_id _ _ _ Hws) at 1.
  unfold mbind at 1, M_bind at 1. rewrite (the_cursor_run w n l a b Hl Hp).
  unfold mbind at 1, M_bind at 1, gets at 1.
  unfold mbind at 1, M_bind at 1. rewrite (on_sheet_run w n Hn).
  unfold mbind at 1, M_bind at 1, mret at 1, M_ret at 1.
  apply (apply_shift_run w n l a b Hl Hp).
Qed.













(** [_image] on a sheet, with or without a shift: the rows the image
    takes are defined and the state it returns in. *)
Lemma image_run_at (image : Image) (image_name : string) (max_pixel_size : Z * Z)
    (image_options : gmap string pval) (shift : option (Z * Z))
    (w : State) (n : string) (ws : Worksheet) (l : loc) (r c : Z) :
  _sheet w = Some n -> sheetnames w !! n = Some ws ->
  _cursor w = Some l -> lists w !! l = Some (r, c) ->
  0 < (size image).1 < 2 ^ 53 -> 0 < (size image).2 < 2 ^ 53 ->
  - 2 ^ 53 < max_pixel_size.1 < 2 ^ 53 -> - 2 ^ 53 < max_pixel_size.2 < 2 ^ 53 ->
  let scale := image_scale max_pixel_size (size image) in
  exists rows k,
    py_truediv (py_mul (Int (size image).2) scale) (Int PIXEL_ROW_HEIGHT) = inr rows /\
    math_ceil rows = inr k /\
    let s := default (k + 1, 0) shift in
    _image image image_name max_pixel_size image_options shift w
    = Ok tt (set_lists (<[l := (r + s.1, c + s.2)]> (lists w))
               (put_ws n (ws_insert_image
                            (mkPicture r c image_name image
                               (image_options ∪
                                {[ "x_scale" := PNum scale; "y_scale" := PNum scale;
                                   "object_position" := PNum (Int 3) ]})) ws) w)).
Proof.
  intros Hn Hws Hl Hp Hw Hh Hmw Hmh scale.
  destruct (truediv_int _ _ Hmw Hw) as (fw & Ew & Hfw).
  destruct (truediv_int _ _ Hmh Hh) as (fh & Eh & Hfh).
  rewrite (truediv_pos _ _ Hw) in Ew. rewrite (truediv_pos _ _ Hh) in Eh.
  injection Ew as Ew. injection Eh as Eh.
  destruct (py_min_one fw fh) as [Hcases _]. cbv zeta in Hcases.
  assert (Hscale : scale = py_min (Int 1) [Float fw; Float fh])
    by (unfold scale, image_scale; rewrite Ew, Eh; reflexivity).
  rewrite <- Hscale in Hcases.
  destruct (image_rows_defined (size image).2 scale Hh) as (rows & k & Erows & Ek).
  { destruct Hcases as [->|[->| ->]]; eauto. }
  exists rows, k. split; [exact Erows|]. split; [exact Ek|]. cbv zeta.
  destruct shift as [sh|].
  - apply (image_shift_run image image_name max_pixel_size image_options sh
             w n ws l r c Hn Hws Hl Hp Hw Hh).
  - unfold _image. rewrite (truediv_pos _ _ Hw), (truediv_pos _ _ Hh).
    fold (image_scale max_pixel_size (size image)). fold scale.
    rewrite <- (put_ws_id _ _ _ Hws) at 1.
    unfold mbind at 1, M_bind at 1, lift at 1.
    unfold mbind at 1, M_bind at 1, lift at 1.
    cbv zeta. fold (image_scale max_pixel_size (size image)). fold scale.
    unfold mbind at 1, M_bind at 1. rewrite (the_cursor_run w n l r c Hl Hp).
    unfold mbind at 1, M_bind at 1. rewrite (on_sheet_run w n Hn).
    rewrite Erows. unfold mbind, M_bind, mret, M_ret, lift. rewrite Ek.
    exact (apply_shift_run w n l r c Hl Hp (k + 1, 0) _).
Qed.

(** X21.  Content blocks stack down the sheet.  On a sheet of a themed
    reporter with the cursor at [(r, c)], a text box without a title, an
    image and a text inserted in a row, the first two without a shift:
    the box is one row below [r] with the "textbox" style of the theme,
    the picture is at row [r + height + 2], the text at row
    [r + height + 2 + k + 1], all at column [c], where [height] is the
    printed height of the text of the box and [k] the number of rows of
    the scaled image; the cursor ends at the text's cell plus its shift.
    Nothing else is added to the sheet. *)
Theorem blocks_stack_down_the_sheet (text : string) (image : Image) (image_name : string)
    (max_pixel_size : Z * Z) (image_options : gmap string pval)
    (value : pyobj) (shift : Z * Z)
    (x : ExcelReporter) (tt_ tb : style) (r c : Z) :
  _formats x !! "text_title" = Some tt_ ->
  _formats x !! "textbox" = Some tb ->
  ready (base x) (r, c) -> PIXEL_SHEET_WIDTH (base x) <> 0 ->
  0 < (size image).1 < 2 ^ 53 -> 0 < (size image).2 < 2 ^ 53 ->
  - 2 ^ 53 < max_pixel_size.1 < 2 ^ 53 -> - 2 ^ 53 < max_pixel_size.2 < 2 ^ 53 ->
  let height := sum_Z (map (line_rows (PIXEL_SHEET_WIDTH (base x))) (split newline text)) in
  let scale := image_scale max_pixel_size (size image) in
  exists rows k ws x' ws',
    py_truediv (py_mul (Int (size image).2) scale) (Int PIXEL_ROW_HEIGHT) = inr rows /\
    math_ceil rows = inr k /\
    active_ws (base x) = Some ws /\
    (insert_textbox text None None;;
     insert_image image image_name max_pixel_size image_options None;;
     insert_text value shift) x = Done tt x' /\
    active_ws (base x') = Some ws' /\
    textboxes ws' = mkTextbox (r + 1) c text
                      (tb ∪ {[ "width" := PNum (Int (PIXEL_SHEET_WIDTH (base x)));
                               "height" := PNum (Int (height * PIXEL_ROW_HEIGHT));
                               "object_position" := PNum (Int 1) ]}) :: textboxes ws /\
    pictures ws' = mkPicture (r + height + 2) c image_name image
                     (image_options ∪
                      {[ "x_scale" := PNum scale; "y_scale" := PNum scale;
                         "object_position" := PNum (Int 3) ]}) :: pictures ws /\
    cells ws' = <[(r + height + 2 + k + 1, c) := (value, ∅)]> (cells ws) /\
    col_info ws' = col_info ws /\
    cursor_pos (base x') = Some (r + height + 2 + k + 1 + shift.1, c + shift.2).
Proof.
  intros Htt Htb Hready HS Hw Hh Hmw Hmh height scale.
  destruct (ready_inv _ _ Hready) as (n & ws & l & dcf & Hn & Hws & Hl & Hp & Hd).
  pose proof (textbox_plain_run text tt_ tb None (base x) n ws l r c Hn Hws Hl Hp HS) as E1.
  cbv zeta in E1. fold height in E1. cbn [default fst snd] in E1.
  rewrite Z.add_assoc, Z.add_0_r in E1.
  set (ws1 := ws_insert_textbox _ ws) in E1.
  set (w1 := set_lists _ (put_ws n ws1 (base x))) in E1.
  destruct (image_run_at image image_name max_pixel_size image_options None w1 n ws1 l
              (r + height + 2) c)
    as (rows & k & Erows & Ek & E2); try assumption.
  { cbn. apply lookup_insert_eq. }
  { cbn. apply lookup_insert_eq. }
  cbv zeta in E2. fold scale in E2, Erows. cbn [default fst snd] in E2.
  rewrite Z.add_assoc, Z.add_0_r in E2.
  set (ws2 := ws_insert_image _ ws1) in E2.
  set (w2 := set_lists _ (put_ws n ws2 w1)) in E2.
  pose proof (text_run value None shift w2 n ws2 l (r + height + 2 + k + 1) c) as E3.
  exists rows, k, ws. eexists _, _.
  split; [exact Erows|]. split; [exact Ek|].
  split; [unfold active_ws; rewrite Hn; exact Hws|].
  split.
  { unfold insert_textbox.
    erewrite bindX_Done.
    2:{ erewrite bindX_Done by (unfold format_of; rewrite Htt; reflexivity).
        erewrite bindX_Done by (unfold format_of; rewrite Htb; reflexivity).
        apply super_Ok. exact E1. }
    erewrite bindX_Done by (unfold insert_image; apply super_Ok; exact E2).
    unfold insert_text. apply super_Ok. apply E3.
    - exact Hn.
    - cbn. apply lookup_insert_eq.
    - exact Hl.
    - cbn. apply lookup_insert_eq. }
  split; [unfold active_ws; cbn; rewrite Hn; cbn; apply lookup_insert_eq|].
  split; [reflexivity|]. split; [reflexivity|]. split; [reflexivity|].
  split; [reflexivity|].
  unfold cursor_pos. cbn. rewrite Hl. cbn. apply lookup_insert_eq.
Qed.

(** On the sheet "A" of a themed reporter: a box of one line, an image
    of 900 by 1600 pixels with the bound [(450, 800)], which takes 40
    rows, and a text with the shift [(2, 0)]. *)
Lemma blocks_stack_down_the_sheet_witness :
  exists x' ws',
    (insert_textbox "One line" None None;;
     insert_image (mkImage (900, 1600)) "plot" (450, 800) ∅ None;;
     insert_text (PyStr "note") (2, 0)) (set_base sheet_A example_reporter) = Done tt x' /\
    active_ws (base x') = Some ws' /\
    (exists p, pictures ws' = [p] /\ pic_row p = 3) /\
    cells ws' !! (44, 0) = Some (PyStr "note", ∅) /\
    cursor_pos (base x') = Some (46, 0).
Proof.
  destruct (blocks_stack_down_the_sheet "One line" (mkImage (900, 1600)) "plot" (450, 800) ∅
              (PyStr "note") (2, 0) (set_base sheet_A example_reporter)
              {[ "italic" := PNum (Int 1) ]} {[ "font_color" := PText "black" ]} 0 0
              eq_refl eq_refl sheet_A_ready ltac:(discriminate)
              ltac:(cbn; lia) ltac:(cbn; lia) ltac:(cbn; lia) ltac:(cbn; lia))
    as (rows & k & ws & x' & ws' & Erows & Ek & Hws & E & Hws' & _ & Hpic & Hcells & _ & Hpos).
  assert (Hinr : forall (A : Type) (a b : A), @inr exn A a = inr b -> b = a)
    by (intros A a b H; congruence).
  vm_compute in Erows. apply Hinr in Erows. subst rows.
  vm_compute in Ek. apply Hinr in Ek. subst k.
  assert (ws = new_ws) as ->.
  { pose proof (new_sheet_A_active default_pixel_sheet_width default_max_cell_width
                  default_min_cell_width) as H. fold sheet_A in H.
    cbn [base set_base] in Hws. congruence. }
  exists x', ws'. split; [exact E|]. split; [exact Hws'|].
  split; [eexists; split; [exact Hpic | reflexivity]|].
  split; [rewrite Hcells; apply lookup_insert_eq | exact Hpos].
Defined.


